(** * Scoring pipeline of the compliance system: feature derivation,
      anomaly scoring, risk scoring

    A shallow embedding of [data_processor.py], [anomaly_detector.py],
    [risk_scorer.py] and the handlers of [app.py].  Dictionaries with a fixed
    key set are records, data frames are lists of row records, [None] is [option], a raised exception
    is the [Raise] case of [result].

    Numbers.  The Python code computes on binary64 values.  They are modelled
    as rationals extended with the two infinities and NaN: comparisons follow
    IEEE 754 (every comparison with NaN is false), arithmetic on finite values
    is exact.  Rounding error of binary64 arithmetic and overflow are therefore
    abstracted; infinities and NaN enter through the data.

    Clock.  [datetime.now()] is an input of the embedding: an integer count of
    microseconds.  [get_taxpayer_features], [detect_anomaly] and
    [get_anomaly_explanation] read it once.  [score_taxpayer] reads it twice
    and [get_risk_explanation] four times: [score_taxpayer_at] and
    [get_risk_explanation_at] take one input per reading, and the functions
    without the suffix are the calls during which the clock stands still.

    Column types.  [read_csv] holds a numeric column as [int64] when every
    entry is written as an integer and as [float64] otherwise; the sum of an
    [int64] column wraps around.  The types of the two summed columns are
    inputs of [get_industry_benchmark_as]; [get_industry_benchmark] is the
    function on [float64] columns.

    scikit-learn.  A fitted estimator is a record of the functions the
    pipeline calls on it: [transform] for a scaler, [score_samples] for the
    isolation forest, the positive-class column of [predict_proba] and
    [feature_importances_] for the classifier.  Fitting is a parameter of
    [train]; an estimator that was never fitted is [None]. *)

From Stdlib Require Import ZArith QArith Qabs List String Ascii Bool Lia.
From Stdlib Require Import Permutation Sorted DecimalString Lqa.
Import ListNotations.

Set Implicit Arguments.

(* ------------------------------------------------------------------ *)
(** ** Numbers *)

Module Num.

Inductive num : Type :=
| Fin (q : Q)
| PInf
| NInf
| NaN.

Definition of_int (z : Z) : num := Fin (inject_Z z).

Definition Qltb (a b : Q) : bool := negb (Qle_bool b a).

(** [x < y] *)
Definition ltb (x y : num) : bool :=
  match x, y with
  | NaN, _ | _, NaN => false
  | Fin a, Fin b => Qltb a b
  | Fin _, PInf => true
  | Fin _, NInf => false
  | PInf, _ => false
  | NInf, NInf => false
  | NInf, _ => true
  end.

(** [x <= y] *)
Definition leb (x y : num) : bool :=
  match x, y with
  | NaN, _ | _, NaN => false
  | Fin a, Fin b => Qle_bool a b
  | Fin _, PInf => true
  | Fin _, NInf => false
  | PInf, PInf => true
  | PInf, _ => false
  | NInf, _ => true
  end.

(** [x > y] and [x >= y] *)
Definition gtb (x y : num) : bool := ltb y x.
Definition geb (x y : num) : bool := leb y x.

(** [x == y] *)
Definition eqb (x y : num) : bool :=
  match x, y with
  | Fin a, Fin b => Qeq_bool a b
  | PInf, PInf | NInf, NInf => true
  | _, _ => false
  end.

Definition is_nan (x : num) : bool :=
  match x with NaN => true | _ => false end.

(** [np.isinf] *)
Definition isinf (x : num) : bool :=
  match x with PInf | NInf => true | _ => false end.

(** [-x] *)
Definition neg (x : num) : num :=
  match x with
  | Fin q => Fin (- q)
  | PInf => NInf
  | NInf => PInf
  | NaN => NaN
  end.

(** [x + y] *)
Definition add (x y : num) : num :=
  match x, y with
  | NaN, _ | _, NaN => NaN
  | Fin a, Fin b => Fin (a + b)
  | PInf, NInf | NInf, PInf => NaN
  | PInf, _ | _, PInf => PInf
  | NInf, _ | _, NInf => NInf
  end.

(** [x - y] *)
Definition sub (x y : num) : num := add x (neg y).

Definition Qsign (q : Q) : comparison := (Qnum q ?= 0)%Z.

Definition inf_of_sign (c : comparison) : num :=
  match c with Gt => PInf | Lt => NInf | Eq => NaN end.

Definition sign_mul (c d : comparison) : comparison :=
  match c, d with
  | Eq, _ | _, Eq => Eq
  | Gt, Gt | Lt, Lt => Gt
  | _, _ => Lt
  end.

Definition sign (x : num) : option comparison :=
  match x with
  | Fin q => Some (Qsign q)
  | PInf => Some Gt
  | NInf => Some Lt
  | NaN => None
  end.

(** [x * y] *)
Definition mul (x y : num) : num :=
  match x, y with
  | Fin a, Fin b => Fin (a * b)
  | NaN, _ | _, NaN => NaN
  | _, _ =>
      match sign x, sign y with
      | Some c, Some d => inf_of_sign (sign_mul c d)
      | _, _ => NaN
      end
  end.

(** [x / y] on NumPy scalars: a zero divisor gives an infinity or NaN, it
    does not raise. *)
Definition div (x y : num) : num :=
  match x, y with
  | NaN, _ | _, NaN => NaN
  | Fin a, Fin b =>
      match Qsign b with
      | Eq => inf_of_sign (Qsign a)
      | _ => Fin (a / b)
      end
  | Fin _, _ => Fin 0
  | _, Fin b =>
      match sign x with
      | Some c => inf_of_sign (sign_mul c (match Qsign b with Eq => Gt | s => s end))
      | None => NaN
      end
  | _, _ => NaN
  end.

(** [abs(x)] *)
Definition abs (x : num) : num :=
  match x with
  | Fin q => Fin (Qabs q)
  | PInf | NInf => PInf
  | NaN => NaN
  end.

(** The integer nearest to [q], ties to the even one. *)
Definition round_half_even (q : Q) : Z :=
  let n := Qnum q in
  let d := Zpos (Qden q) in
  let fl := (n / d)%Z in
  let r2 := (2 * (n mod d))%Z in
  if (r2 <? d)%Z then fl
  else if (d <? r2)%Z then (fl + 1)%Z
  else if Z.even fl then fl else (fl + 1)%Z.

(** [round(x, ndigits)] for [ndigits >= 0]. *)
Definition round (x : num) (ndigits : nat) : num :=
  match x with
  | Fin q =>
      let p := Z.pow 10 (Z.of_nat ndigits) in
      Fin (Qmake (round_half_even (q * inject_Z p)) (Z.to_pos p))
  | _ => x
  end.

(** [x] lies in the closed unit interval. *)
Definition in_unit (x : num) : Prop :=
  leb (Fin 0) x = true /\ leb x (Fin 1) = true.

End Num.

(* ------------------------------------------------------------------ *)
(** ** Python built-ins used by the pipeline *)

Module Py.
Import Num.

(** Exceptions the modelled code can raise. *)
Inductive exn : Type :=
| NotFittedError    (* transform on a scaler that was never fitted *)
| AttributeError    (* attribute access on None *)
| KeyError          (* a column that the frame does not have *)
| TypeError.        (* subscripting or iterating None *)

Inductive result (A : Type) : Type :=
| Ret (a : A)
| Raise (e : exn).

Arguments Ret {A} a.
Arguments Raise {A} e.

Definition bind {A B : Type} (m : result A) (k : A -> result B) : result B :=
  match m with
  | Ret a => k a
  | Raise e => Raise e
  end.

Definition raises {A : Type} (m : result A) : Prop :=
  exists e, m = Raise e.

(** [min(a, b)]: the second argument replaces the first only when it
    compares strictly smaller. *)
Definition min (a b : num) : num := if ltb b a then b else a.

(** [max(a, b)]: the second argument replaces the first only when it
    compares strictly greater. *)
Definition max (a b : num) : num := if gtb b a then b else a.

(** [sep.join(parts)] *)
Fixpoint join (sep : string) (parts : list string) : string :=
  match parts with
  | [] => EmptyString
  | [p] => p
  | p :: rest => p ++ sep ++ join sep rest
  end.

(** The loop [for tp_id in ids: row = f(tp_id); if row: rows.append(row)];
    an exception raised by [f] ends it. *)
Fixpoint for_append {A : Type} (f : string -> result (option A)) (ids : list string)
  : result (list A) :=
  match ids with
  | [] => Ret []
  | tp_id :: rest =>
      bind (f tp_id) (fun row =>
      bind (for_append f rest) (fun rows =>
      Ret (match row with Some r => r :: rows | None => rows end)))
  end.

(** [df.sort_values(col, ascending=False)]: larger keys first, NaN keys
    last.  pandas does not fix the order of rows with equal keys; here they
    keep their order. *)
Definition sorts_before (kx ky : num) : bool :=
  (is_nan ky && negb (is_nan kx)) || ltb ky kx.

Fixpoint insert_desc {A : Type} (key : A -> num) (x : A) (rows : list A) : list A :=
  match rows with
  | [] => [x]
  | y :: rest =>
      if sorts_before (key y) (key x) then y :: insert_desc key x rest
      else x :: y :: rest
  end.

Definition sort_values_desc {A : Type} (key : A -> num) (rows : list A) : list A :=
  fold_right (insert_desc key) [] rows.

Definition str_of_nonneg (z : Z) : string :=
  NilZero.string_of_uint (N.to_uint (Z.to_N z)).

(** [f"{x:.1f}"] *)
Definition format_1f (x : num) : string :=
  match x with
  | Fin q =>
      let n := round_half_even (Qabs q * 10) in
      ((if Qltb q 0 then "-" else "")
         ++ str_of_nonneg (n / 10) ++ "." ++ str_of_nonneg (n mod 10))%string
  | PInf => "inf"%string
  | NInf => "-inf"%string
  | NaN => "nan"%string
  end.

End Py.

Notation "x <- m ;; k" := (Py.bind m (fun x => k))
  (at level 61, m at next level, right associativity).

(* ------------------------------------------------------------------ *)
(** ** data_processor.py *)

Module DataProcessor.
Import Num.

(** A row of [taxpayer_master.csv]; [Registration_Date] in microseconds. *)
Record Taxpayer : Type := mkTaxpayer {
  tp_Taxpayer_ID : string;
  tp_Business_Name : string;
  tp_Industry_Code : string;
  tp_Industry_Name : string;
  tp_Registration_Date : Z
}.

(** A row of [tax_returns.csv]. *)
Record Return : Type := mkReturn {
  rt_Taxpayer_ID : string;
  rt_Tax_Period : Z;
  rt_Gross_Revenue : num;
  rt_Tax_Liability : num;
  rt_Input_Tax_Claim : num
}.

(** A row of [audit_history.csv]. *)
Record Audit : Type := mkAudit {
  au_Taxpayer_ID : string;
  au_Audit_Start_Date : Z;
  au_Audit_Finding : string;
  au_Tax_Recovery : num
}.

(** The loaded [DataProcessor]: its three frames, rows in stored order. *)
Record t : Type := mk {
  master_data : list Taxpayer;
  returns_data : list Return;
  audit_data : list Audit
}.

(** The dictionary built by [get_taxpayer_features]. *)
Record Features : Type := mkFeatures {
  Taxpayer_ID : string;
  Business_Name : string;
  Industry_Code : string;
  Industry_Name : string;
  Gross_Revenue : num;
  Tax_Liability : num;
  Input_Tax_Claim : num;
  Input_Tax_Ratio : num;
  Revenue_Growth : num;
  Num_Returns : nat;
  Days_Since_Registration : Z
}.

Definition usec_per_day : Z := 86400000000.

(** [timedelta.days]: whole days, rounded towards minus infinity. *)
Definition days (delta : Z) : Z := (delta / usec_per_day)%Z.

(** [frame.iloc[-k]] on a frame known to be non-empty, [d] any of its rows. *)
Definition iloc_back {A : Type} (rows : list A) (k : nat) (d : A) : A :=
  nth (List.length rows - k) rows d.

Definition zero : num := Fin 0.

Definition get_taxpayer_features (self : t) (now : Z) (taxpayer_id : string)
  : option Features :=
  let taxpayer :=
    filter (fun r => String.eqb (tp_Taxpayer_ID r) taxpayer_id) (master_data self) in
  match taxpayer with
  | [] => None
  | tp0 :: _ =>
      let returns :=
        filter (fun r => String.eqb (rt_Taxpayer_ID r) taxpayer_id) (returns_data self) in
      match returns with
      | [] => None
      | r0 :: _ =>
          let latest_return := iloc_back returns 1 r0 in
          let input_tax_ratio :=
            if gtb (rt_Gross_Revenue latest_return) zero
            then div (rt_Input_Tax_Claim latest_return) (rt_Gross_Revenue latest_return)
            else zero in
          let revenue_growth :=
            if (1 <? List.length returns)%nat then
              let prev_revenue := rt_Gross_Revenue (iloc_back returns 2 r0) in
              let curr_revenue := rt_Gross_Revenue latest_return in
              if gtb prev_revenue zero
              then div (sub curr_revenue prev_revenue) prev_revenue
              else zero
            else zero in
          let industry := tp_Industry_Code tp0 in
          Some {| Taxpayer_ID := taxpayer_id;
                  Business_Name := tp_Business_Name tp0;
                  Industry_Code := industry;
                  Industry_Name := tp_Industry_Name tp0;
                  Gross_Revenue := rt_Gross_Revenue latest_return;
                  Tax_Liability := rt_Tax_Liability latest_return;
                  Input_Tax_Claim := rt_Input_Tax_Claim latest_return;
                  Input_Tax_Ratio := input_tax_ratio;
                  Revenue_Growth := revenue_growth;
                  Num_Returns := List.length returns;
                  Days_Since_Registration := days (now - tp_Registration_Date tp0) |}
      end
  end.

(** [frame.merge(keys, on='Taxpayer_ID')], an inner join: each row of the
    left frame once per row of [keys] with the same id. *)
Definition merge_inner (left : list Return) (keys : list string) : list Return :=
  flat_map (fun r => map (fun _ => r)
                       (filter (fun k => String.eqb (rt_Taxpayer_ID r) k) keys)) left.

(** The type of a numeric column of a frame. *)
Inductive dtype : Type :=
| int64
| float64.

(** [column.sum()] on a [float64] column: NaN entries are skipped, the
    empty sum is 0. *)
Definition sum (column : list num) : num :=
  fold_left (fun acc x => if is_nan x then acc else add acc x) column zero.

(** A 64-bit signed addition result: the value modulo 2^64 in
    [-2^63, 2^63). *)
Definition wrap64 (z : Z) : Z :=
  ((z + 9223372036854775808) mod 18446744073709551616 - 9223372036854775808)%Z.

(** The integer held by an entry of an [int64] column. *)
Definition int_of (x : num) : Z :=
  match x with
  | Fin q => (Qnum q / Zpos (Qden q))%Z
  | _ => 0%Z
  end.

(** [column.sum()] on an [int64] column: 64-bit additions, which wrap
    around without an error. *)
Definition sum_int64 (column : list num) : num :=
  of_int (fold_left (fun acc x => wrap64 (acc + int_of x)) column 0%Z).

Definition column_sum (type : dtype) (column : list num) : num :=
  match type with
  | int64 => sum_int64 column
  | float64 => sum column
  end.

Definition default_benchmark : num := Fin 0.1.

(** [get_industry_benchmark] on a store whose Gross_Revenue column has type
    [revenue_type] and whose Input_Tax_Claim column has type [claim_type];
    the merge keeps the types. *)
Definition get_industry_benchmark_as (revenue_type claim_type : dtype)
  (self : t) (industry_code : string) : num :=
  let industry_returns :=
    merge_inner (returns_data self)
      (map tp_Taxpayer_ID
         (filter (fun r => String.eqb (tp_Industry_Code r) industry_code)
            (master_data self))) in
  match industry_returns with
  | [] => default_benchmark
  | _ :: _ =>
      if gtb (column_sum revenue_type (map rt_Gross_Revenue industry_returns)) zero
      then div (column_sum claim_type (map rt_Input_Tax_Claim industry_returns))
               (column_sum revenue_type (map rt_Gross_Revenue industry_returns))
      else default_benchmark
  end.

Definition get_industry_benchmark (self : t) (industry_code : string) : num :=
  get_industry_benchmark_as float64 float64 self industry_code.

(** The rows of the frame returned by [get_all_taxpayer_features]. *)
Definition get_all_taxpayer_features (self : t) (now : Z) : list Features :=
  flat_map (fun tp =>
              match get_taxpayer_features self now (tp_Taxpayer_ID tp) with
              | Some features => [features]
              | None => []
              end) (master_data self).

End DataProcessor.

(* ------------------------------------------------------------------ *)
(** ** anomaly_detector.py *)

Module AnomalyDetector.
Import Num Py.

(** A fitted [StandardScaler]. *)
Record StandardScaler : Type := mkScaler {
  transform : list num -> list num
}.

(** A fitted [IsolationForest]; [score_samples] on one row. *)
Record IsolationForest : Type := mkForest {
  score_samples : list num -> num
}.

Record t : Type := mk {
  data_processor : DataProcessor.t;
  model : option IsolationForest;
  scaler : option StandardScaler;
  feature_names : option (list string)
}.

(** [AnomalyDetector(data_processor)] *)
Definition init (data_processor : DataProcessor.t) : t :=
  {| data_processor := data_processor;
     model := None;
     scaler := None;
     feature_names := None |}.

(** [self.scaler.transform(X)] *)
Definition scaler_transform (s : option StandardScaler) (X : list num)
  : result (list num) :=
  match s with
  | Some fitted => Ret (transform fitted X)
  | None => Raise NotFittedError
  end.

(** [self.model.score_samples(X_scaled)[0]] *)
Definition model_score_samples (m : option IsolationForest) (X_scaled : list num)
  : result num :=
  match m with
  | Some fitted => Ret (score_samples fitted X_scaled)
  | None => Raise AttributeError
  end.

(** [np.where(np.isinf(X), 0, X)] and [X.replace([np.inf, -np.inf], 0)] *)
Definition zero_inf (X : list num) : list num :=
  map (fun x => if isinf x then Fin 0 else x) X.

(** [X.fillna(0)] *)
Definition fillna0 (X : list num) : list num :=
  map (fun x => if is_nan x then Fin 0 else x) X.

Definition feature_cols : list string :=
  ["Input_Tax_Ratio"; "Revenue_Growth"; "Days_Since_Registration"]%string.

Definition feature_row (features : DataProcessor.Features) : list num :=
  [DataProcessor.Input_Tax_Ratio features;
   DataProcessor.Revenue_Growth features;
   of_int (DataProcessor.Days_Since_Registration features)].

Section Train.

Variable fit_scaler : list (list num) -> StandardScaler.
(** [IsolationForest(contamination, random_state).fit] *)
Variable fit_forest : Q -> Z -> list (list num) -> IsolationForest.

Definition train (self : t) (now : Z) : result t :=
  let features_df :=
    DataProcessor.get_all_taxpayer_features (data_processor self) now in
  match features_df with
  | [] => Raise KeyError
  | _ :: _ =>
      let X := map (fun f => fillna0 (feature_row f)) features_df in
      let X := map zero_inf X in
      let fitted := fit_scaler X in
      let X_scaled := map (transform fitted) X in
      Ret {| data_processor := data_processor self;
             model := Some (fit_forest 0.1 42 X_scaled);
             scaler := Some fitted;
             feature_names := Some feature_cols |}
  end.

End Train.

(** The dictionary returned by [detect_anomaly]. *)
Record Anomaly : Type := mkAnomaly {
  Taxpayer_ID : string;
  Business_Name : string;
  Industry_Name : string;
  Input_Tax_Ratio : num;
  Revenue_Growth : num;
  Anomaly_Score : num;
  Is_Anomalous : bool
}.

(** [max(0, min(1, (anomaly_score + 1) / 2))] *)
Definition normalize (anomaly_score : num) : num :=
  Py.max (Fin 0) (Py.min (Fin 1) (div (add anomaly_score (Fin 1)) (Fin 2))).

Definition detect_anomaly (self : t) (now : Z) (taxpayer_id : string)
  : result (option Anomaly) :=
  match DataProcessor.get_taxpayer_features (data_processor self) now taxpayer_id with
  | None => Ret None
  | Some features =>
      let X := feature_row features in
      let X := zero_inf X in
      X_scaled <- scaler_transform (scaler self) X ;;
      raw <- model_score_samples (model self) X_scaled ;;
      let anomaly_score := neg raw in
      let anomaly_score := normalize anomaly_score in
      Ret (Some {| Taxpayer_ID := taxpayer_id;
                   Business_Name := DataProcessor.Business_Name features;
                   Industry_Name := DataProcessor.Industry_Name features;
                   Input_Tax_Ratio := round (DataProcessor.Input_Tax_Ratio features) 4;
                   Revenue_Growth := round (DataProcessor.Revenue_Growth features) 4;
                   Anomaly_Score := round anomaly_score 4;
                   Is_Anomalous := gtb anomaly_score (Fin 0.5) |})
  end.

(** The rows of the frame returned by [detect_all_anomalies]; sorting a
    frame built from no rows fails, it has no [Anomaly_Score] column. *)
Definition detect_all_anomalies (self : t) (now : Z) : result (list Anomaly) :=
  anomalies <- for_append (detect_anomaly self now)
                 (map DataProcessor.tp_Taxpayer_ID
                    (DataProcessor.master_data (data_processor self))) ;;
  match anomalies with
  | [] => Raise KeyError
  | _ :: _ => Ret (sort_values_desc Anomaly_Score anomalies)
  end.

Definition percent (x : num) : num := mul x (Fin 100).

(** The four f-strings of [_generate_explanation]. *)
Definition higher_message (ratio_deviation : num) : string :=
  ("Input tax claim is " ++ format_1f (percent ratio_deviation)
     ++ "% higher than industry benchmark")%string.

Definition lower_message (ratio_deviation : num) : string :=
  ("Input tax claim is " ++ format_1f (percent (abs ratio_deviation))
     ++ "% lower than industry benchmark")%string.

Definition growth_message (revenue_growth : num) : string :=
  ("Revenue grew by " ++ format_1f (percent revenue_growth)
     ++ "% (unusually high)")%string.

Definition decline_message (revenue_growth : num) : string :=
  ("Revenue declined by " ++ format_1f (percent (abs revenue_growth)) ++ "%")%string.

Definition no_anomalies : string := "No significant anomalies detected".

(** The local [ratio_deviation] of [_generate_explanation]. *)
Definition ratio_deviation (features : DataProcessor.Features) (benchmark : num) : num :=
  if gtb benchmark (Fin 0)
  then div (sub (DataProcessor.Input_Tax_Ratio features) benchmark) benchmark
  else Fin 0.

Definition _generate_explanation (features : DataProcessor.Features) (benchmark : num)
  : string :=
  let explanations : list string := [] in
  let ratio_deviation := ratio_deviation features benchmark in
  let explanations :=
    if gtb ratio_deviation (Fin 1) then
      explanations ++ [higher_message ratio_deviation]
    else if ltb ratio_deviation (Fin (-0.5)) then
      explanations ++ [lower_message ratio_deviation]
    else explanations in
  let explanations :=
    if gtb (DataProcessor.Revenue_Growth features) (Fin 0.5) then
      explanations ++ [growth_message (DataProcessor.Revenue_Growth features)]
    else if ltb (DataProcessor.Revenue_Growth features) (Fin (-0.3)) then
      explanations ++ [decline_message (DataProcessor.Revenue_Growth features)]
    else explanations in
  match explanations with
  | [] => no_anomalies
  | _ :: _ => join " | " explanations
  end.

(** The dictionary returned by [get_anomaly_explanation]. *)
Record Explanation : Type := mkExplanation {
  ex_Taxpayer_ID : string;
  ex_Input_Tax_Ratio : num;
  ex_Industry_Benchmark : num;
  ex_Deviation : num;
  ex_Deviation_Percentage : num;
  ex_Revenue_Growth : num;
  ex_Explanation : string
}.

Definition get_anomaly_explanation (self : t) (now : Z) (taxpayer_id : string)
  : option Explanation :=
  match DataProcessor.get_taxpayer_features (data_processor self) now taxpayer_id with
  | None => None
  | Some features =>
      let industry := DataProcessor.Industry_Code features in
      let benchmark :=
        DataProcessor.get_industry_benchmark (data_processor self) industry in
      let ratio := DataProcessor.Input_Tax_Ratio features in
      Some {| ex_Taxpayer_ID := taxpayer_id;
              ex_Input_Tax_Ratio := round ratio 4;
              ex_Industry_Benchmark := round benchmark 4;
              ex_Deviation := round (sub ratio benchmark) 4;
              ex_Deviation_Percentage :=
                if gtb benchmark (Fin 0)
                then round (mul (div (sub ratio benchmark) benchmark) (Fin 100)) 2
                else Fin 0;
              ex_Revenue_Growth := round (DataProcessor.Revenue_Growth features) 4;
              ex_Explanation := _generate_explanation features benchmark |}
  end.

End AnomalyDetector.

(* ------------------------------------------------------------------ *)
(** ** risk_scorer.py *)

Module RiskScorer.
Import Num Py.

(** A fitted [GradientBoostingClassifier]; [predict_proba1 X] stands for
    [predict_proba(X)[0][1]], the probability of class 1. *)
Record GradientBoostingClassifier : Type := mkClassifier {
  predict_proba1 : list num -> num;
  feature_importances_ : list num
}.

Record t : Type := mk {
  data_processor : DataProcessor.t;
  anomaly_detector : AnomalyDetector.t;
  model : option GradientBoostingClassifier;
  scaler : option AnomalyDetector.StandardScaler;
  feature_names : option (list string)
}.

(** [RiskScorer(data_processor, anomaly_detector)] *)
Definition init (data_processor : DataProcessor.t)
  (anomaly_detector : AnomalyDetector.t) : t :=
  {| data_processor := data_processor;
     anomaly_detector := anomaly_detector;
     model := None;
     scaler := None;
     feature_names := None |}.

(** [self.model.predict_proba(X_scaled)[0][1]] *)
Definition model_predict_proba (m : option GradientBoostingClassifier)
  (X_scaled : list num) : result num :=
  match m with
  | Some fitted => Ret (predict_proba1 fitted X_scaled)
  | None => Raise AttributeError
  end.

(** [left.merge(right, on='Taxpayer_ID', how='left')]: every left row, once
    per matching right row, or once with a missing right part. *)
Definition merge_left {L R : Type} (lkey : L -> string) (rkey : R -> string)
  (left : list L) (right : list R) : list (L * option R) :=
  flat_map (fun l =>
              match filter (fun r => String.eqb (lkey l) (rkey r)) right with
              | [] => [(l, None)]
              | matches => map (fun r => (l, Some r)) matches
              end) left.

(** [(audit_labels['Audit_Finding'] == 'Non-Compliant').astype(int)] *)
Definition Is_Non_Compliant (a : DataProcessor.Audit) : Z :=
  if String.eqb (DataProcessor.au_Audit_Finding a) "Non-Compliant" then 1%Z else 0%Z.

(** [max] of a non-empty group. *)
Definition group_max (flags : list Z) : Z :=
  match flags with
  | [] => 0%Z
  | f :: rest => fold_left Z.max rest f
  end.

(** [groupby('Taxpayer_ID').agg({'Is_Non_Compliant': 'max'}).reset_index()]:
    one row per id that occurs. *)
Definition groupby_max (rows : list (string * Z)) : list (string * Z) :=
  map (fun k =>
         (k, group_max (map snd (filter (fun r => String.eqb (fst r) k) rows))))
    (nodup string_dec (map fst rows)).

Definition audit_labels (dp : DataProcessor.t) : list (string * Z) :=
  groupby_max
    (map (fun a => (DataProcessor.au_Taxpayer_ID a, Is_Non_Compliant a))
       (DataProcessor.audit_data dp)).

(** A row of [training_data]: the features, the merged [Anomaly_Score]
    (missing when unmatched) and the label after [fillna(0).astype(int)]. *)
Record TrainingRow : Type := mkTrainingRow {
  tr_features : DataProcessor.Features;
  tr_Anomaly_Score : option num;
  tr_Is_Non_Compliant : Z
}.

Definition training_data (self : t) (now : Z) : result (list TrainingRow) :=
  let features_df :=
    DataProcessor.get_all_taxpayer_features (data_processor self) now in
  anomalies <- AnomalyDetector.detect_all_anomalies (anomaly_detector self) now ;;
  let features_df :=
    merge_left DataProcessor.Taxpayer_ID AnomalyDetector.Taxpayer_ID
      features_df anomalies in
  let labels := audit_labels (data_processor self) in
  let merged :=
    merge_left (fun row => DataProcessor.Taxpayer_ID (fst row)) fst
      features_df labels in
  Ret (map (fun row =>
              {| tr_features := fst (fst row);
                 tr_Anomaly_Score :=
                   option_map AnomalyDetector.Anomaly_Score (snd (fst row));
                 tr_Is_Non_Compliant :=
                   match snd row with
                   | Some label => snd label
                   | None => 0%Z
                   end |}) merged).

Definition feature_cols : list string :=
  ["Input_Tax_Ratio"; "Revenue_Growth"; "Days_Since_Registration";
   "Anomaly_Score"; "Num_Returns"]%string.

Definition training_row_X (row : TrainingRow) : list num :=
  [DataProcessor.Input_Tax_Ratio (tr_features row);
   DataProcessor.Revenue_Growth (tr_features row);
   of_int (DataProcessor.Days_Since_Registration (tr_features row));
   match tr_Anomaly_Score row with Some s => s | None => NaN end;
   of_int (Z.of_nat (DataProcessor.Num_Returns (tr_features row)))].

Section Train.

Variable fit_scaler : list (list num) -> AnomalyDetector.StandardScaler.
(** [GradientBoostingClassifier(n_estimators, learning_rate, max_depth,
    random_state).fit] *)
Variable fit_classifier :
  Z -> Q -> Z -> Z -> list (list num) -> list Z -> GradientBoostingClassifier.

Definition train (self : t) (now : Z) : result t :=
  rows <- training_data self now ;;
  let X := map (fun row => AnomalyDetector.fillna0 (training_row_X row)) rows in
  let X := map AnomalyDetector.zero_inf X in
  let y := map tr_Is_Non_Compliant rows in
  let fitted := fit_scaler X in
  let X_scaled := map (AnomalyDetector.transform fitted) X in
  Ret {| data_processor := data_processor self;
         anomaly_detector := anomaly_detector self;
         model := Some (fit_classifier 100 0.1 5 42 X_scaled y);
         scaler := Some fitted;
         feature_names := Some feature_cols |}.

End Train.

Definition _get_risk_level (risk_score : num) : string :=
  if geb risk_score (Fin 0.7) then "CRITICAL"
  else if geb risk_score (Fin 0.5) then "HIGH"
  else if geb risk_score (Fin 0.3) then "MEDIUM"
  else "LOW".

(** The dictionary returned by [score_taxpayer]. *)
Record Score : Type := mkScore {
  Taxpayer_ID : string;
  Business_Name : string;
  Industry_Name : string;
  Risk_Score : num;
  Risk_Level : string;
  Anomaly_Score : num
}.

(** [score_taxpayer]: the clock reads [now_features] in its own call of
    [get_taxpayer_features] and [now_anomaly] in the one [detect_anomaly]
    makes. *)
Definition score_taxpayer_at (self : t) (now_features now_anomaly : Z)
  (taxpayer_id : string) : result (option Score) :=
  match DataProcessor.get_taxpayer_features (data_processor self) now_features
          taxpayer_id with
  | None => Ret None
  | Some features =>
      anomaly <- AnomalyDetector.detect_anomaly (anomaly_detector self) now_anomaly
                   taxpayer_id ;;
      let anomaly_score :=
        match anomaly with
        | Some a => AnomalyDetector.Anomaly_Score a
        | None => Fin 0
        end in
      let X :=
        [DataProcessor.Input_Tax_Ratio features;
         DataProcessor.Revenue_Growth features;
         of_int (DataProcessor.Days_Since_Registration features);
         anomaly_score;
         of_int (Z.of_nat (DataProcessor.Num_Returns features))] in
      let X := AnomalyDetector.zero_inf X in
      X_scaled <- AnomalyDetector.scaler_transform (scaler self) X ;;
      risk_score <- model_predict_proba (model self) X_scaled ;;
      Ret (Some {| Taxpayer_ID := taxpayer_id;
                   Business_Name := DataProcessor.Business_Name features;
                   Industry_Name := DataProcessor.Industry_Name features;
                   Risk_Score := round risk_score 4;
                   Risk_Level := _get_risk_level risk_score;
                   Anomaly_Score := round anomaly_score 4 |})
  end.

Definition score_taxpayer (self : t) (now : Z) (taxpayer_id : string)
  : result (option Score) :=
  score_taxpayer_at self now now taxpayer_id.

(** The rows of the frame returned by [score_all_taxpayers]; sorting a
    frame built from no rows fails, it has no [Risk_Score] column. *)
Definition score_all_taxpayers (self : t) (now : Z) : result (list Score) :=
  scores <- for_append (score_taxpayer self now)
              (map DataProcessor.tp_Taxpayer_ID
                 (DataProcessor.master_data (data_processor self))) ;;
  match scores with
  | [] => Raise KeyError
  | _ :: _ => Ret (sort_values_desc Risk_Score scores)
  end.

(** The dictionary returned by [get_feature_importance]. *)
Definition get_feature_importance (self : t) : result (option (list (string * num))) :=
  match model self with
  | None => Ret None
  | Some fitted =>
      match feature_names self with
      | None => Raise TypeError
      | Some names =>
          Ret (Some (map (fun p => (fst p, round (snd p) 4))
                       (combine names (feature_importances_ fitted))))
      end
  end.

Definition _get_recommendation (risk_level : string) : string :=
  if String.eqb risk_level "CRITICAL"
  then "Immediate audit recommended. Potential fraud indicators detected."
  else if String.eqb risk_level "HIGH"
  then "Priority audit recommended. Multiple risk factors present."
  else if String.eqb risk_level "MEDIUM"
  then "Routine audit recommended. Some anomalies detected."
  else if String.eqb risk_level "LOW"
  then "Standard monitoring. No immediate action required."
  else "Review recommended.".

Record Key_Factors : Type := mkKeyFactors {
  kf_Input_Tax_Ratio : num;
  kf_Revenue_Growth : num;
  kf_Anomaly_Score : num;
  kf_Num_Returns : nat
}.

(** The dictionary returned by [get_risk_explanation]. *)
Record RiskExplanation : Type := mkRiskExplanation {
  re_Taxpayer_ID : string;
  re_Risk_Score : num;
  re_Risk_Level : string;
  re_Key_Factors : Key_Factors;
  re_Anomaly_Explanation : string;
  re_Recommendation : string
}.

(** [get_risk_explanation]: the clock reads [now_score] and [now_anomaly]
    in [score_taxpayer], [now_features] in the call of
    [get_taxpayer_features] and [now_explanation] in
    [get_anomaly_explanation]. *)
Definition get_risk_explanation_at (self : t)
  (now_score now_anomaly now_features now_explanation : Z) (taxpayer_id : string)
  : result (option RiskExplanation) :=
  score_info <- score_taxpayer_at self now_score now_anomaly taxpayer_id ;;
  let features :=
    DataProcessor.get_taxpayer_features (data_processor self) now_features
      taxpayer_id in
  match score_info, features with
  | Some score_info, Some features =>
      match AnomalyDetector.get_anomaly_explanation
              (anomaly_detector self) now_explanation taxpayer_id with
      | None => Raise TypeError
      | Some anomaly_exp =>
          Ret (Some {| re_Taxpayer_ID := taxpayer_id;
                       re_Risk_Score := Risk_Score score_info;
                       re_Risk_Level := Risk_Level score_info;
                       re_Key_Factors :=
                         {| kf_Input_Tax_Ratio :=
                              round (DataProcessor.Input_Tax_Ratio features) 4;
                            kf_Revenue_Growth :=
                              round (DataProcessor.Revenue_Growth features) 4;
                            kf_Anomaly_Score := Anomaly_Score score_info;
                            kf_Num_Returns := DataProcessor.Num_Returns features |};
                       re_Anomaly_Explanation := AnomalyDetector.ex_Explanation anomaly_exp;
                       re_Recommendation := _get_recommendation (Risk_Level score_info) |})
      end
  | _, _ => Ret None
  end.

Definition get_risk_explanation (self : t) (now : Z) (taxpayer_id : string)
  : result (option RiskExplanation) :=
  get_risk_explanation_at self now now now now taxpayer_id.

End RiskScorer.

(* ------------------------------------------------------------------ *)
(** ** app.py *)

(** The pipeline-facing part of the Flask application: start-up and the
    route handlers, up to rendering.  A handler's result is the value it
    hands to [jsonify] or [render_template]; [load_data] has already filled
    the data processor. *)
Module App.
Import Num Py.

(** The three module-level globals. *)
Record System : Type := mkSystem {
  data_processor : DataProcessor.t;
  risk_scorer : RiskScorer.t;
  anomaly_detector : AnomalyDetector.t
}.

Section Initialize.

Variable fit_scaler : list (list num) -> AnomalyDetector.StandardScaler.
Variable fit_forest : Q -> Z -> list (list num) -> AnomalyDetector.IsolationForest.
Variable fit_classifier :
  Z -> Q -> Z -> Z -> list (list num) -> list Z -> RiskScorer.GradientBoostingClassifier.

(** [initialize_system()]; [t1] and [t2] are the clock readings of the two
    [train] calls. *)
Definition initialize_system (loaded : DataProcessor.t) (t1 t2 : Z) : result System :=
  detector <-
    AnomalyDetector.train fit_scaler fit_forest (AnomalyDetector.init loaded) t1 ;;
  scorer <-
    RiskScorer.train fit_scaler fit_classifier (RiskScorer.init loaded detector) t2 ;;
  Ret {| data_processor := loaded;
         risk_scorer := scorer;
         anomaly_detector := detector |}.

End Initialize.

(** [frame.nlargest(n, col)]: the first [n] rows of the frame ordered by
    [col], largest first.  pandas does not fix which rows with equal keys
    come first when [n] is not below the number of rows; here they keep
    their frame order. *)
Definition nlargest {A : Type} (n : nat) (key : A -> num) (rows : list A) : list A :=
  firstn n (sort_values_desc key rows).

(** The dictionary of [api_dashboard_stats]. *)
Record Stats : Type := mkStats {
  total_taxpayers : nat;
  total_returns_filed : nat;
  audits_completed : nat;
  tax_recovery : num;
  compliance_rate : num
}.

(** The Tax_Recovery column is summed as a [float64] column. *)
Definition api_dashboard_stats (sys : System) : Stats :=
  let audit_data := DataProcessor.audit_data (data_processor sys) in
  {| total_taxpayers := List.length (DataProcessor.master_data (data_processor sys));
     total_returns_filed := List.length (DataProcessor.returns_data (data_processor sys));
     audits_completed := List.length audit_data;
     tax_recovery :=
       if (0 <? List.length audit_data)%nat
       then DataProcessor.sum (map DataProcessor.au_Tax_Recovery audit_data)
       else Fin 0;
     compliance_rate :=
       if (0 <? List.length audit_data)%nat
       then mul (div (of_int (Z.of_nat
                        (List.length
                           (filter (fun a =>
                                      String.eqb (DataProcessor.au_Audit_Finding a)
                                        "Compliant") audit_data))))
                     (of_int (Z.of_nat (List.length audit_data))))
                (Fin 100)
       else Fin 0 |}.

(** A row of [api_high_risk_taxpayers]: five columns of a score row. *)
Record HighRisk : Type := mkHighRisk {
  hr_Taxpayer_ID : string;
  hr_Business_Name : string;
  hr_Risk_Score : num;
  hr_Industry_Name : string;
  hr_Anomaly_Score : num
}.

Definition api_high_risk_taxpayers (sys : System) (now : Z) : result (list HighRisk) :=
  all_scores <- RiskScorer.score_all_taxpayers (risk_scorer sys) now ;;
  let high_risk := nlargest 15 RiskScorer.Risk_Score all_scores in
  Ret (map (fun s => {| hr_Taxpayer_ID := RiskScorer.Taxpayer_ID s;
                        hr_Business_Name := RiskScorer.Business_Name s;
                        hr_Risk_Score := RiskScorer.Risk_Score s;
                        hr_Industry_Name := RiskScorer.Industry_Name s;
                        hr_Anomaly_Score := RiskScorer.Anomaly_Score s |}) high_risk).

Definition api_anomalies (sys : System) (now : Z) : result (list AnomalyDetector.Anomaly) :=
  AnomalyDetector.detect_all_anomalies (anomaly_detector sys) now.

Definition api_risk_scores (sys : System) (now : Z) : result (list RiskScorer.Score) :=
  RiskScorer.score_all_taxpayers (risk_scorer sys) now.

Definition api_audit_candidates (sys : System) (now : Z) : result (list RiskScorer.Score) :=
  all_scores <- RiskScorer.score_all_taxpayers (risk_scorer sys) now ;;
  Ret (nlargest 20 RiskScorer.Risk_Score all_scores).

(** What a handler answers: a body, or the 404 answer. *)
Inductive response (A : Type) : Type :=
| Ok (body : A)
| NotFound.

Arguments Ok {A} body.
Arguments NotFound {A}.

(** The dictionary of [api_taxpayer_detail]. *)
Record Detail : Type := mkDetail {
  taxpayer : DataProcessor.Taxpayer;
  returns : list DataProcessor.Return;
  audits : list DataProcessor.Audit;
  risk_score : option RiskScorer.Score
}.

(** [taxpayer_id] is the text of the route; the frames compare it with
    stored ids that [read_csv] kept as text. *)
Definition api_taxpayer_detail (sys : System) (now : Z) (taxpayer_id : string)
  : result (response Detail) :=
  let taxpayer :=
    filter (fun r => String.eqb (DataProcessor.tp_Taxpayer_ID r) taxpayer_id)
      (DataProcessor.master_data (data_processor sys)) in
  match taxpayer with
  | [] => Ret NotFound
  | taxpayer_info :: _ =>
      let returns :=
        filter (fun r => String.eqb (DataProcessor.rt_Taxpayer_ID r) taxpayer_id)
          (DataProcessor.returns_data (data_processor sys)) in
      let audits :=
        filter (fun r => String.eqb (DataProcessor.au_Taxpayer_ID r) taxpayer_id)
          (DataProcessor.audit_data (data_processor sys)) in
      risk_score <- RiskScorer.score_taxpayer (risk_scorer sys) now taxpayer_id ;;
      Ret (Ok {| taxpayer := taxpayer_info;
                 returns := returns;
                 audits := audits;
                 risk_score := risk_score |})
  end.

(** [frame.groupby(col).size().to_dict()] and
    [frame[col].value_counts().to_dict()]: each value of the column that
    occurs, with its number of rows.  The order of the keys is not modelled. *)
Definition size_by {A : Type} (key : A -> string) (rows : list A) : list (string * nat) :=
  map (fun k => (k, List.length (filter (fun r => String.eqb (key r) k) rows)))
    (nodup string_dec (map key rows)).

Definition api_industry_stats (sys : System) : list (string * nat) :=
  size_by DataProcessor.tp_Industry_Name
    (DataProcessor.master_data (data_processor sys)).

Definition api_compliance_stats (sys : System) : list (string * nat) :=
  if (0 <? List.length (DataProcessor.audit_data (data_processor sys)))%nat
  then size_by DataProcessor.au_Audit_Finding
         (DataProcessor.audit_data (data_processor sys))
  else [].

(** [dict.get(key)] on such a dictionary, 0 for a key that is absent. *)
Definition count_of (stats : list (string * nat)) (k : string) : nat :=
  match find (fun p => String.eqb (fst p) k) stats with
  | Some p => snd p
  | None => 0
  end.

End App.

(* ------------------------------------------------------------------ *)
(** ** Vocabulary of the specification *)

Module Spec.
Import Num.

(** The master rows of a taxpayer id. *)
Definition taxpayer_rows (dp : DataProcessor.t) (taxpayer_id : string)
  : list DataProcessor.Taxpayer :=
  filter (fun r => String.eqb (DataProcessor.tp_Taxpayer_ID r) taxpayer_id)
    (DataProcessor.master_data dp).

(** The returns of a taxpayer id, in stored order. *)
Definition returns_of (dp : DataProcessor.t) (taxpayer_id : string)
  : list DataProcessor.Return :=
  filter (fun r => String.eqb (DataProcessor.rt_Taxpayer_ID r) taxpayer_id)
    (DataProcessor.returns_data dp).

(** The id is not in the taxpayer master. *)
Definition unknown (dp : DataProcessor.t) (taxpayer_id : string) : Prop :=
  ~ In taxpayer_id (map DataProcessor.tp_Taxpayer_ID (DataProcessor.master_data dp)).

(** The k-th most recent return, [k = 0] for the latest. *)
Definition recent (dp : DataProcessor.t) (taxpayer_id : string) (k : nat)
  : option DataProcessor.Return :=
  nth_error (rev (returns_of dp taxpayer_id)) k.

(** The taxpayer belongs to the industry. *)
Definition in_industry (dp : DataProcessor.t) (industry_code taxpayer_id : string)
  : bool :=
  existsb (fun tp =>
             String.eqb (DataProcessor.tp_Taxpayer_ID tp) taxpayer_id
             && String.eqb (DataProcessor.tp_Industry_Code tp) industry_code)
    (DataProcessor.master_data dp).

(** All returns of the taxpayers of an industry. *)
Definition industry_returns (dp : DataProcessor.t) (industry_code : string)
  : list DataProcessor.Return :=
  filter (fun r => in_industry dp industry_code (DataProcessor.rt_Taxpayer_ID r))
    (DataProcessor.returns_data dp).

(** Some audit record of the taxpayer has the finding "Non-Compliant". *)
Definition any_non_compliant (dp : DataProcessor.t) (taxpayer_id : string) : bool :=
  existsb (fun a =>
             String.eqb (DataProcessor.au_Taxpayer_ID a) taxpayer_id
             && String.eqb (DataProcessor.au_Audit_Finding a) "Non-Compliant")
    (DataProcessor.audit_data dp).

(** A feature vector with its clock-dependent field blanked. *)
Definition forget_days (f : DataProcessor.Features) : DataProcessor.Features :=
  {| DataProcessor.Taxpayer_ID := DataProcessor.Taxpayer_ID f;
     DataProcessor.Business_Name := DataProcessor.Business_Name f;
     DataProcessor.Industry_Code := DataProcessor.Industry_Code f;
     DataProcessor.Industry_Name := DataProcessor.Industry_Name f;
     DataProcessor.Gross_Revenue := DataProcessor.Gross_Revenue f;
     DataProcessor.Tax_Liability := DataProcessor.Tax_Liability f;
     DataProcessor.Input_Tax_Claim := DataProcessor.Input_Tax_Claim f;
     DataProcessor.Input_Tax_Ratio := DataProcessor.Input_Tax_Ratio f;
     DataProcessor.Revenue_Growth := DataProcessor.Revenue_Growth f;
     DataProcessor.Num_Returns := DataProcessor.Num_Returns f;
     DataProcessor.Days_Since_Registration := 0 |}.

(** The five-feature row that [score_taxpayer] hands to the scaler. *)
Definition risk_row (f : DataProcessor.Features) (anomaly_score : num) : list num :=
  AnomalyDetector.zero_inf
    [DataProcessor.Input_Tax_Ratio f;
     DataProcessor.Revenue_Growth f;
     of_int (DataProcessor.Days_Since_Registration f);
     anomaly_score;
     of_int (Z.of_nat (DataProcessor.Num_Returns f))].

(** A fraction as the messages print it: in percent, with one decimal. *)
Definition percentage (x : num) : string := Py.format_1f (mul x (Fin 100)).

(** The ratio rule: its message for a ratio deviation, when it fires. *)
Definition ratio_rule (deviation : num) : option string :=
  if gtb deviation (Fin 1) then
    Some ("Input tax claim is " ++ percentage deviation
            ++ "% higher than industry benchmark")%string
  else if ltb deviation (Fin (-0.5)) then
    Some ("Input tax claim is " ++ percentage (abs deviation)
            ++ "% lower than industry benchmark")%string
  else None.

(** The growth rule: its message for a revenue growth, when it fires. *)
Definition growth_rule (growth : num) : option string :=
  if gtb growth (Fin 0.5) then
    Some ("Revenue grew by " ++ percentage growth ++ "% (unusually high)")%string
  else if ltb growth (Fin (-0.3)) then
    Some ("Revenue declined by " ++ percentage (abs growth) ++ "%")%string
  else None.


End Spec.

(* ------------------------------------------------------------------ *)
(** ** Further vocabulary *)

Module Props.
Import Num.

(** The taxpayer id has at least one stored return. *)
Definition has_returns (dp : DataProcessor.t) (taxpayer_id : string) : bool :=
  match Spec.returns_of dp taxpayer_id with
  | [] => false
  | _ :: _ => true
  end.

(** The two most recent returns of a taxpayer, latest first. *)
Definition last_two (dp : DataProcessor.t) (taxpayer_id : string)
  : list DataProcessor.Return :=
  firstn 2 (rev (Spec.returns_of dp taxpayer_id)).

(** A feature vector with its return count blanked. *)
Definition forget_count (f : DataProcessor.Features) : DataProcessor.Features :=
  {| DataProcessor.Taxpayer_ID := DataProcessor.Taxpayer_ID f;
     DataProcessor.Business_Name := DataProcessor.Business_Name f;
     DataProcessor.Industry_Code := DataProcessor.Industry_Code f;
     DataProcessor.Industry_Name := DataProcessor.Industry_Name f;
     DataProcessor.Gross_Revenue := DataProcessor.Gross_Revenue f;
     DataProcessor.Tax_Liability := DataProcessor.Tax_Liability f;
     DataProcessor.Input_Tax_Claim := DataProcessor.Input_Tax_Claim f;
     DataProcessor.Input_Tax_Ratio := DataProcessor.Input_Tax_Ratio f;
     DataProcessor.Revenue_Growth := DataProcessor.Revenue_Growth f;
     DataProcessor.Num_Returns := 0;
     DataProcessor.Days_Since_Registration := DataProcessor.Days_Since_Registration f |}.

(** Neither an infinity nor NaN. *)
Definition finite (x : num) : Prop :=
  match x with Fin _ => True | _ => False end.

(** Every stored revenue and input-tax claim is a finite number. *)
Definition finite_returns (dp : DataProcessor.t) : Prop :=
  Forall (fun r => finite (DataProcessor.rt_Gross_Revenue r) /\
                   finite (DataProcessor.rt_Input_Tax_Claim r))
    (DataProcessor.returns_data dp).

(** Row [a] may stand before row [b] in a frame ordered by [key], largest
    first. *)
Definition not_below {A : Type} (key : A -> num) (a b : A) : Prop :=
  leb (key b) (key a) = true.

(** The raw outlier measure of a taxpayer's feature vector. *)
Definition raw_measure (sc : AnomalyDetector.StandardScaler)
  (fo : AnomalyDetector.IsolationForest) (f : DataProcessor.Features) : num :=
  AnomalyDetector.score_samples fo
    (AnomalyDetector.transform sc
       (AnomalyDetector.zero_inf (AnomalyDetector.feature_row f))).

(** The number of rows whose key is [k]. *)
Definition occurrences {A : Type} (key : A -> string) (rows : list A) (k : string) : nat :=
  List.length (filter (fun r => String.eqb (key r) k) rows).

(** The four risk levels, lowest first. *)
Definition level_rank (level : string) : nat :=
  if String.eqb level "CRITICAL" then 3
  else if String.eqb level "HIGH" then 2
  else if String.eqb level "MEDIUM" then 1
  else 0.

Definition levels : list string := ["LOW"; "MEDIUM"; "HIGH"; "CRITICAL"]%string.

Definition fallback_recommendation : string := "Review recommended.".

(** Both clock readings are the same whole number of days after the
    registration date of the taxpayer. *)
Definition same_day_count (dp : DataProcessor.t) (taxpayer_id : string)
  (now1 now2 : Z) : Prop :=
  forall tp,
    In tp (DataProcessor.master_data dp) ->
    DataProcessor.tp_Taxpayer_ID tp = taxpayer_id ->
    DataProcessor.days (now1 - DataProcessor.tp_Registration_Date tp) =
    DataProcessor.days (now2 - DataProcessor.tp_Registration_Date tp).

(** A feature vector with the given ratio and growth. *)
Definition vector (ratio growth : num) : DataProcessor.Features :=
  {| DataProcessor.Taxpayer_ID := "T1";
     DataProcessor.Business_Name := "Alpha Traders";
     DataProcessor.Industry_Code := "IND1";
     DataProcessor.Industry_Name := "Retail";
     DataProcessor.Gross_Revenue := Fin 150;
     DataProcessor.Tax_Liability := Fin 8;
     DataProcessor.Input_Tax_Claim := Fin 10;
     DataProcessor.Input_Tax_Ratio := ratio;
     DataProcessor.Revenue_Growth := growth;
     DataProcessor.Num_Returns := 2;
     DataProcessor.Days_Since_Registration := 100 |}.



Definition is_letter (c : ascii) : bool :=
  let n := nat_of_ascii c in
  ((65 <=? n)%nat && (n <=? 90)%nat) || ((97 <=? n)%nat && (n <=? 122)%nat).

Definition is_digit (c : ascii) : bool :=
  let n := nat_of_ascii c in (48 <=? n)%nat && (n <=? 57)%nat.

(** An id that [read_csv] keeps as text whatever else its column holds: it
    begins with a letter and holds a digit, so it is neither written as a
    number nor one of the markers of a missing value. *)
Definition text_id (s : string) : bool :=
  match s with
  | EmptyString => false
  | String c rest => is_letter c && existsb is_digit (list_ascii_of_string rest)
  end.

(** The ids of the master are text; the frames then compare them with the
    text of a route as strings. *)
Definition text_ids (dp : DataProcessor.t) : Prop :=
  forallb text_id (map DataProcessor.tp_Taxpayer_ID (DataProcessor.master_data dp)) = true.

End Props.

(* ------------------------------------------------------------------ *)
(** ** A small data store used for the concrete checks *)

Module Example.
Import Num Py.

Definition day : Z := DataProcessor.usec_per_day.

(** Three clock readings: a morning, an hour later, the next day. *)
Definition now : Z := (100 * day)%Z.
Definition an_hour_later : Z := (now + 3600000000)%Z.
Definition next_day : Z := (now + day)%Z.

Definition master : list DataProcessor.Taxpayer :=
  [ DataProcessor.mkTaxpayer "T1" "Alpha Traders" "IND1" "Retail" 0;
    DataProcessor.mkTaxpayer "T2" "Beta Foods" "IND1" "Retail" (10 * day)%Z;
    DataProcessor.mkTaxpayer "T3" "Gamma Mills" "IND2" "Milling" (20 * day)%Z;
    DataProcessor.mkTaxpayer "T4" "Delta Works" "IND2" "Milling" (30 * day)%Z;
    DataProcessor.mkTaxpayer "T5" "Epsilon Oil" "IND3" "Fuel" (40 * day)%Z ]%string.

Definition returns : list DataProcessor.Return :=
  [ DataProcessor.mkReturn "T1" 1 (Fin 100) (Fin 5) (Fin 10);
    DataProcessor.mkReturn "T2" 1 (Fin 0) (Fin 0) (Fin 7);
    DataProcessor.mkReturn "T1" 2 (Fin 150) (Fin 8) (Fin 10);
    DataProcessor.mkReturn "T4" 1 (Fin 200) (Fin 9) (Fin 30);
    DataProcessor.mkReturn "T4" 2 (Fin 300) (Fin 9) (Fin 12);
    DataProcessor.mkReturn "T5" 1 (Fin 100) (Fin 9) PInf ]%string.

Definition audits : list DataProcessor.Audit :=
  [ DataProcessor.mkAudit "T1" 3 "Compliant" (Fin 0);
    DataProcessor.mkAudit "T2" 3 "Compliant" (Fin 0);
    DataProcessor.mkAudit "T1" 4 "Non-Compliant" (Fin 1000) ]%string.

Definition store : DataProcessor.t := DataProcessor.mk master returns audits.

(** A fitted scaler that leaves every row as it is. *)
Definition identity_scaler : AnomalyDetector.StandardScaler :=
  AnomalyDetector.mkScaler (fun X => X).

(** A fitted forest whose raw measure is [raw] on every row. *)
Definition constant_forest (raw : Q) : AnomalyDetector.IsolationForest :=
  AnomalyDetector.mkForest (fun _ => Fin raw).

Definition detector (raw : Q) : AnomalyDetector.t :=
  AnomalyDetector.mk store (Some (constant_forest raw)) (Some identity_scaler)
    (Some AnomalyDetector.feature_cols).

(** A fitted classifier that predicts probability [p] on every row. *)
Definition constant_classifier (p : Q) : RiskScorer.GradientBoostingClassifier :=
  RiskScorer.mkClassifier (fun _ => Fin p) [Fin 0.2; Fin 0.2; Fin 0.2; Fin 0.2; Fin 0.2].

Definition scorer (raw p : Q) : RiskScorer.t :=
  RiskScorer.mk store (detector raw) (Some (constant_classifier p))
    (Some identity_scaler) (Some RiskScorer.feature_cols).

End Example.

(* ------------------------------------------------------------------ *)
(** ** Further example data *)

Module Demo.
Import Num Py.

(** The example store without the return that holds an infinite claim. *)
Definition finite_store : DataProcessor.t :=
  DataProcessor.mk Example.master
    [ DataProcessor.mkReturn "T1" 1 (Fin 100) (Fin 5) (Fin 10);
      DataProcessor.mkReturn "T2" 1 (Fin 0) (Fin 0) (Fin 7);
      DataProcessor.mkReturn "T1" 2 (Fin 150) (Fin 8) (Fin 10);
      DataProcessor.mkReturn "T4" 1 (Fin 200) (Fin 9) (Fin 30);
      DataProcessor.mkReturn "T4" 2 (Fin 300) (Fin 9) (Fin 12) ]%string
    Example.audits.

(** The same store with two older returns of T1 in front. *)
Definition longer_history : DataProcessor.t :=
  DataProcessor.mk Example.master
    ([ DataProcessor.mkReturn "T1" 0 (Fin 999) (Fin 1) (Fin 500);
       DataProcessor.mkReturn "T1" 0 (Fin 1) (Fin 1) (Fin 0) ]%string
       ++ DataProcessor.returns_data finite_store)
    Example.audits.

(** A store whose taxpayers have no return at all. *)
Definition no_returns : DataProcessor.t :=
  DataProcessor.mk Example.master [] Example.audits.

(** Fitting procedures that ignore their data. *)
Definition fit_scaler (X : list (list num)) : AnomalyDetector.StandardScaler :=
  Example.identity_scaler.

Definition fit_forest (contamination : Q) (random_state : Z) (X : list (list num))
  : AnomalyDetector.IsolationForest :=
  Example.constant_forest (-0.40008).

Definition fit_classifier (n_estimators : Z) (learning_rate : Q)
  (max_depth random_state : Z) (X : list (list num)) (y : list Z)
  : RiskScorer.GradientBoostingClassifier :=
  Example.constant_classifier 0.69996.

Definition detector : AnomalyDetector.t :=
  AnomalyDetector.mk finite_store (Some (Example.constant_forest (-0.40008)))
    (Some Example.identity_scaler) (Some AnomalyDetector.feature_cols).

Definition scorer : RiskScorer.t :=
  RiskScorer.mk finite_store detector (Some (Example.constant_classifier 0.69996))
    (Some Example.identity_scaler) (Some RiskScorer.feature_cols).

Definition system : App.System :=
  App.mkSystem finite_store scorer detector.

(** A fitted forest whose raw measure falls as the first feature, the
    input-tax ratio, grows. *)
Definition ratio_forest : AnomalyDetector.IsolationForest :=
  AnomalyDetector.mkForest (fun X => match X with
                                     | ratio :: _ => neg ratio
                                     | [] => Fin 0
                                     end).

Definition ratio_detector : AnomalyDetector.t :=
  AnomalyDetector.mk finite_store (Some ratio_forest)
    (Some Example.identity_scaler) (Some AnomalyDetector.feature_cols).


(** Fitted models that look at Days_Since_Registration only: the forest at
    the third entry of its row, the classifier at the third entry of its
    own. *)
Definition days_forest : AnomalyDetector.IsolationForest :=
  AnomalyDetector.mkForest (fun X => neg (div (nth 2 X (Fin 0)) (Fin 1000))).

Definition days_classifier : RiskScorer.GradientBoostingClassifier :=
  RiskScorer.mkClassifier (fun X => div (nth 2 X (Fin 0)) (Fin 1000))
    [Fin 0; Fin 0; Fin 1; Fin 0; Fin 0].

Definition days_scorer : RiskScorer.t :=
  RiskScorer.mk finite_store
    (AnomalyDetector.mk finite_store (Some days_forest)
       (Some Example.identity_scaler) (Some AnomalyDetector.feature_cols))
    (Some days_classifier) (Some Example.identity_scaler)
    (Some RiskScorer.feature_cols).

(** Clock readings a minute after [now] and after [an_hour_later], and the
    last microsecond of the day of [now]. *)
Definition a_minute_later : Z := (Example.now + 60000000)%Z.
Definition an_hour_and_a_minute_later : Z := (Example.an_hour_later + 60000000)%Z.
Definition end_of_day : Z := (Example.next_day - 1)%Z.

End Demo.

(* ------------------------------------------------------------------ *)
(** ** Facts about numbers *)

(** Reading a call of [score_taxpayer_at] with one clock reading as the call
    of [score_taxpayer]. *)
Ltac fold_score_taxpayer :=
  repeat match goal with
         | |- context [RiskScorer.score_taxpayer_at ?s ?n ?n ?i] =>
             change (RiskScorer.score_taxpayer_at s n n i)
               with (RiskScorer.score_taxpayer s n i)
         | H : context [RiskScorer.score_taxpayer_at ?s ?n ?n ?i] |- _ =>
             change (RiskScorer.score_taxpayer_at s n n i)
               with (RiskScorer.score_taxpayer s n i) in H
         end.

Import Num Py.

Lemma Qltb_lt (a b : Q) : Qltb a b = true <-> (a < b)%Q.
Proof.
  unfold Qltb. rewrite negb_true_iff. split; intro H.
  - apply Qnot_le_lt. intro Hle. apply Qle_bool_iff in Hle. congruence.
  - destruct (Qle_bool b a) eqn:E; [|reflexivity].
    apply Qle_bool_iff in E. exfalso. apply (Qlt_not_le _ _ H E).
Qed.

Lemma Qltb_nlt (a b : Q) : Qltb a b = false <-> (b <= a)%Q.
Proof.
  unfold Qltb. rewrite negb_false_iff. apply Qle_bool_iff.
Qed.

Lemma ltb_leb_false (x y : num) : ltb x y = true -> leb y x = false.
Proof.
  destruct x, y; simpl; try congruence.
  unfold Qltb. now rewrite negb_true_iff.
Qed.

Lemma leb_ltb_false (x y : num) : leb x y = true -> ltb y x = false.
Proof.
  destruct x, y; simpl; try congruence.
  unfold Qltb. intros ->. reflexivity.
Qed.

Lemma ltb_leb (x y : num) : ltb x y = true -> leb x y = true.
Proof.
  destruct x, y; simpl; try congruence.
  intro H. apply Qltb_lt in H. apply Qle_bool_iff. now apply Qlt_le_weak.
Qed.

Lemma leb_trans (x y z : num) : leb x y = true -> leb y z = true -> leb x z = true.
Proof.
  destruct x, y, z; simpl; try congruence.
  rewrite !Qle_bool_iff. apply Qle_trans.
Qed.

Lemma ltb_leb_trans (x y z : num) : ltb x y = true -> leb y z = true -> ltb x z = true.
Proof.
  destruct x, y, z; simpl; try congruence.
  rewrite !Qltb_lt, Qle_bool_iff. apply Qlt_le_trans.
Qed.

(** A finite value is the only one strictly between two finite bounds. *)
Lemma between_finite (x : num) (a b : Q) :
  ltb (Fin a) x = true -> ltb x (Fin b) = true ->
  exists q, x = Fin q /\ (a < q)%Q /\ (q < b)%Q.
Proof.
  destruct x; simpl; try congruence.
  intros Ha Hb. exists q. now rewrite <- !Qltb_lt.
Qed.

Lemma round_half_even_lower (q : Q) (k : Z) :
  (inject_Z k <= q)%Q -> (k <= round_half_even q)%Z.
Proof.
  destruct q as [n d]. unfold Qle, round_half_even, inject_Z; cbn [Qnum Qden].
  intro H.
  pose proof (Z.div_mod n (Zpos d) ltac:(lia)) as Hdm.
  pose proof (Z.mod_pos_bound n (Zpos d) ltac:(lia)) as Hb.
  assert (Hk : (k <= n / Zpos d)%Z) by nia.
  destruct (2 * (n mod Zpos d) <? Zpos d)%Z; [exact Hk|].
  destruct (Zpos d <? 2 * (n mod Zpos d))%Z; [lia|].
  destruct (Z.even (n / Zpos d)); lia.
Qed.

Lemma round_half_even_upper (q : Q) (k : Z) :
  (q <= inject_Z k)%Q -> (round_half_even q <= k)%Z.
Proof.
  destruct q as [n d]. unfold Qle, round_half_even, inject_Z; cbn [Qnum Qden].
  intro H.
  pose proof (Z.div_mod n (Zpos d) ltac:(lia)) as Hdm.
  pose proof (Z.mod_pos_bound n (Zpos d) ltac:(lia)) as Hb.
  destruct (Z.ltb_spec (2 * (n mod Zpos d)) (Zpos d)); [nia|].
  assert (Hk : (n / Zpos d + 1 <= k)%Z) by nia.
  destruct (Zpos d <? 2 * (n mod Zpos d))%Z; [lia|].
  destruct (Z.even (n / Zpos d)); lia.
Qed.

(** Rounding to four decimals keeps a value inside the unit interval. *)
Lemma round4_in_unit (x : num) : in_unit x -> in_unit (round x 4).
Proof.
  unfold in_unit. destruct x as [q| | |]; simpl; try (intros [? ?]; congruence).
  rewrite !Qle_bool_iff. intros [H0 H1].
  change (Z.pow_pos 10 4) with 10000%Z.
  pose proof (@round_half_even_lower (q * inject_Z 10000) 0) as Hl.
  pose proof (@round_half_even_upper (q * inject_Z 10000) 10000) as Hu.
  assert (Hlo : (0 <= round_half_even (q * inject_Z 10000))%Z).
  { apply Hl. change (inject_Z 0) with 0%Q. change (inject_Z 10000) with 10000%Q.
    apply Qmult_le_0_compat; [exact H0 | discriminate]. }
  assert (Hhi : (round_half_even (q * inject_Z 10000) <= 10000)%Z).
  { apply Hu. change (inject_Z 10000) with 10000%Q.
    setoid_replace 10000%Q with (1 * 10000)%Q at 2 by reflexivity.
    apply Qmult_le_compat_r; [exact H1 | discriminate]. }
  split; unfold Qle; simpl; lia.
Qed.

(** [max(0, min(1, v))] lies in the unit interval whatever [v] is, NaN and
    the infinities included. *)
Lemma clamp_in_unit (v : num) : in_unit (Py.max (Fin 0) (Py.min (Fin 1) v)).
Proof.
  unfold Py.max, Py.min, gtb, in_unit.
  destruct (ltb v (Fin 1)) eqn:H1.
  - destruct (ltb (Fin 0) v) eqn:H0.
    + split; [now apply ltb_leb | now apply ltb_leb].
    + split; reflexivity.
  - split; reflexivity.
Qed.

(** On a finite value the clamp is the usual one. *)
Lemma clamp_finite (q : Q) :
  Py.max (Fin 0) (Py.min (Fin 1) (Fin q)) =
  Fin (if Qltb q 1 then (if Qltb 0 q then q else 0) else 1).
Proof.
  unfold Py.max, Py.min, gtb. simpl.
  destruct (Qltb q 1); simpl; [destruct (Qltb 0 q)|]; reflexivity.
Qed.

(* ------------------------------------------------------------------ *)
(** ** Feature derivation *)

Lemma iloc_back_recent {A : Type} (rows : list A) (k : nat) (d x : A) :
  nth_error (rev rows) k = Some x -> DataProcessor.iloc_back rows (S k) d = x.
Proof.
  intro H. unfold DataProcessor.iloc_back.
  assert (Hk : (k < List.length rows)%nat).
  { rewrite <- length_rev. apply nth_error_Some. congruence. }
  rewrite <- rev_nth by exact Hk.
  now apply nth_error_nth.
Qed.

(** What [get_taxpayer_features] returns, when it returns a vector. *)
Lemma features_some_inv (dp : DataProcessor.t) (now : Z) (id : string)
  (f : DataProcessor.Features) :
  DataProcessor.get_taxpayer_features dp now id = Some f ->
  exists tp0 tps r0 rs,
    Spec.taxpayer_rows dp id = tp0 :: tps /\
    Spec.returns_of dp id = r0 :: rs /\
    let returns := r0 :: rs in
    let latest := DataProcessor.iloc_back returns 1 r0 in
    DataProcessor.Taxpayer_ID f = id /\
    DataProcessor.Input_Tax_Ratio f =
      (if gtb (DataProcessor.rt_Gross_Revenue latest) (Fin 0)
       then div (DataProcessor.rt_Input_Tax_Claim latest)
                (DataProcessor.rt_Gross_Revenue latest)
       else Fin 0) /\
    DataProcessor.Revenue_Growth f =
      (if (1 <? List.length returns)%nat then
         let prev := DataProcessor.rt_Gross_Revenue (DataProcessor.iloc_back returns 2 r0) in
         if gtb prev (Fin 0)
         then div (sub (DataProcessor.rt_Gross_Revenue latest) prev) prev
         else Fin 0
       else Fin 0) /\
    DataProcessor.Num_Returns f = List.length returns /\
    DataProcessor.Days_Since_Registration f =
      DataProcessor.days (now - DataProcessor.tp_Registration_Date tp0).
Proof.
  unfold DataProcessor.get_taxpayer_features, Spec.taxpayer_rows, Spec.returns_of.
  destruct (filter _ (DataProcessor.master_data dp)) as [|tp0 tps]; [discriminate|].
  destruct (filter _ (DataProcessor.returns_data dp)) as [|r0 rs] eqn:Er; [discriminate|].
  intro H. injection H as <-.
  exists tp0, tps, r0, rs. cbn -[DataProcessor.iloc_back Nat.ltb].
  repeat split; reflexivity.
Qed.

(** [get_taxpayer_features] returns null exactly for an id that has no
    master row or no return. *)
Lemma features_none_iff (dp : DataProcessor.t) (now : Z) (id : string) :
  DataProcessor.get_taxpayer_features dp now id = None <->
  Spec.taxpayer_rows dp id = [] \/ Spec.returns_of dp id = [].
Proof.
  unfold DataProcessor.get_taxpayer_features, Spec.taxpayer_rows, Spec.returns_of.
  destruct (filter _ (DataProcessor.master_data dp)) as [|tp0 tps].
  - split; auto.
  - destruct (filter _ (DataProcessor.returns_data dp)) as [|r0 rs].
    + split; auto.
    + split; [discriminate | intros [H|H]; discriminate].
Qed.

Lemma unknown_no_rows (dp : DataProcessor.t) (id : string) :
  Spec.unknown dp id -> Spec.taxpayer_rows dp id = [].
Proof.
  unfold Spec.unknown, Spec.taxpayer_rows. intro H.
  destruct (filter _ _) as [|tp tps] eqn:E; [reflexivity|].
  exfalso. apply H.
  assert (Hin : In tp (tp :: tps)) by (left; reflexivity).
  rewrite <- E in Hin. apply filter_In in Hin. destruct Hin as [Hin Heq].
  apply String.eqb_eq in Heq. subst id. now apply in_map.
Qed.

(** C7. Degenerate divisions in feature derivation give 0: for a taxpayer
    with a feature vector, Input_Tax_Ratio is 0 when the latest return's
    Gross_Revenue is <= 0, and Revenue_Growth is 0 when the taxpayer has
    fewer than two returns or the previous return's Gross_Revenue is <= 0. *)
Theorem degenerate_divisions_yield_zero
  (dp : DataProcessor.t) (now : Z) (id : string) (f : DataProcessor.Features) :
  DataProcessor.get_taxpayer_features dp now id = Some f ->
  (forall latest,
      Spec.recent dp id 0 = Some latest ->
      leb (DataProcessor.rt_Gross_Revenue latest) (Fin 0) = true ->
      DataProcessor.Input_Tax_Ratio f = Fin 0) /\
  ((List.length (Spec.returns_of dp id) < 2)%nat ->
      DataProcessor.Revenue_Growth f = Fin 0) /\
  (forall previous,
      Spec.recent dp id 1 = Some previous ->
      leb (DataProcessor.rt_Gross_Revenue previous) (Fin 0) = true ->
      DataProcessor.Revenue_Growth f = Fin 0).
Proof.
  intro H. apply features_some_inv in H.
  destruct H as (tp0 & tps & r0 & rs & _ & Hr & _ & Hratio & Hgrowth & _).
  unfold Spec.recent. rewrite Hr. split; [|split].
  - intros latest Hl Hle. rewrite Hratio.
    rewrite (iloc_back_recent _ _ r0 Hl).
    unfold gtb. now rewrite (leb_ltb_false _ _ Hle).
  - intro Hlen. rewrite Hgrowth.
    destruct (Nat.ltb_spec 1 (List.length (r0 :: rs))); [lia | reflexivity].
  - intros previous Hp Hle. rewrite Hgrowth.
    destruct (1 <? List.length (r0 :: rs))%nat; [|reflexivity].
    cbv zeta. rewrite (iloc_back_recent _ _ r0 Hp).
    unfold gtb. now rewrite (leb_ltb_false _ _ Hle).
Qed.

(* ------------------------------------------------------------------ *)
(** ** Industry benchmark *)

Lemma filter_key_nodup (x : string) (keys : list string) :
  NoDup keys ->
  filter (fun k => String.eqb x k) keys =
  if existsb (String.eqb x) keys then [x] else [].
Proof.
  induction 1 as [|k ks Hnotin Hnd IH]; [reflexivity|].
  simpl. destruct (String.eqb_spec x k) as [->|Hne]; simpl.
  - rewrite IH.
    destruct (existsb (String.eqb k) ks) eqn:E; [|reflexivity].
    exfalso. apply Hnotin. apply existsb_exists in E.
    destruct E as (y & Hy & Heq). apply String.eqb_eq in Heq. now subst y.
  - exact IH.
Qed.

















(* ------------------------------------------------------------------ *)
(** ** Aggregate operations *)

Section Frames.

Context {A : Type}.
Variable key : A -> num.

Lemma insert_desc_perm (x : A) (rows : list A) :
  Permutation (insert_desc key x rows) (x :: rows).
Proof.
  induction rows as [|y rest IH]; simpl; [apply Permutation_refl|].
  destruct (sorts_before (key y) (key x)).
  - apply Permutation_trans with (y :: x :: rest).
    + now apply perm_skip.
    + apply perm_swap.
  - apply Permutation_refl.
Qed.

(** Sorting a frame neither adds nor drops rows. *)
Lemma sort_values_desc_perm (rows : list A) :
  Permutation (sort_values_desc key rows) rows.
Proof.
  induction rows as [|x rest IH]; simpl; [constructor|].
  apply Permutation_trans with (x :: sort_values_desc key rest).
  - apply insert_desc_perm.
  - now apply perm_skip.
Qed.

Lemma sort_values_desc_In (x : A) (rows : list A) :
  In x (sort_values_desc key rows) <-> In x rows.
Proof.
  split; apply Permutation_in;
    [apply sort_values_desc_perm | apply Permutation_sym, sort_values_desc_perm].
Qed.

End Frames.

(** Every row collected by the loop was returned for one of the ids. *)
Lemma for_append_In {A : Type} (f : string -> result (option A)) (ids : list string) :
  forall rows row,
    for_append f ids = Ret rows -> In row rows ->
    exists id, In id ids /\ f id = Ret (Some row).
Proof.
  induction ids as [|i rest IH]; simpl; intros rows row H Hin.
  - injection H as <-. destruct Hin.
  - destruct (f i) as [o|e] eqn:Ef; simpl in H; [|discriminate].
    destruct (for_append f rest) as [rows'|e] eqn:Er; simpl in H; [|discriminate].
    injection H as <-.
    destruct o as [r|].
    + destruct Hin as [<-|Hin].
      * exists i. split; [now left | exact Ef].
      * destruct (IH _ _ eq_refl Hin) as (id & Hid & Hf).
        exists id. split; [now right | exact Hf].
    + destruct (IH _ _ eq_refl Hin) as (id & Hid & Hf).
      exists id. split; [now right | exact Hf].
Qed.

(** The loop returns when its body returns on every id, and then holds a
    row for every id on which the body gave one. *)
Lemma for_append_total {A : Type} (f : string -> result (option A)) (ids : list string) :
  (forall id, In id ids -> exists o, f id = Ret o) ->
  exists rows,
    for_append f ids = Ret rows /\
    forall id row, In id ids -> f id = Ret (Some row) -> In row rows.
Proof.
  induction ids as [|i rest IH]; simpl; intro H.
  - exists []. split; [reflexivity | intros ? ? []].
  - destruct (H i (or_introl eq_refl)) as (o & Ho).
    destruct IH as (rows & Hr & Hrows); [intros; apply H; now right|].
    rewrite Ho, Hr. simpl. eexists. split; [reflexivity|].
    intros id row [<-|Hin] Hf.
    + rewrite Ho in Hf. injection Hf as ->. now left.
    + specialize (Hrows _ _ Hin Hf). destruct o; [now right | exact Hrows].
Qed.

(** A row returned by [detect_anomaly] carries the queried id, and the
    taxpayer has a feature vector. *)
Lemma detect_anomaly_some (det : AnomalyDetector.t) (now : Z) (id : string)
  (a : AnomalyDetector.Anomaly) :
  AnomalyDetector.detect_anomaly det now id = Ret (Some a) ->
  AnomalyDetector.Taxpayer_ID a = id /\
  DataProcessor.get_taxpayer_features (AnomalyDetector.data_processor det) now id <> None.
Proof.
  unfold AnomalyDetector.detect_anomaly.
  destruct (DataProcessor.get_taxpayer_features _ now id) as [f|]; [|discriminate].
  destruct (AnomalyDetector.scaler_transform _ _) as [Xs|e]; simpl; [|discriminate].
  destruct (AnomalyDetector.model_score_samples _ _) as [raw|e]; simpl; [|discriminate].
  intro H. injection H as <-. split; [reflexivity | discriminate].
Qed.

Lemma score_taxpayer_some (rs : RiskScorer.t) (now : Z) (id : string)
  (s : RiskScorer.Score) :
  RiskScorer.score_taxpayer rs now id = Ret (Some s) ->
  RiskScorer.Taxpayer_ID s = id /\
  DataProcessor.get_taxpayer_features (RiskScorer.data_processor rs) now id <> None.
Proof.
  unfold RiskScorer.score_taxpayer, RiskScorer.score_taxpayer_at.
  destruct (DataProcessor.get_taxpayer_features _ now id) as [f|]; [|discriminate].
  destruct (AnomalyDetector.detect_anomaly _ _ _) as [a|e]; simpl; [|discriminate].
  destruct (AnomalyDetector.scaler_transform _ _) as [Xs|e]; simpl; [|discriminate].
  destruct (RiskScorer.model_predict_proba _ _) as [p|e]; simpl; [|discriminate].
  intro H. injection H as <-. split; [reflexivity | discriminate].
Qed.

(** C4. For a taxpayer that is unknown or has no return,
    [get_taxpayer_features] returns null, and no row of the output of
    [detect_all_anomalies] or [score_all_taxpayers] carries its id. *)
Theorem no_features_no_rows (dp : DataProcessor.t) (now : Z) (id : string) :
  Spec.unknown dp id \/ Spec.returns_of dp id = [] ->
  DataProcessor.get_taxpayer_features dp now id = None /\
  (forall det rows,
      AnomalyDetector.data_processor det = dp ->
      AnomalyDetector.detect_all_anomalies det now = Ret rows ->
      ~ In id (map AnomalyDetector.Taxpayer_ID rows)) /\
  (forall rs rows,
      RiskScorer.data_processor rs = dp ->
      RiskScorer.score_all_taxpayers rs now = Ret rows ->
      ~ In id (map RiskScorer.Taxpayer_ID rows)).
Proof.
  intro H.
  assert (Hnone : DataProcessor.get_taxpayer_features dp now id = None).
  { apply features_none_iff. destruct H as [H|H]; [left | now right].
    now apply unknown_no_rows. }
  split; [exact Hnone|]. split.
  - intros det rows Hdp Hall Hin.
    unfold AnomalyDetector.detect_all_anomalies in Hall.
    destruct (for_append _ _) as [anomalies|e] eqn:Ef; simpl in Hall; [|discriminate].
    destruct anomalies as [|a0 rest]; [discriminate|].
    injection Hall as <-.
    apply in_map_iff in Hin. destruct Hin as (a & Hid & Hin).
    apply (sort_values_desc_In AnomalyDetector.Anomaly_Score a (a0 :: rest)) in Hin.
    destruct (@for_append_In _ _ _ _ _ Ef Hin) as (i & _ & Hf).
    apply detect_anomaly_some in Hf. destruct Hf as [Hi Hsome].
    rewrite Hdp in Hsome. apply Hsome. congruence.
  - intros rs rows Hdp Hall Hin.
    unfold RiskScorer.score_all_taxpayers in Hall.
    destruct (for_append _ _) as [scores|e] eqn:Ef; simpl in Hall; [|discriminate].
    destruct scores as [|s0 rest]; [discriminate|].
    injection Hall as <-.
    apply in_map_iff in Hin. destruct Hin as (s & Hid & Hin).
    apply (sort_values_desc_In RiskScorer.Risk_Score s (s0 :: rest)) in Hin.
    destruct (@for_append_In _ _ _ _ _ Ef Hin) as (i & _ & Hf).
    apply score_taxpayer_some in Hf. destruct Hf as [Hi Hsome].
    rewrite Hdp in Hsome. apply Hsome. congruence.
Qed.

(* ------------------------------------------------------------------ *)
(** ** Anomaly score and risk score *)

(** [detect_anomaly] on a fitted detector, for a taxpayer with features. *)
Lemma detect_anomaly_fitted (dp : DataProcessor.t) (now : Z) (id : string)
  (f : DataProcessor.Features)
  (sc : AnomalyDetector.StandardScaler) (fo : AnomalyDetector.IsolationForest)
  (names : option (list string)) :
  DataProcessor.get_taxpayer_features dp now id = Some f ->
  let raw :=
    AnomalyDetector.score_samples fo
      (AnomalyDetector.transform sc
         (AnomalyDetector.zero_inf (AnomalyDetector.feature_row f))) in
  let score := AnomalyDetector.normalize (neg raw) in
  AnomalyDetector.detect_anomaly (AnomalyDetector.mk dp (Some fo) (Some sc) names) now id =
  Ret (Some {| AnomalyDetector.Taxpayer_ID := id;
               AnomalyDetector.Business_Name := DataProcessor.Business_Name f;
               AnomalyDetector.Industry_Name := DataProcessor.Industry_Name f;
               AnomalyDetector.Input_Tax_Ratio := round (DataProcessor.Input_Tax_Ratio f) 4;
               AnomalyDetector.Revenue_Growth := round (DataProcessor.Revenue_Growth f) 4;
               AnomalyDetector.Anomaly_Score := round score 4;
               AnomalyDetector.Is_Anomalous := gtb score (Fin 0.5) |}).
Proof.
  intro H. unfold AnomalyDetector.detect_anomaly. simpl AnomalyDetector.data_processor.
  rewrite H. reflexivity.
Qed.

(** [score_taxpayer] on a fitted scorer whose detector returned a row. *)
Lemma score_taxpayer_fitted (dp : DataProcessor.t) (det : AnomalyDetector.t)
  (now : Z) (id : string) (f : DataProcessor.Features) (a : AnomalyDetector.Anomaly)
  (sc : AnomalyDetector.StandardScaler) (m : RiskScorer.GradientBoostingClassifier)
  (names : option (list string)) :
  DataProcessor.get_taxpayer_features dp now id = Some f ->
  AnomalyDetector.detect_anomaly det now id = Ret (Some a) ->
  let p :=
    RiskScorer.predict_proba1 m
      (AnomalyDetector.transform sc (Spec.risk_row f (AnomalyDetector.Anomaly_Score a))) in
  RiskScorer.score_taxpayer (RiskScorer.mk dp det (Some m) (Some sc) names) now id =
  Ret (Some {| RiskScorer.Taxpayer_ID := id;
               RiskScorer.Business_Name := DataProcessor.Business_Name f;
               RiskScorer.Industry_Name := DataProcessor.Industry_Name f;
               RiskScorer.Risk_Score := round p 4;
               RiskScorer.Risk_Level := RiskScorer._get_risk_level p;
               RiskScorer.Anomaly_Score := round (AnomalyDetector.Anomaly_Score a) 4 |}).
Proof.
  intros Hf Ha. unfold RiskScorer.score_taxpayer, RiskScorer.score_taxpayer_at.
  simpl RiskScorer.data_processor. simpl RiskScorer.anomaly_detector.
  rewrite Hf, Ha. reflexivity.
Qed.

(** C1 (amended). For a taxpayer with a feature vector, a fitted detector
    returns as Anomaly_Score the value [max(0, min(1, (raw + 1) / 2))]
    rounded to four decimals, where [raw] is the negated outlier measure of
    the standardized, infinity-zeroed three-feature vector; Is_Anomalous is
    true exactly when the unrounded value is > 0.5.  Both the unrounded and
    the reported score lie in [0,1], and so does the Risk_Score of a fitted
    scorer whose classifier predicts probabilities. *)
Theorem anomaly_score_rounded_and_bounded
  (dp : DataProcessor.t) (now : Z) (id : string) (f : DataProcessor.Features)
  (sc : AnomalyDetector.StandardScaler) (fo : AnomalyDetector.IsolationForest)
  (names : option (list string))
  (sc' : AnomalyDetector.StandardScaler) (m : RiskScorer.GradientBoostingClassifier)
  (names' : option (list string)) :
  DataProcessor.get_taxpayer_features dp now id = Some f ->
  (forall X, in_unit (RiskScorer.predict_proba1 m X)) ->
  let det := AnomalyDetector.mk dp (Some fo) (Some sc) names in
  let rs := RiskScorer.mk dp det (Some m) (Some sc') names' in
  let raw :=
    neg (AnomalyDetector.score_samples fo
           (AnomalyDetector.transform sc
              (AnomalyDetector.zero_inf
                 [DataProcessor.Input_Tax_Ratio f;
                  DataProcessor.Revenue_Growth f;
                  of_int (DataProcessor.Days_Since_Registration f)]))) in
  let score := Py.max (Fin 0) (Py.min (Fin 1) (div (add raw (Fin 1)) (Fin 2))) in
  exists a s,
    AnomalyDetector.detect_anomaly det now id = Ret (Some a) /\
    AnomalyDetector.Anomaly_Score a = round score 4 /\
    (AnomalyDetector.Is_Anomalous a = true <-> ltb (Fin 0.5) score = true) /\
    in_unit score /\
    in_unit (AnomalyDetector.Anomaly_Score a) /\
    RiskScorer.score_taxpayer rs now id = Ret (Some s) /\
    in_unit (RiskScorer.Risk_Score s).
Proof.
  intros Hf Hp det rs raw score.
  pose proof (@detect_anomaly_fitted dp now id f sc fo names Hf) as Ha.
  cbv zeta in Ha. fold det in Ha.
  pose proof (@score_taxpayer_fitted dp det now id f _ sc' m names' Hf Ha) as Hs.
  cbv zeta in Hs. fold rs in Hs.
  eexists. eexists.
  split; [exact Ha|]. split; [reflexivity|]. split; [reflexivity|].
  assert (Hu : in_unit score) by apply clamp_in_unit.
  split; [exact Hu|]. split; [now apply round4_in_unit|].
  split; [exact Hs|].
  simpl RiskScorer.Risk_Score. apply round4_in_unit, Hp.
Qed.

(** C10. The Risk_Score that [score_taxpayer] reports is the predicted
    probability rounded to four decimals, its Risk_Level is the level of the
    unrounded probability; at probability 0.69996 the report is Risk_Score
    0.7 with Risk_Level HIGH, although the level of 0.7 is CRITICAL. *)
Theorem risk_level_uses_unrounded_probability :
  (forall (dp : DataProcessor.t) (now : Z) (id : string) (f : DataProcessor.Features)
          (det : AnomalyDetector.t) (a : AnomalyDetector.Anomaly)
          (sc : AnomalyDetector.StandardScaler)
          (m : RiskScorer.GradientBoostingClassifier) (names : option (list string)),
      DataProcessor.get_taxpayer_features dp now id = Some f ->
      AnomalyDetector.detect_anomaly det now id = Ret (Some a) ->
      let rs := RiskScorer.mk dp det (Some m) (Some sc) names in
      let p :=
        RiskScorer.predict_proba1 m
          (AnomalyDetector.transform sc
             (Spec.risk_row f (AnomalyDetector.Anomaly_Score a))) in
      exists s,
        RiskScorer.score_taxpayer rs now id = Ret (Some s) /\
        RiskScorer.Risk_Score s = round p 4 /\
        RiskScorer.Risk_Level s = RiskScorer._get_risk_level p /\
        (p = Fin 0.69996 ->
           eqb (RiskScorer.Risk_Score s) (Fin 0.7) = true /\
           RiskScorer.Risk_Level s = "HIGH"%string /\
           RiskScorer._get_risk_level (RiskScorer.Risk_Score s) = "CRITICAL"%string)) /\
  (exists p,
      in_unit p /\
      RiskScorer._get_risk_level p <> RiskScorer._get_risk_level (round p 4)).
Proof.
  split.
  - intros dp now id f det a sc m names Hf Ha rs p.
    pose proof (@score_taxpayer_fitted dp det now id f a sc m names Hf Ha) as Hs.
    cbv zeta in Hs. fold rs p in Hs.
    eexists. split; [exact Hs|]. split; [reflexivity|]. split; [reflexivity|].
    intro Hp. simpl RiskScorer.Risk_Score. simpl RiskScorer.Risk_Level.
    rewrite Hp. repeat split; reflexivity.
  - exists (Fin 0.69996). split; [split; reflexivity | discriminate].
Qed.

(* ------------------------------------------------------------------ *)
(** ** Use before training *)

Lemma raises_bind {A B : Type} (m : result A) (k : A -> result B) :
  raises m -> raises (Py.bind m k).
Proof. intros [e ->]. now exists e. Qed.

(** A loop whose body either raises or gives no row raises or collects
    nothing. *)
Lemma for_append_no_rows {A : Type} (f : string -> result (option A)) (ids : list string) :
  (forall id, In id ids -> f id = Ret None \/ raises (f id)) ->
  for_append f ids = Ret [] \/ raises (for_append f ids).
Proof.
  induction ids as [|i rest IH]; simpl; intro H; [now left|].
  destruct (H i (or_introl eq_refl)) as [Hi|Hi].
  - rewrite Hi. simpl.
    destruct IH as [-> | [e ->]]; [intros; apply H; now right | now left |].
    right. now exists e.
  - right. now apply raises_bind.
Qed.

Lemma detect_anomaly_unfitted (dp : DataProcessor.t) (now : Z) (id : string) :
  AnomalyDetector.detect_anomaly (AnomalyDetector.init dp) now id =
  match DataProcessor.get_taxpayer_features dp now id with
  | Some _ => Raise NotFittedError
  | None => Ret None
  end.
Proof.
  unfold AnomalyDetector.detect_anomaly, AnomalyDetector.init; simpl.
  destruct (DataProcessor.get_taxpayer_features dp now id); reflexivity.
Qed.

Lemma score_taxpayer_unfitted (dp : DataProcessor.t) (det : AnomalyDetector.t)
  (now : Z) (id : string) :
  match DataProcessor.get_taxpayer_features dp now id with
  | Some _ => raises (RiskScorer.score_taxpayer (RiskScorer.init dp det) now id)
  | None => RiskScorer.score_taxpayer (RiskScorer.init dp det) now id = Ret None
  end.
Proof.
  unfold RiskScorer.score_taxpayer, RiskScorer.score_taxpayer_at, RiskScorer.init; simpl.
  destruct (DataProcessor.get_taxpayer_features dp now id); [|reflexivity].
  destruct (AnomalyDetector.detect_anomaly det now id) as [a|e]; simpl.
  - now exists NotFittedError.
  - now exists e.
Qed.

(** C9 (amended). Before training, [detect_anomaly], [score_taxpayer] and
    [get_risk_explanation] raise an error for a taxpayer that has a feature
    vector and return null for one that has none; [detect_all_anomalies] and
    [score_all_taxpayers] raise; [get_feature_importance] returns null
    without an error; [get_anomaly_explanation] does not consult the model
    and returns what it returns on any detector over the same data. *)
Theorem untrained_model_use
  (dp : DataProcessor.t) (det : AnomalyDetector.t) (now : Z) (id : string) :
  let fresh := AnomalyDetector.init dp in
  let fresh_rs := RiskScorer.init dp det in
  (DataProcessor.get_taxpayer_features dp now id <> None ->
     raises (AnomalyDetector.detect_anomaly fresh now id) /\
     raises (RiskScorer.score_taxpayer fresh_rs now id) /\
     raises (RiskScorer.get_risk_explanation fresh_rs now id)) /\
  (DataProcessor.get_taxpayer_features dp now id = None ->
     AnomalyDetector.detect_anomaly fresh now id = Ret None /\
     RiskScorer.score_taxpayer fresh_rs now id = Ret None /\
     RiskScorer.get_risk_explanation fresh_rs now id = Ret None) /\
  raises (AnomalyDetector.detect_all_anomalies fresh now) /\
  raises (RiskScorer.score_all_taxpayers fresh_rs now) /\
  RiskScorer.get_feature_importance fresh_rs = Ret None /\
  (forall other,
     AnomalyDetector.data_processor other = dp ->
     AnomalyDetector.get_anomaly_explanation fresh now id =
     AnomalyDetector.get_anomaly_explanation other now id).
Proof.
  intros fresh fresh_rs.
  pose proof (detect_anomaly_unfitted dp now id) as Hd.
  pose proof (score_taxpayer_unfitted dp det now id) as Hs.
  fold fresh in Hd. fold fresh_rs in Hs.
  split; [|split; [|split; [|split; [|split]]]].
  - intro Hsome.
    destruct (DataProcessor.get_taxpayer_features dp now id) as [f|] eqn:Ef;
      [|congruence].
    split; [rewrite Hd; now exists NotFittedError|].
    split; [exact Hs|].
    unfold RiskScorer.get_risk_explanation, RiskScorer.get_risk_explanation_at;
    fold_score_taxpayer. now apply raises_bind.
  - intro Hnone. rewrite Hnone in Hd, Hs.
    split; [exact Hd|]. split; [exact Hs|].
    unfold RiskScorer.get_risk_explanation, RiskScorer.get_risk_explanation_at;
    fold_score_taxpayer. rewrite Hs. reflexivity.
  - unfold AnomalyDetector.detect_all_anomalies.
    destruct (@for_append_no_rows _ (AnomalyDetector.detect_anomaly fresh now)
                (map DataProcessor.tp_Taxpayer_ID
                   (DataProcessor.master_data (AnomalyDetector.data_processor fresh))))
      as [-> | Hr].
    + intros i _. unfold fresh. rewrite detect_anomaly_unfitted.
      destruct (DataProcessor.get_taxpayer_features dp now i);
        [right; now exists NotFittedError | now left].
    + now exists KeyError.
    + now apply raises_bind.
  - unfold RiskScorer.score_all_taxpayers.
    destruct (@for_append_no_rows _ (RiskScorer.score_taxpayer fresh_rs now)
                (map DataProcessor.tp_Taxpayer_ID
                   (DataProcessor.master_data (RiskScorer.data_processor fresh_rs))))
      as [-> | Hr].
    + intros i _. pose proof (score_taxpayer_unfitted dp det now i) as Hi.
      fold fresh_rs in Hi.
      destruct (DataProcessor.get_taxpayer_features dp now i); [now right | now left].
    + now exists KeyError.
    + now apply raises_bind.
  - reflexivity.
  - intros other <-. reflexivity.
Qed.

(* ------------------------------------------------------------------ *)
(** ** Training labels *)

Lemma fold_max_flags (flags : list Z) (acc : Z) :
  (acc = 0 \/ acc = 1)%Z ->
  Forall (fun z => z = 0 \/ z = 1)%Z flags ->
  fold_left Z.max flags acc =
  (if (acc =? 1)%Z || existsb (Z.eqb 1) flags then 1 else 0)%Z.
Proof.
  intros Hacc Hf. revert acc Hacc.
  induction Hf as [|z rest Hz Hrest IH]; intros acc Hacc; simpl.
  - destruct Hacc as [-> | ->]; reflexivity.
  - rewrite IH by (destruct Hacc as [-> | ->], Hz as [-> | ->]; simpl; auto).
    destruct Hacc as [-> | ->], Hz as [-> | ->]; reflexivity.
Qed.

Lemma group_max_flags (flags : list Z) :
  Forall (fun z => z = 0 \/ z = 1)%Z flags ->
  RiskScorer.group_max flags = (if existsb (Z.eqb 1) flags then 1 else 0)%Z.
Proof.
  intro Hf. destruct Hf as [|z rest Hz Hrest]; [reflexivity|].
  simpl. rewrite (fold_max_flags Hz Hrest).
  destruct Hz as [-> | ->]; reflexivity.
Qed.

(** The flags of the audit records of one taxpayer. *)
Lemma group_flags (audits : list DataProcessor.Audit) (k : string) :
  let flags :=
    map snd
      (filter (fun r : string * Z => String.eqb (fst r) k)
         (map (fun a => (DataProcessor.au_Taxpayer_ID a, RiskScorer.Is_Non_Compliant a))
            audits)) in
  Forall (fun z => z = 0 \/ z = 1)%Z flags /\
  existsb (Z.eqb 1) flags =
  existsb (fun a =>
             String.eqb (DataProcessor.au_Taxpayer_ID a) k
             && String.eqb (DataProcessor.au_Audit_Finding a) "Non-Compliant") audits.
Proof.
  induction audits as [|a rest [IHf IHe]]; simpl; [split; [constructor | reflexivity]|].
  destruct (String.eqb (DataProcessor.au_Taxpayer_ID a) k); simpl.
  - split.
    + constructor; [|exact IHf]. unfold RiskScorer.Is_Non_Compliant.
      destruct (String.eqb _ _); auto.
    + rewrite IHe. unfold RiskScorer.Is_Non_Compliant.
      destruct (String.eqb (DataProcessor.au_Audit_Finding a) _); reflexivity.
  - split; [exact IHf | exact IHe].
Qed.

(** The grouped label of an id is the OR of its findings. *)
Lemma group_label (dp : DataProcessor.t) (k : string) :
  RiskScorer.group_max
    (map snd
       (filter (fun r : string * Z => String.eqb (fst r) k)
          (map (fun a => (DataProcessor.au_Taxpayer_ID a, RiskScorer.Is_Non_Compliant a))
             (DataProcessor.audit_data dp)))) =
  (if Spec.any_non_compliant dp k then 1 else 0)%Z.
Proof.
  destruct (group_flags (DataProcessor.audit_data dp) k) as [Hf He].
  rewrite (group_max_flags Hf), He. reflexivity.
Qed.

Lemma filter_map_key {A : Type} (g : string -> A) (key : A -> string) (k : string)
  (l : list string) :
  (forall x, key (g x) = x) ->
  filter (fun r => String.eqb k (key r)) (map g l) =
  map g (filter (fun x => String.eqb k x) l).
Proof.
  intro Hk. induction l as [|x l IH]; simpl; [reflexivity|].
  rewrite Hk. destruct (String.eqb k x); simpl; now rewrite IH.
Qed.

(** The label frame has at most one row per id, and that row holds the OR
    of the taxpayer's findings. *)
Lemma audit_labels_lookup (dp : DataProcessor.t) (k : string) :
  filter (fun r : string * Z => String.eqb k (fst r)) (RiskScorer.audit_labels dp) = []
  /\ Spec.any_non_compliant dp k = false
  \/
  filter (fun r : string * Z => String.eqb k (fst r)) (RiskScorer.audit_labels dp) =
    [(k, (if Spec.any_non_compliant dp k then 1 else 0)%Z)].
Proof.
  unfold RiskScorer.audit_labels, RiskScorer.groupby_max.
  rewrite filter_map_key by reflexivity.
  rewrite filter_key_nodup by apply NoDup_nodup.
  destruct (existsb (String.eqb k) _) eqn:E.
  - right. simpl. now rewrite group_label.
  - left. split; [reflexivity|].
    unfold Spec.any_non_compliant.
    destruct (existsb _ (DataProcessor.audit_data dp)) eqn:E2; [|reflexivity].
    apply existsb_exists in E2. destruct E2 as (a & Hin & Ha).
    apply andb_true_iff in Ha. destruct Ha as [Hid _].
    apply String.eqb_eq in Hid.
    assert (Hex : existsb (String.eqb k)
                    (nodup string_dec
                       (map fst
                          (map (fun a => (DataProcessor.au_Taxpayer_ID a,
                                          RiskScorer.Is_Non_Compliant a))
                             (DataProcessor.audit_data dp)))) = true).
    { apply existsb_exists. exists k. split; [|apply String.eqb_refl].
      apply nodup_In. rewrite map_map. simpl.
      apply in_map_iff. exists a. split; [exact Hid | exact Hin]. }
    congruence.
Qed.

(** A left merge keeps every left row. *)
Lemma merge_left_covers {L R : Type} (lkey : L -> string) (rkey : R -> string)
  (left : list L) (right : list R) (l : L) :
  In l left -> exists o, In (l, o) (RiskScorer.merge_left lkey rkey left right).
Proof.
  intro Hin. unfold RiskScorer.merge_left.
  destruct (filter (fun r => String.eqb (lkey l) (rkey r)) right) as [|r rs] eqn:E.
  - exists None. apply in_flat_map. exists l. split; [exact Hin|].
    rewrite E. now left.
  - exists (Some r). apply in_flat_map. exists l. split; [exact Hin|].
    rewrite E. now left.
Qed.

(** A row of a left merge pairs a left row with one of its matches, or
    with nothing when it has none. *)
Lemma merge_left_In {L R : Type} (lkey : L -> string) (rkey : R -> string)
  (left : list L) (right : list R) (l : L) (o : option R) :
  In (l, o) (RiskScorer.merge_left lkey rkey left right) ->
  In l left /\
  match o with
  | Some r => In r (filter (fun r => String.eqb (lkey l) (rkey r)) right)
  | None => filter (fun r => String.eqb (lkey l) (rkey r)) right = []
  end.
Proof.
  unfold RiskScorer.merge_left. intro H. apply in_flat_map in H.
  destruct H as (l' & Hin & H).
  destruct (filter (fun r => String.eqb (lkey l') (rkey r)) right) as [|r rs] eqn:E.
  - destruct H as [H|[]]. injection H as -> <-. now split.
  - apply in_map_iff in H. destruct H as (r' & H & Hr').
    injection H as -> <-. split; [exact Hin|]. now rewrite E.
Qed.

(** A fitted detector returns a frame as soon as one listed taxpayer has a
    feature vector. *)
Lemma detect_all_fitted_returns (dp : DataProcessor.t) (now : Z)
  (fo : AnomalyDetector.IsolationForest) (sc : AnomalyDetector.StandardScaler)
  (names : option (list string)) :
  DataProcessor.get_all_taxpayer_features dp now <> [] ->
  exists rows,
    AnomalyDetector.detect_all_anomalies
      (AnomalyDetector.mk dp (Some fo) (Some sc) names) now = Ret rows.
Proof.
  intro Hne. set (det := AnomalyDetector.mk dp (Some fo) (Some sc) names).
  unfold AnomalyDetector.detect_all_anomalies.
  destruct (@for_append_total _ (AnomalyDetector.detect_anomaly det now)
              (map DataProcessor.tp_Taxpayer_ID
                 (DataProcessor.master_data (AnomalyDetector.data_processor det))))
    as (rows & Hr & Hrows).
  { intros i _. unfold AnomalyDetector.detect_anomaly. simpl.
    destruct (DataProcessor.get_taxpayer_features dp now i); eexists; reflexivity. }
  rewrite Hr. simpl.
  destruct (DataProcessor.get_all_taxpayer_features dp now) as [|f0 fs] eqn:Ea;
    [congruence|].
  assert (Hin : In f0 (DataProcessor.get_all_taxpayer_features dp now))
    by (rewrite Ea; now left).
  unfold DataProcessor.get_all_taxpayer_features in Hin.
  apply in_flat_map in Hin. destruct Hin as (tp & Htp & Hf).
  destruct (DataProcessor.get_taxpayer_features dp now (DataProcessor.tp_Taxpayer_ID tp))
    as [f|] eqn:Ef; [|destruct Hf].
  pose proof (@detect_anomaly_fitted dp now _ f sc fo names Ef) as Ha.
  cbv zeta in Ha. fold det in Ha.
  assert (Hrow : In (DataProcessor.tp_Taxpayer_ID tp)
                   (map DataProcessor.tp_Taxpayer_ID
                      (DataProcessor.master_data (AnomalyDetector.data_processor det))))
    by (apply in_map; exact Htp).
  specialize (Hrows _ _ Hrow Ha).
  destruct rows as [|a0 rest]; [destruct Hrows|].
  eexists. reflexivity.
Qed.

(** C5. The label that [train] derives for a taxpayer with a feature vector
    is 1 when some audit record of the taxpayer has the finding
    "Non-Compliant" and 0 otherwise, in particular 0 for a taxpayer without
    audit records; every feature vector gets a training row. *)
Theorem training_label_is_or_of_findings (self : RiskScorer.t) (now : Z) :
  (forall fo sc names,
      RiskScorer.anomaly_detector self =
        AnomalyDetector.mk (RiskScorer.data_processor self) (Some fo) (Some sc) names ->
      DataProcessor.get_all_taxpayer_features (RiskScorer.data_processor self) now <> [] ->
      exists rows, RiskScorer.training_data self now = Ret rows) /\
  (forall rows,
      RiskScorer.training_data self now = Ret rows ->
      (forall f,
          In f (DataProcessor.get_all_taxpayer_features (RiskScorer.data_processor self) now) ->
          exists row, In row rows /\ RiskScorer.tr_features row = f) /\
      Forall (fun row =>
                RiskScorer.tr_Is_Non_Compliant row =
                (if Spec.any_non_compliant (RiskScorer.data_processor self)
                      (DataProcessor.Taxpayer_ID (RiskScorer.tr_features row))
                 then 1 else 0)%Z) rows).
Proof.
  split.
  - intros fo sc names Hdet Hne. unfold RiskScorer.training_data.
    rewrite Hdet.
    destruct (@detect_all_fitted_returns _ now fo sc names Hne) as (anomalies & ->).
    simpl. eexists. reflexivity.
  - intros rows H. unfold RiskScorer.training_data in H.
    destruct (AnomalyDetector.detect_all_anomalies _ now) as [anomalies|e];
      simpl in H; [|discriminate].
    injection H as <-.
    set (dp := RiskScorer.data_processor self).
    set (with_scores :=
           RiskScorer.merge_left DataProcessor.Taxpayer_ID AnomalyDetector.Taxpayer_ID
             (DataProcessor.get_all_taxpayer_features dp now) anomalies).
    split.
    + intros f Hf.
      destruct (@merge_left_covers _ _ DataProcessor.Taxpayer_ID
                  AnomalyDetector.Taxpayer_ID _ anomalies _ Hf) as (o & Ho).
      fold with_scores in Ho.
      destruct (@merge_left_covers _ _
                  (fun row : DataProcessor.Features * option AnomalyDetector.Anomaly =>
                     DataProcessor.Taxpayer_ID (fst row))
                  (fst (B:=Z)) with_scores (RiskScorer.audit_labels dp) _ Ho)
        as (o' & Ho').
      eexists. split; [apply in_map_iff; eexists; split; [reflexivity | exact Ho']|].
      reflexivity.
    + apply Forall_forall. intros row Hrow.
      apply in_map_iff in Hrow. destruct Hrow as ([l o] & <- & Hin).
      apply merge_left_In in Hin. destruct Hin as [_ Hmatch].
      cbn [RiskScorer.tr_Is_Non_Compliant RiskScorer.tr_features fst snd].
      cbn [fst] in Hmatch.
      destruct (audit_labels_lookup dp (DataProcessor.Taxpayer_ID (fst l)))
        as [[Hnil Hfalse] | Hone].
      * rewrite Hfalse. destruct o as [r|]; [|reflexivity].
        rewrite Hnil in Hmatch. destruct Hmatch.
      * destruct o as [r|].
        -- rewrite Hone in Hmatch. destruct Hmatch as [<-|[]]. reflexivity.
        -- rewrite Hone in Hmatch. discriminate.
Qed.

(* ------------------------------------------------------------------ *)
(** ** Explanation text and risk level *)

Lemma ratio_rule_head (d : num) (msg : string) :
  Spec.ratio_rule d = Some msg -> exists s, msg = String "I" s.
Proof.
  unfold Spec.ratio_rule.
  destruct (gtb d (Fin 1)); [|destruct (ltb d (Fin (-0.5)))]; intro H;
    [| |discriminate]; injection H as <-; cbn [append]; eexists; reflexivity.
Qed.

Lemma growth_rule_head (g : num) (msg : string) :
  Spec.growth_rule g = Some msg -> exists s, msg = String "R" s.
Proof.
  unfold Spec.growth_rule.
  destruct (gtb g (Fin 0.5)); [|destruct (ltb g (Fin (-0.3)))]; intro H;
    [| |discriminate]; injection H as <-; cbn [append]; eexists; reflexivity.
Qed.

Lemma generate_explanation_unfold (f : DataProcessor.Features) (benchmark : num) :
  AnomalyDetector._generate_explanation f benchmark =
  match Spec.ratio_rule (AnomalyDetector.ratio_deviation f benchmark),
        Spec.growth_rule (DataProcessor.Revenue_Growth f) with
  | None, None => "No significant anomalies detected"
  | Some m, None => m
  | None, Some m => m
  | Some m1, Some m2 => m1 ++ " | " ++ m2
  end%string.
Proof.
  unfold AnomalyDetector._generate_explanation, Spec.ratio_rule, Spec.growth_rule.
  destruct (gtb (AnomalyDetector.ratio_deviation f benchmark) (Fin 1));
    [|destruct (ltb (AnomalyDetector.ratio_deviation f benchmark) (Fin (-0.5)))];
    (destruct (gtb (DataProcessor.Revenue_Growth f) (Fin 0.5));
     [|destruct (ltb (DataProcessor.Revenue_Growth f) (Fin (-0.3)))]);
    reflexivity.
Qed.

(** C6. The explanation is built by two rules.  The ratio rule gives
    "Input tax claim is P% higher than industry benchmark" for a ratio
    deviation > 1 and "Input tax claim is P% lower than industry benchmark"
    for one < -0.5, the deviation being 0 when the benchmark is not > 0; the
    growth rule gives "Revenue grew by P% (unusually high)" for a growth
    > 0.5 and "Revenue declined by P%" for one < -0.3, P being the
    percentage with one decimal.  The text is the message of the rule that
    fired, both messages with " | " between them when both fired, and "No
    significant anomalies detected" when, and only when, none fired.  So a
    growth of 0.5 gives no message and 0.51 gives one, and the deviations 1
    and -0.5 give none. *)
Theorem explanation_rules (f : DataProcessor.Features) (benchmark : num) :
  let deviation := AnomalyDetector.ratio_deviation f benchmark in
  let growth := DataProcessor.Revenue_Growth f in
  let text := AnomalyDetector._generate_explanation in
  (gtb benchmark (Fin 0) = false -> deviation = Fin 0) /\
  (gtb benchmark (Fin 0) = true ->
     deviation = div (sub (DataProcessor.Input_Tax_Ratio f) benchmark) benchmark) /\
  text f benchmark =
    match Spec.ratio_rule deviation, Spec.growth_rule growth with
    | None, None => "No significant anomalies detected"
    | Some m, None => m
    | None, Some m => m
    | Some m1, Some m2 => m1 ++ " | " ++ m2
    end%string /\
  (Spec.ratio_rule deviation <> None <->
     gtb deviation (Fin 1) = true \/ ltb deviation (Fin (-0.5)) = true) /\
  (Spec.growth_rule growth <> None <->
     gtb growth (Fin 0.5) = true \/ ltb growth (Fin (-0.3)) = true) /\
  (text f benchmark = "No significant anomalies detected"%string <->
     Spec.ratio_rule deviation = None /\ Spec.growth_rule growth = None) /\
  text (Props.vector (Fin (10 # 150)) (Fin 0.5)) (Fin 0.05) =
    "No significant anomalies detected"%string /\
  text (Props.vector (Fin (10 # 150)) (Fin 0.51)) (Fin 0.05) =
    "Revenue grew by 51.0% (unusually high)"%string /\
  text (Props.vector (Fin 0.3) (Fin (-0.4))) (Fin 0.1) =
    "Input tax claim is 200.0% higher than industry benchmark | Revenue declined by 40.0%"%string /\
  text (Props.vector (Fin 0.02) (Fin 0.51)) (Fin 0.1) =
    "Input tax claim is 80.0% lower than industry benchmark | Revenue grew by 51.0% (unusually high)"%string /\
  text (Props.vector (Fin 1) (Fin (-0.3))) (Fin 0.5) =
    "No significant anomalies detected"%string /\
  text (Props.vector (Fin 0.25) (Fin 0)) (Fin 0.5) =
    "No significant anomalies detected"%string /\
  text (Props.vector (Fin 5) (Fin 0)) (Fin 0) =
    "No significant anomalies detected"%string.
Proof.
  intros deviation growth text.
  split; [|split; [|split; [|split; [|split; [|split]]]]].
  - unfold deviation, AnomalyDetector.ratio_deviation. now intros ->.
  - unfold deviation, AnomalyDetector.ratio_deviation. now intros ->.
  - apply generate_explanation_unfold.
  - unfold Spec.ratio_rule.
    destruct (gtb deviation (Fin 1)); [|destruct (ltb deviation (Fin (-0.5)))].
    + split; [now left | discriminate].
    + split; [now right | discriminate].
    + split; [congruence | intros [H|H]; discriminate].
  - unfold Spec.growth_rule.
    destruct (gtb growth (Fin 0.5)); [|destruct (ltb growth (Fin (-0.3)))].
    + split; [now left | discriminate].
    + split; [now right | discriminate].
    + split; [congruence | intros [H|H]; discriminate].
  - unfold text. rewrite generate_explanation_unfold. fold deviation growth.
    destruct (Spec.ratio_rule deviation) as [m1|] eqn:Er.
    + destruct (ratio_rule_head _ Er) as (s & ->).
      destruct (Spec.growth_rule growth) as [m2|]; cbn [append];
        (split; [discriminate | intros [H _]; discriminate]).
    + destruct (Spec.growth_rule growth) as [m2|] eqn:Eg.
      * destruct (growth_rule_head _ Eg) as (s & ->).
        split; [discriminate | intros [_ H]; discriminate].
      * split; [now split | reflexivity].
  - repeat split; reflexivity.
Qed.

(** C2. The risk level is a step function of the score whose thresholds
    belong to the upper step: CRITICAL from 0.7 on, HIGH on [0.5, 0.7),
    MEDIUM on [0.3, 0.5), LOW below 0.3; so 0.7 is CRITICAL, 0.5 and 0.6999
    are HIGH, 0.3 is MEDIUM and 0.2999 is LOW. *)
Theorem risk_level_step_function (score : num) :
  (leb (Fin 0.7) score = true -> RiskScorer._get_risk_level score = "CRITICAL"%string) /\
  (leb (Fin 0.5) score = true -> ltb score (Fin 0.7) = true ->
     RiskScorer._get_risk_level score = "HIGH"%string) /\
  (leb (Fin 0.3) score = true -> ltb score (Fin 0.5) = true ->
     RiskScorer._get_risk_level score = "MEDIUM"%string) /\
  (ltb score (Fin 0.3) = true -> RiskScorer._get_risk_level score = "LOW"%string) /\
  RiskScorer._get_risk_level (Fin 0.70) = "CRITICAL"%string /\
  RiskScorer._get_risk_level (Fin 0.6999) = "HIGH"%string /\
  RiskScorer._get_risk_level (Fin 0.5) = "HIGH"%string /\
  RiskScorer._get_risk_level (Fin 0.30) = "MEDIUM"%string /\
  RiskScorer._get_risk_level (Fin 0.2999) = "LOW"%string.
Proof.
  unfold RiskScorer._get_risk_level, geb.
  repeat split; try reflexivity.
  - now intros ->.
  - intros H5 H7. now rewrite (ltb_leb_false _ _ H7), H5.
  - intros H3 H5. apply ltb_leb_false in H5 as H5'.
    assert (H7 : leb (Fin 0.7) score = false).
    { destruct (leb (Fin 0.7) score) eqn:E; [|reflexivity].
      assert (Hc : leb (Fin 0.5) score = true)
        by (apply leb_trans with (Fin 0.7); [reflexivity | exact E]).
      congruence. }
    now rewrite H7, H5', H3.
  - intro H3.
    assert (H5 : ltb score (Fin 0.5) = true)
      by (apply ltb_leb_trans with (Fin 0.3); [exact H3 | reflexivity]).
    assert (H7 : ltb score (Fin 0.7) = true)
      by (apply ltb_leb_trans with (Fin 0.3); [exact H3 | reflexivity]).
    now rewrite (ltb_leb_false _ _ H7), (ltb_leb_false _ _ H5), (ltb_leb_false _ _ H3).
Qed.

(* ------------------------------------------------------------------ *)
(** ** Dependence on the clock *)

Lemma first_taxpayer_row (dp : DataProcessor.t) (id : string)
  (tp0 : DataProcessor.Taxpayer) (tps : list DataProcessor.Taxpayer) :
  Spec.taxpayer_rows dp id = tp0 :: tps ->
  In tp0 (DataProcessor.master_data dp) /\ DataProcessor.tp_Taxpayer_ID tp0 = id.
Proof.
  unfold Spec.taxpayer_rows. intro H.
  assert (Hin : In tp0 (tp0 :: tps)) by now left.
  rewrite <- H in Hin. apply filter_In in Hin.
  destruct Hin as [Hin Heq]. now apply String.eqb_eq in Heq.
Qed.

(** Two clock readings give the same vector up to Days_Since_Registration. *)
Lemma features_modulo_days (dp : DataProcessor.t) (now1 now2 : Z) (id : string) :
  option_map Spec.forget_days (DataProcessor.get_taxpayer_features dp now1 id) =
  option_map Spec.forget_days (DataProcessor.get_taxpayer_features dp now2 id).
Proof.
  unfold DataProcessor.get_taxpayer_features.
  destruct (filter _ (DataProcessor.master_data dp)) as [|tp0 tps]; [reflexivity|].
  destruct (filter _ (DataProcessor.returns_data dp)) as [|r0 rs]; reflexivity.
Qed.

Lemma features_same_days (dp : DataProcessor.t) (now1 now2 : Z) (id : string) :
  Props.same_day_count dp id now1 now2 ->
  DataProcessor.get_taxpayer_features dp now1 id =
  DataProcessor.get_taxpayer_features dp now2 id.
Proof.
  intro Hdays.
  pose proof (@first_taxpayer_row dp id) as Hfirst.
  unfold Spec.taxpayer_rows in Hfirst.
  unfold DataProcessor.get_taxpayer_features.
  destruct (filter _ (DataProcessor.master_data dp)) as [|tp0 tps]; [reflexivity|].
  destruct (Hfirst tp0 tps eq_refl) as [Hin Hid].
  destruct (filter _ (DataProcessor.returns_data dp)) as [|r0 rs]; [reflexivity|].
  cbv zeta. rewrite (Hdays tp0 Hin Hid). reflexivity.
Qed.

(** What [get_anomaly_explanation] returns does not depend on the clock:
    no field of the explanation is derived from Days_Since_Registration. *)
Lemma anomaly_explanation_clock_free (det : AnomalyDetector.t) (now1 now2 : Z)
  (id : string) :
  AnomalyDetector.get_anomaly_explanation det now1 id =
  AnomalyDetector.get_anomaly_explanation det now2 id.
Proof.
  unfold AnomalyDetector.get_anomaly_explanation, DataProcessor.get_taxpayer_features.
  destruct (filter _ (DataProcessor.master_data _)) as [|tp0 tps]; [reflexivity|].
  destruct (filter _ (DataProcessor.returns_data _)) as [|r0 rs]; reflexivity.
Qed.

(** C3 (amended).  The clock is an input of [get_taxpayer_features]: two
    calls with the same taxpayer id agree on every field except
    Days_Since_Registration, and return equal results when both clock
    readings are the same whole number of days after the registration date;
    then [detect_anomaly], which reads the clock once, returns equal results
    as well.  [get_anomaly_explanation] returns equal results whatever the
    clock reads.  [score_taxpayer] reads the clock twice and
    [get_risk_explanation] four times: two calls return equal results when
    the first reading of the one is the same whole number of days after the
    registration date as the first reading of the other, and the second as
    the second; the third and fourth readings of [get_risk_explanation] do
    not bear on its result. *)
Theorem results_equal_on_equal_day_counts
  (dp : DataProcessor.t) (now1 now2 : Z) (id : string) :
  option_map Spec.forget_days (DataProcessor.get_taxpayer_features dp now1 id) =
  option_map Spec.forget_days (DataProcessor.get_taxpayer_features dp now2 id) /\
  (forall det,
      AnomalyDetector.data_processor det = dp ->
      AnomalyDetector.get_anomaly_explanation det now1 id =
      AnomalyDetector.get_anomaly_explanation det now2 id) /\
  (Props.same_day_count dp id now1 now2 ->
   DataProcessor.get_taxpayer_features dp now1 id =
   DataProcessor.get_taxpayer_features dp now2 id /\
   (forall det,
       AnomalyDetector.data_processor det = dp ->
       AnomalyDetector.detect_anomaly det now1 id =
       AnomalyDetector.detect_anomaly det now2 id) /\
   (forall rs second1 second2,
       RiskScorer.data_processor rs = dp ->
       AnomalyDetector.data_processor (RiskScorer.anomaly_detector rs) = dp ->
       Props.same_day_count dp id second1 second2 ->
       RiskScorer.score_taxpayer_at rs now1 second1 id =
       RiskScorer.score_taxpayer_at rs now2 second2 id /\
       (forall third1 third2 fourth1 fourth2,
           RiskScorer.get_risk_explanation_at rs now1 second1 third1 fourth1 id =
           RiskScorer.get_risk_explanation_at rs now2 second2 third2 fourth2 id))).
Proof.
  split; [apply features_modulo_days|].
  split; [intros det _; apply anomaly_explanation_clock_free|].
  intro Hdays.
  assert (Hdet : forall t1 t2 det,
             Props.same_day_count dp id t1 t2 ->
             AnomalyDetector.data_processor det = dp ->
             AnomalyDetector.detect_anomaly det t1 id =
             AnomalyDetector.detect_anomaly det t2 id).
  { intros t1 t2 det Ht Hdp. unfold AnomalyDetector.detect_anomaly.
    rewrite Hdp, (features_same_days Ht). reflexivity. }
  split; [exact (features_same_days Hdays)|].
  split; [intros det Hdp; exact (Hdet _ _ det Hdays Hdp)|].
  intros rs second1 second2 Hdp Hdp' Hsecond.
  assert (Hs : RiskScorer.score_taxpayer_at rs now1 second1 id =
               RiskScorer.score_taxpayer_at rs now2 second2 id).
  { unfold RiskScorer.score_taxpayer_at.
    rewrite Hdp, (features_same_days Hdays), (Hdet _ _ _ Hsecond Hdp').
    reflexivity. }
  split; [exact Hs|].
  intros third1 third2 fourth1 fourth2.
  unfold RiskScorer.get_risk_explanation_at.
  rewrite Hs, (anomaly_explanation_clock_free _ fourth1 fourth2).
  destruct (RiskScorer.score_taxpayer_at rs now2 second2 id) as [[s|]|e];
    cbn [bind]; try reflexivity.
  unfold DataProcessor.get_taxpayer_features.
  destruct (filter _ (DataProcessor.master_data _)) as [|tp0 tps]; [reflexivity|].
  destruct (filter _ (DataProcessor.returns_data _)) as [|r0 rs0]; reflexivity.
Qed.

(* ------------------------------------------------------------------ *)
(** ** Concrete checks on the example store *)

Import Example.

(** The label column of the example training frame. *)
Example example_training_labels :
  exists rows,
    RiskScorer.training_data (scorer (-0.40008) 0.69996) now = Ret rows /\
    map (fun row => (DataProcessor.Taxpayer_ID (RiskScorer.tr_features row),
                     RiskScorer.tr_Is_Non_Compliant row)) rows =
    [("T1", 1); ("T2", 0); ("T4", 0); ("T5", 0)]%string%Z.
Proof. eexists. split; reflexivity. Qed.

(** The end-to-end scenario: returns with Gross_Revenue 100 then 150 give a
    growth of exactly 0.5, which does not trigger the growth rule. *)
Example example_growth_at_boundary :
  exists f,
    DataProcessor.get_taxpayer_features store now "T1" = Some f /\
    eqb (DataProcessor.Revenue_Growth f) (Fin 0.5) = true /\
    AnomalyDetector._generate_explanation f (Fin 0.05) =
    "No significant anomalies detected"%string.
Proof. eexists. repeat split; reflexivity. Qed.

(** A clamped score just above one half: reported as 0.5, flagged anomalous. *)
Example example_flag_uses_unrounded_score :
  exists a,
    AnomalyDetector.detect_anomaly (detector (-0.00008)) now "T1" = Ret (Some a) /\
    eqb (AnomalyDetector.Anomaly_Score a) (Fin 0.5) = true /\
    gtb (AnomalyDetector.Anomaly_Score a) (Fin 0.5) = false /\
    AnomalyDetector.Is_Anomalous a = true.
Proof. eexists. repeat split; reflexivity. Qed.

(** C1, as stated, fails: with a raw outlier measure of -0.40008 the clamped
    value is 0.70004, the returned Anomaly_Score is 0.7. *)
Lemma anomaly_score_not_the_clamped_value :
  exists f a,
    DataProcessor.get_taxpayer_features store now "T1" = Some f /\
    AnomalyDetector.detect_anomaly (detector (-0.40008)) now "T1" = Ret (Some a) /\
    let raw :=
      neg (AnomalyDetector.score_samples (constant_forest (-0.40008))
             (AnomalyDetector.transform identity_scaler
                (AnomalyDetector.zero_inf
                   [DataProcessor.Input_Tax_Ratio f;
                    DataProcessor.Revenue_Growth f;
                    of_int (DataProcessor.Days_Since_Registration f)]))) in
    let clamped := Py.max (Fin 0) (Py.min (Fin 1) (div (add raw (Fin 1)) (Fin 2))) in
    eqb clamped (Fin 0.70004) = true /\
    eqb (AnomalyDetector.Anomaly_Score a) (Fin 0.7) = true /\
    eqb (AnomalyDetector.Anomaly_Score a) clamped = false.
Proof. eexists. eexists. repeat split; reflexivity. Qed.

(** A return with an infinite Input_Tax_Claim gives an infinite ratio. *)
Example example_infinite_ratio :
  option_map DataProcessor.Input_Tax_Ratio
    (DataProcessor.get_taxpayer_features store now "T5") = Some PInf.
Proof. reflexivity. Qed.

Lemma anomaly_score_rounded_and_bounded_witness :
  exists a s,
    AnomalyDetector.detect_anomaly (detector (-0.40008)) now "T5" = Ret (Some a) /\
    in_unit (AnomalyDetector.Anomaly_Score a) /\
    RiskScorer.score_taxpayer (scorer (-0.40008) 0.69996) now "T5" = Ret (Some s) /\
    in_unit (RiskScorer.Risk_Score s).
Proof.
  destruct (@anomaly_score_rounded_and_bounded store now "T5" _
              identity_scaler (constant_forest (-0.40008))
              (Some AnomalyDetector.feature_cols)
              identity_scaler (constant_classifier 0.69996)
              (Some RiskScorer.feature_cols) eq_refl)
    as (a & s & Ha & _ & _ & _ & Hu & Hs & Hr).
  - intro X. split; reflexivity.
  - exists a, s. split; [exact Ha|]. split; [exact Hu|]. split; [exact Hs | exact Hr].
Defined.

Lemma risk_level_step_function_witness :
  RiskScorer._get_risk_level (Fin 0.6) = "HIGH"%string /\
  RiskScorer._get_risk_level (Fin 0.9) = "CRITICAL"%string /\
  RiskScorer._get_risk_level (Fin 0.4) = "MEDIUM"%string /\
  RiskScorer._get_risk_level (Fin 0.1) = "LOW"%string.
Proof.
  split; [|split; [|split]].
  - apply (proj1 (proj2 (risk_level_step_function (Fin 0.6)))); reflexivity.
  - apply (proj1 (risk_level_step_function (Fin 0.9))); reflexivity.
  - apply (proj1 (proj2 (proj2 (risk_level_step_function (Fin 0.4))))); reflexivity.
  - apply (proj1 (proj2 (proj2 (proj2 (risk_level_step_function (Fin 0.1)))))); reflexivity.
Defined.

(** C3, as stated, fails: two calls with the same id, one day apart. *)
Lemma features_differ_a_day_apart :
  DataProcessor.get_taxpayer_features store now "T1" <>
  DataProcessor.get_taxpayer_features store next_day "T1".
Proof. intro H. vm_compute in H. discriminate H. Qed.

Lemma example_same_day (t1 t2 : Z) :
  (now <= t1 < next_day)%Z -> (now <= t2 < next_day)%Z ->
  Props.same_day_count store "T1" t1 t2.
Proof.
  intros H1 H2 tp Hin Hid. simpl in Hin.
  destruct Hin as [<-|[<-|[<-|[<-|[<-|[]]]]]]; try discriminate Hid.
  cbn [DataProcessor.tp_Registration_Date]. rewrite !Z.sub_0_r.
  unfold DataProcessor.days, DataProcessor.usec_per_day.
  unfold next_day, now, day, DataProcessor.usec_per_day in H1, H2.
  assert (Hday : forall t,
             (100 * 86400000000 <= t < 100 * 86400000000 + 86400000000)%Z ->
             (t / 86400000000)%Z = 100%Z).
  { intros t Ht. symmetry.
    apply (Z.div_unique t 86400000000 100 (t - 100 * 86400000000)); lia. }
  now rewrite (Hday t1 H1), (Hday t2 H2).
Qed.

Lemma results_equal_on_equal_day_counts_witness :
  DataProcessor.get_taxpayer_features store now "T1" =
  DataProcessor.get_taxpayer_features store an_hour_later "T1" /\
  RiskScorer.score_taxpayer_at (scorer (-0.40008) 0.69996) now Demo.a_minute_later "T1" =
  RiskScorer.score_taxpayer_at (scorer (-0.40008) 0.69996)
    an_hour_later Demo.an_hour_and_a_minute_later "T1" /\
  RiskScorer.get_risk_explanation_at (scorer (-0.40008) 0.69996)
    now Demo.a_minute_later an_hour_later next_day "T1" =
  RiskScorer.get_risk_explanation_at (scorer (-0.40008) 0.69996)
    an_hour_later Demo.an_hour_and_a_minute_later next_day Demo.end_of_day "T1".
Proof.
  assert (Hnow : (now <= now < next_day)%Z) by (vm_compute; split; [discriminate | reflexivity]).
  assert (Hhour : (now <= an_hour_later < next_day)%Z)
    by (vm_compute; split; [discriminate | reflexivity]).
  assert (Hmin : (now <= Demo.a_minute_later < next_day)%Z)
    by (vm_compute; split; [discriminate | reflexivity]).
  assert (Hhm : (now <= Demo.an_hour_and_a_minute_later < next_day)%Z)
    by (vm_compute; split; [discriminate | reflexivity]).
  destruct (proj2 (proj2 (results_equal_on_equal_day_counts store now an_hour_later "T1"))
              (example_same_day Hnow Hhour)) as (Hf & _ & Hrs).
  split; [exact Hf|].
  destruct (Hrs (scorer (-0.40008) 0.69996) Demo.a_minute_later
              Demo.an_hour_and_a_minute_later eq_refl eq_refl
              (example_same_day Hmin Hhm)) as [Hs He].
  split; [exact Hs|].
  exact (He an_hour_later next_day next_day Demo.end_of_day).
Defined.

(** Both readings of one call of [score_taxpayer] bear on its result: with
    models that look at Days_Since_Registration, a call during which the day
    changes returns a row that neither day's call returns. *)
Example readings_of_one_call_matter :
  RiskScorer.score_taxpayer_at Demo.days_scorer Demo.end_of_day next_day "T1" <>
  RiskScorer.score_taxpayer Demo.days_scorer Demo.end_of_day "T1" /\
  RiskScorer.score_taxpayer_at Demo.days_scorer Demo.end_of_day next_day "T1" <>
  RiskScorer.score_taxpayer Demo.days_scorer next_day "T1".
Proof. split; intro H; vm_compute in H; discriminate H. Qed.

Lemma no_features_no_rows_witness :
  DataProcessor.get_taxpayer_features store now "T3" = None /\
  DataProcessor.get_taxpayer_features store now "T9" = None /\
  (forall rows,
      AnomalyDetector.detect_all_anomalies (detector (-0.40008)) now = Ret rows ->
      ~ In "T3"%string (map AnomalyDetector.Taxpayer_ID rows)).
Proof.
  split; [|split].
  - apply (proj1 (@no_features_no_rows store now "T3" (or_intror eq_refl))).
  - apply (@no_features_no_rows store now "T9").
    left. unfold Spec.unknown. simpl. intros [H|[H|[H|[H|[H|[]]]]]]; discriminate H.
  - intros rows.
    apply (proj1 (proj2 (@no_features_no_rows store now "T3" (or_intror eq_refl)))).
    reflexivity.
Defined.

Lemma training_label_is_or_of_findings_witness :
  exists rows,
    RiskScorer.training_data (scorer (-0.40008) 0.69996) now = Ret rows /\
    Forall (fun row =>
              RiskScorer.tr_Is_Non_Compliant row =
              (if Spec.any_non_compliant store
                    (DataProcessor.Taxpayer_ID (RiskScorer.tr_features row))
               then 1 else 0)%Z) rows.
Proof.
  destruct (training_label_is_or_of_findings (scorer (-0.40008) 0.69996) now)
    as [Hret Hrows].
  destruct (Hret (constant_forest (-0.40008)) identity_scaler
              (Some AnomalyDetector.feature_cols) eq_refl) as (rows & Hr).
  - discriminate.
  - exists rows. split; [exact Hr|]. apply (proj2 (Hrows rows Hr)).
Defined.

Lemma explanation_rules_witness :
  AnomalyDetector.ratio_deviation (Props.vector (Fin 0.3) (Fin (-0.4))) (Fin 0) = Fin 0 /\
  AnomalyDetector._generate_explanation (Props.vector (Fin 0.3) (Fin (-0.4))) (Fin 0.1) =
  "Input tax claim is 200.0% higher than industry benchmark | Revenue declined by 40.0%"%string.
Proof.
  split.
  - apply (proj1 (explanation_rules (Props.vector (Fin 0.3) (Fin (-0.4))) (Fin 0))).
    reflexivity.
  - rewrite (proj1 (proj2 (proj2
               (explanation_rules (Props.vector (Fin 0.3) (Fin (-0.4))) (Fin 0.1))))).
    reflexivity.
Defined.

Lemma degenerate_divisions_yield_zero_witness :
  exists f,
    DataProcessor.get_taxpayer_features store now "T2" = Some f /\
    DataProcessor.Input_Tax_Ratio f = Fin 0 /\
    DataProcessor.Revenue_Growth f = Fin 0.
Proof.
  eexists. split; [reflexivity|].
  destruct (@degenerate_divisions_yield_zero store now "T2" _ eq_refl)
    as (Hratio & Hfew & _).
  split.
  - eapply Hratio; reflexivity.
  - apply Hfew. simpl. lia.
Defined.



(** The benchmarks of the example industries: 27/250 = 0.108 and 0.1. *)
Example example_benchmarks :
  eqb (DataProcessor.get_industry_benchmark store "IND1") (Fin 0.108) = true /\
  DataProcessor.get_industry_benchmark store "IND9" = Fin 0.1.
Proof. split; reflexivity. Qed.

(** C9, as stated, fails: on a scorer that was never trained
    [get_feature_importance] returns null, and on a detector that was never
    trained [get_anomaly_explanation] returns its explanation. *)
Lemma untrained_use_without_error :
  RiskScorer.get_feature_importance
    (RiskScorer.init store (AnomalyDetector.init store)) = Ret None /\
  ~ raises (RiskScorer.get_feature_importance
              (RiskScorer.init store (AnomalyDetector.init store))) /\
  option_map AnomalyDetector.ex_Explanation
    (AnomalyDetector.get_anomaly_explanation (AnomalyDetector.init store)
       now "T4") =
  Some "Input tax claim is 52.4% lower than industry benchmark"%string.
Proof.
  split; [reflexivity|]. split; [|reflexivity].
  intros [e H]. discriminate H.
Qed.

Lemma untrained_model_use_witness :
  raises (AnomalyDetector.detect_anomaly (AnomalyDetector.init store) now "T1") /\
  raises (RiskScorer.score_taxpayer
            (RiskScorer.init store (detector (-0.40008))) now "T1") /\
  AnomalyDetector.detect_anomaly (AnomalyDetector.init store) now "T3" = Ret None.
Proof.
  destruct (untrained_model_use store (detector (-0.40008)) now "T1")
    as (Hsome & _).
  destruct (untrained_model_use store (detector (-0.40008)) now "T3")
    as (_ & Hnone & _).
  destruct Hsome as (H1 & H2 & _); [discriminate|].
  split; [exact H1|]. split; [exact H2|].
  apply (proj1 (Hnone eq_refl)).
Defined.

Lemma risk_level_uses_unrounded_probability_witness :
  exists s,
    RiskScorer.score_taxpayer (scorer (-0.40008) 0.69996) now "T1" = Ret (Some s) /\
    eqb (RiskScorer.Risk_Score s) (Fin 0.7) = true /\
    RiskScorer.Risk_Level s = "HIGH"%string /\
    RiskScorer._get_risk_level (RiskScorer.Risk_Score s) = "CRITICAL"%string.
Proof.
  destruct (proj1 risk_level_uses_unrounded_probability
              store now "T1"%string _ (detector (-0.40008)) _
              identity_scaler (constant_classifier 0.69996)
              (Some RiskScorer.feature_cols) eq_refl eq_refl)
    as (s & Hs & _ & _ & H).
  exists s. split; [exact Hs|]. apply H. reflexivity.
Defined.

(* ------------------------------------------------------------------ *)
(** ** Further properties: feature extraction *)

(** A listed taxpayer has a feature vector exactly when it has a return. *)
Lemma listed_features (dp : DataProcessor.t) (now : Z) (tp : DataProcessor.Taxpayer) :
  In tp (DataProcessor.master_data dp) ->
  match DataProcessor.get_taxpayer_features dp now (DataProcessor.tp_Taxpayer_ID tp) with
  | Some f =>
      Props.has_returns dp (DataProcessor.tp_Taxpayer_ID tp) = true /\
      DataProcessor.Taxpayer_ID f = DataProcessor.tp_Taxpayer_ID tp /\
      DataProcessor.Num_Returns f =
        List.length (Spec.returns_of dp (DataProcessor.tp_Taxpayer_ID tp)) /\
      (1 <= DataProcessor.Num_Returns f)%nat
  | None => Props.has_returns dp (DataProcessor.tp_Taxpayer_ID tp) = false
  end.
Proof.
  intro Hin.
  destruct (DataProcessor.get_taxpayer_features dp now (DataProcessor.tp_Taxpayer_ID tp))
    as [f|] eqn:Ef.
  - apply features_some_inv in Ef.
    destruct Ef as (tp0 & tps & r0 & rs & _ & Hr & Hid & _ & _ & Hn & _).
    unfold Props.has_returns. rewrite Hr. cbv zeta in Hn.
    repeat split; try assumption. rewrite Hn. simpl. lia.
  - apply features_none_iff in Ef. destruct Ef as [Hm|Hr].
    + exfalso. unfold Spec.taxpayer_rows in Hm.
      assert (Hf : In tp (filter (fun r => String.eqb (DataProcessor.tp_Taxpayer_ID r)
                                             (DataProcessor.tp_Taxpayer_ID tp))
                            (DataProcessor.master_data dp)))
        by (apply filter_In; split; [exact Hin | apply String.eqb_refl]).
      rewrite Hm in Hf. destruct Hf.
    + unfold Props.has_returns. now rewrite Hr.
Qed.

Lemma all_features_of_sublist (dp : DataProcessor.t) (now : Z)
  (listed : list DataProcessor.Taxpayer) :
  (forall tp, In tp listed -> In tp (DataProcessor.master_data dp)) ->
  let rows :=
    flat_map (fun tp =>
                match DataProcessor.get_taxpayer_features dp now
                        (DataProcessor.tp_Taxpayer_ID tp) with
                | Some features => [features]
                | None => []
                end) listed in
  map DataProcessor.Taxpayer_ID rows =
    filter (Props.has_returns dp) (map DataProcessor.tp_Taxpayer_ID listed) /\
  Forall (fun f =>
            DataProcessor.Num_Returns f =
              List.length (Spec.returns_of dp (DataProcessor.Taxpayer_ID f)) /\
            (1 <= DataProcessor.Num_Returns f)%nat) rows.
Proof.
  induction listed as [|tp rest IH]; intro Hsub; cbn zeta.
  - split; [reflexivity | constructor].
  - destruct IH as [IHids IHall]; [intros; apply Hsub; now right|].
    pose proof (@listed_features dp now tp (Hsub tp (or_introl eq_refl))) as Htp.
    cbn [flat_map map filter].
    destruct (DataProcessor.get_taxpayer_features dp now (DataProcessor.tp_Taxpayer_ID tp))
      as [f|].
    + destruct Htp as (Hhas & Hid & Hn & Hpos). rewrite Hhas.
      cbn [app map]. split.
      * rewrite Hid. f_equal. exact IHids.
      * constructor; [|exact IHall]. rewrite Hid. now split.
    + rewrite Htp. cbn [app]. now split.
Qed.

(** X1. [get_all_taxpayer_features] has one row per master row whose
    taxpayer has a return, in master order, and each row counts at least one
    return. *)
Theorem all_features_rows_in_master_order (dp : DataProcessor.t) (now : Z) :
  map DataProcessor.Taxpayer_ID (DataProcessor.get_all_taxpayer_features dp now) =
    filter (Props.has_returns dp)
      (map DataProcessor.tp_Taxpayer_ID (DataProcessor.master_data dp)) /\
  Forall (fun f =>
            DataProcessor.Num_Returns f =
              List.length (Spec.returns_of dp (DataProcessor.Taxpayer_ID f)) /\
            (1 <= DataProcessor.Num_Returns f)%nat)
    (DataProcessor.get_all_taxpayer_features dp now).
Proof.
  apply (@all_features_of_sublist dp now (DataProcessor.master_data dp)).
  auto.
Qed.

Lemma nth_error_firstn_lt {A : Type} (n k : nat) (l : list A) :
  (k < n)%nat -> nth_error (firstn n l) k = nth_error l k.
Proof.
  revert k l. induction n as [|n IH]; intros k l Hk; [lia|].
  destruct l as [|x l]; [reflexivity|].
  destruct k as [|k]; [reflexivity|].
  simpl. apply IH. lia.
Qed.

(** The feature vector written out on the two most recent returns. *)
Lemma features_on_recent (dp : DataProcessor.t) (now : Z) (id : string) :
  DataProcessor.get_taxpayer_features dp now id =
  match Spec.taxpayer_rows dp id, nth_error (rev (Spec.returns_of dp id)) 0 with
  | tp0 :: _, Some latest =>
      Some {| DataProcessor.Taxpayer_ID := id;
              DataProcessor.Business_Name := DataProcessor.tp_Business_Name tp0;
              DataProcessor.Industry_Code := DataProcessor.tp_Industry_Code tp0;
              DataProcessor.Industry_Name := DataProcessor.tp_Industry_Name tp0;
              DataProcessor.Gross_Revenue := DataProcessor.rt_Gross_Revenue latest;
              DataProcessor.Tax_Liability := DataProcessor.rt_Tax_Liability latest;
              DataProcessor.Input_Tax_Claim := DataProcessor.rt_Input_Tax_Claim latest;
              DataProcessor.Input_Tax_Ratio :=
                if gtb (DataProcessor.rt_Gross_Revenue latest) (Fin 0)
                then div (DataProcessor.rt_Input_Tax_Claim latest)
                         (DataProcessor.rt_Gross_Revenue latest)
                else Fin 0;
              DataProcessor.Revenue_Growth :=
                match nth_error (rev (Spec.returns_of dp id)) 1 with
                | Some previous =>
                    if gtb (DataProcessor.rt_Gross_Revenue previous) (Fin 0)
                    then div (sub (DataProcessor.rt_Gross_Revenue latest)
                                  (DataProcessor.rt_Gross_Revenue previous))
                             (DataProcessor.rt_Gross_Revenue previous)
                    else Fin 0
                | None => Fin 0
                end;
              DataProcessor.Num_Returns := List.length (Spec.returns_of dp id);
              DataProcessor.Days_Since_Registration :=
                DataProcessor.days (now - DataProcessor.tp_Registration_Date tp0) |}
  | _, _ => None
  end.
Proof.
  unfold DataProcessor.get_taxpayer_features.
  change (filter (fun r => String.eqb (DataProcessor.tp_Taxpayer_ID r) id)
            (DataProcessor.master_data dp)) with (Spec.taxpayer_rows dp id).
  change (filter (fun r => String.eqb (DataProcessor.rt_Taxpayer_ID r) id)
            (DataProcessor.returns_data dp)) with (Spec.returns_of dp id).
  destruct (Spec.taxpayer_rows dp id) as [|tp0 tps]; [reflexivity|].
  destruct (Spec.returns_of dp id) as [|r0 rs] eqn:Er; [reflexivity|].
  destruct (nth_error (rev (r0 :: rs)) 0) as [latest|] eqn:E0.
  2:{ exfalso. apply nth_error_None in E0. rewrite length_rev in E0. simpl in E0. lia. }
  cbv zeta. rewrite (iloc_back_recent _ _ r0 E0).
  destruct (nth_error (rev (r0 :: rs)) 1) as [previous|] eqn:E1.
  - assert (Hlen : (1 < List.length (r0 :: rs))%nat).
    { rewrite <- length_rev. apply nth_error_Some. congruence. }
    apply Nat.ltb_lt in Hlen. rewrite Hlen.
    rewrite (iloc_back_recent _ _ r0 E1). reflexivity.
  - assert (Hlen : (List.length (r0 :: rs) <= 1)%nat).
    { rewrite <- length_rev. now apply nth_error_None. }
    destruct (Nat.ltb_spec 1 (List.length (r0 :: rs))); [lia | reflexivity].
Qed.

(** X2. Only the two most recent returns of a taxpayer reach its feature
    vector: stores with the same master whose returns for the id end in the
    same two rows give vectors that differ at most in Num_Returns. *)
Theorem features_see_only_last_two_returns
  (dp1 dp2 : DataProcessor.t) (now : Z) (id : string) :
  DataProcessor.master_data dp1 = DataProcessor.master_data dp2 ->
  Props.last_two dp1 id = Props.last_two dp2 id ->
  option_map Props.forget_count (DataProcessor.get_taxpayer_features dp1 now id) =
  option_map Props.forget_count (DataProcessor.get_taxpayer_features dp2 now id).
Proof.
  intros Hmaster Hlast. unfold Props.last_two in Hlast.
  assert (H0 : nth_error (rev (Spec.returns_of dp1 id)) 0 =
               nth_error (rev (Spec.returns_of dp2 id)) 0).
  { rewrite <- (@nth_error_firstn_lt _ 2 0 (rev (Spec.returns_of dp1 id))) by lia.
    rewrite <- (@nth_error_firstn_lt _ 2 0 (rev (Spec.returns_of dp2 id))) by lia.
    now rewrite Hlast. }
  assert (H1 : nth_error (rev (Spec.returns_of dp1 id)) 1 =
               nth_error (rev (Spec.returns_of dp2 id)) 1).
  { rewrite <- (@nth_error_firstn_lt _ 2 1 (rev (Spec.returns_of dp1 id))) by lia.
    rewrite <- (@nth_error_firstn_lt _ 2 1 (rev (Spec.returns_of dp2 id))) by lia.
    now rewrite Hlast. }
  rewrite !features_on_recent.
  unfold Spec.taxpayer_rows. rewrite Hmaster, H0, H1.
  destruct (filter _ (DataProcessor.master_data dp2)) as [|tp0 tps]; [reflexivity|].
  destruct (nth_error (rev (Spec.returns_of dp2 id)) 0); reflexivity.
Qed.

(** X3. Days_Since_Registration is the number of whole days from the
    registration date of the taxpayer's first master row to the clock
    reading, rounded down: it is negative exactly for a registration date in
    the future. *)
Theorem days_since_registration_floor
  (dp : DataProcessor.t) (now : Z) (id : string) (f : DataProcessor.Features) :
  DataProcessor.get_taxpayer_features dp now id = Some f ->
  exists tp0,
    hd_error (Spec.taxpayer_rows dp id) = Some tp0 /\
    let elapsed := (now - DataProcessor.tp_Registration_Date tp0)%Z in
    let d := DataProcessor.Days_Since_Registration f in
    (DataProcessor.usec_per_day * d <= elapsed
       < DataProcessor.usec_per_day * (d + 1))%Z /\
    ((d < 0)%Z <-> (now < DataProcessor.tp_Registration_Date tp0)%Z).
Proof.
  intro H. apply features_some_inv in H.
  destruct H as (tp0 & tps & r0 & rs & Hm & _ & _ & _ & _ & _ & Hd).
  exists tp0. rewrite Hm. split; [reflexivity|].
  cbv zeta in *. rewrite Hd. unfold DataProcessor.days, DataProcessor.usec_per_day.
  set (e := (now - DataProcessor.tp_Registration_Date tp0)%Z).
  pose proof (Z.div_mod e 86400000000 ltac:(lia)) as Hdm.
  pose proof (Z.mod_pos_bound e 86400000000 ltac:(lia)) as Hb.
  split; [lia|]. subst e. split; intro Hlt; lia.
Qed.

(* ------------------------------------------------------------------ *)
(** ** Further properties: rounding and ordering of scores *)

(** The rounded integer is within one half of the value; at exactly one
    half it is even. *)
Lemma round_half_even_near (n : Z) (d : positive) :
  let z := round_half_even (n # d) in
  (- Zpos d <= 2 * n - 2 * z * Zpos d <= Zpos d)%Z /\
  ((2 * n - 2 * z * Zpos d = Zpos d \/ 2 * n - 2 * z * Zpos d = - Zpos d)%Z ->
   Z.even z = true).
Proof.
  unfold round_half_even; cbn [Qnum Qden].
  pose proof (Z.div_mod n (Zpos d) ltac:(lia)) as Hdm.
  pose proof (Z.mod_pos_bound n (Zpos d) ltac:(lia)) as Hb.
  set (fl := (n / Zpos d)%Z) in *. set (r := (n mod Zpos d)%Z) in *.
  assert (Hn : (2 * n - 2 * fl * Zpos d = 2 * r)%Z) by nia.
  assert (Hn1 : (2 * n - 2 * (fl + 1) * Zpos d = 2 * r - 2 * Zpos d)%Z) by nia.
  destruct (Z.ltb_spec (2 * r) (Zpos d)).
  - rewrite Hn. split; [lia | intros [H'|H']; lia].
  - destruct (Z.ltb_spec (Zpos d) (2 * r)).
    + rewrite Hn1. split; [lia | intros [H'|H']; lia].
    + destruct (Z.even fl) eqn:Ev.
      * rewrite Hn. split; [lia | intros _; exact Ev].
      * rewrite Hn1. split; [lia|]. intros _.
        rewrite Z.add_1_r, Z.even_succ, <- Z.negb_even, Ev. reflexivity.
Qed.

Lemma round_half_even_mono (q1 q2 : Q) :
  (q1 <= q2)%Q -> (round_half_even q1 <= round_half_even q2)%Z.
Proof.
  destruct q1 as [n1 d1], q2 as [n2 d2]. unfold Qle; cbn [Qnum Qden]. intro Hle.
  destruct (round_half_even_near n1 d1) as [[Hlo1 _] Hev1].
  destruct (round_half_even_near n2 d2) as [[_ Hhi2] Hev2].
  cbv zeta in *.
  set (z1 := round_half_even (n1 # d1)) in *.
  set (z2 := round_half_even (n2 # d2)) in *.
  destruct (Z.le_gt_cases z1 z2) as [Hok|Hgt]; [exact Hok|]. exfalso.
  assert (Ha : ((2 * z1 - 1) * Zpos d1 <= 2 * n1)%Z) by lia.
  assert (Hb : (2 * n2 <= (2 * z2 + 1) * Zpos d2)%Z) by lia.
  assert (Hc : ((2 * z1 - 1) * Zpos d1 * Zpos d2 <= 2 * n1 * Zpos d2)%Z)
    by (apply Z.mul_le_mono_nonneg_r; lia).
  assert (Hd : (2 * n2 * Zpos d1 <= (2 * z2 + 1) * Zpos d2 * Zpos d1)%Z)
    by (apply Z.mul_le_mono_nonneg_r; lia).
  assert (Hdd : (0 < Zpos d1 * Zpos d2)%Z) by lia.
  assert (He : ((2 * z2 + 1) * (Zpos d1 * Zpos d2) <= (2 * z1 - 1) * (Zpos d1 * Zpos d2))%Z)
    by (apply Z.mul_le_mono_nonneg_r; lia).
  assert (Hz : (2 * z1 - 1 <= 2 * z2 + 1)%Z).
  { apply (Z.mul_le_mono_pos_r _ _ (Zpos d1 * Zpos d2)); [exact Hdd | nia]. }
  assert (Hz1 : z1 = (z2 + 1)%Z) by lia.
  assert (Ht1 : (2 * n1 - 2 * z1 * Zpos d1 = - Zpos d1)%Z) by nia.
  assert (Ht2 : (2 * n2 - 2 * z2 * Zpos d2 = Zpos d2)%Z) by nia.
  specialize (Hev1 (or_intror Ht1)). specialize (Hev2 (or_introl Ht2)).
  rewrite Hz1, Z.add_1_r, Z.even_succ, <- Z.negb_even, Hev2 in Hev1. discriminate.
Qed.

Lemma pow10_pos (ndigits : nat) : (0 < 10 ^ Z.of_nat ndigits)%Z.
Proof. apply Z.pow_pos_nonneg; lia. Qed.

(** Rounding keeps the order of two values. *)
Lemma round_mono (x y : num) (ndigits : nat) :
  leb x y = true -> leb (round x ndigits) (round y ndigits) = true.
Proof.
  pose proof (pow10_pos ndigits) as Hp.
  destruct x as [a| | |], y as [b| | |]; simpl; try congruence.
  rewrite !Qle_bool_iff. intro Hab.
  assert (Hm : (round_half_even (a * inject_Z (10 ^ Z.of_nat ndigits)) <=
                round_half_even (b * inject_Z (10 ^ Z.of_nat ndigits)))%Z).
  { apply round_half_even_mono. apply Qmult_le_compat_r; [exact Hab|].
    unfold Qle; simpl. lia. }
  unfold Qle; cbn [Qnum Qden]. nia.
Qed.

(** Rounding a rounded value changes nothing. *)
Lemma round_idempotent (x : num) (ndigits : nat) :
  round (round x ndigits) ndigits = round x ndigits.
Proof.
  destruct x as [q| | |]; try reflexivity.
  pose proof (pow10_pos ndigits) as Hp.
  unfold round. f_equal. f_equal.
  set (P := (10 ^ Z.of_nat ndigits)%Z) in *.
  set (z := round_half_even (q * inject_Z P)).
  unfold round_half_even, Qmult, inject_Z; cbn [Qnum Qden].
  rewrite Pos.mul_1_r, Z2Pos.id by exact Hp.
  rewrite Z.div_mul, Z.mod_mul by lia.
  destruct (Z.ltb_spec (2 * 0) P); [reflexivity | lia].
Qed.

Lemma neg_antitone (x y : num) : leb x y = true -> leb (neg y) (neg x) = true.
Proof.
  destruct x, y; simpl; try congruence.
  rewrite !Qle_bool_iff. apply Qopp_le_compat.
Qed.

Lemma normalize_finite (a : Q) :
  AnomalyDetector.normalize (Fin a) =
  Fin (if Qltb ((a + 1) / 2) 1 then (if Qltb 0 ((a + 1) / 2) then (a + 1) / 2 else 0) else 1).
Proof. unfold AnomalyDetector.normalize. simpl div. apply clamp_finite. Qed.

(** The affine map followed by the clamp keeps the order of two values. *)
Lemma normalize_mono (x y : num) :
  leb x y = true ->
  leb (AnomalyDetector.normalize x) (AnomalyDetector.normalize y) = true.
Proof.
  destruct x as [a| | |], y as [b| | |]; simpl leb at 1; try congruence; intro Hab.
  - rewrite !normalize_finite. cbn [leb]. apply Qle_bool_iff. apply Qle_bool_iff in Hab.
    assert (Hh : ((a + 1) / 2 <= (b + 1) / 2)%Q).
    { unfold Qdiv. apply Qmult_le_compat_r; [lra | discriminate]. }
    set (u := ((a + 1) / 2)%Q) in *. set (v := ((b + 1) / 2)%Q) in *.
    destruct (Qltb u 1) eqn:Eu1; destruct (Qltb 0 u) eqn:Eu0;
      destruct (Qltb v 1) eqn:Ev1; destruct (Qltb 0 v) eqn:Ev0;
      repeat match goal with
             | H : Qltb _ _ = true |- _ => apply Qltb_lt in H
             | H : Qltb _ _ = false |- _ => apply Qltb_nlt in H
             end;
      lra.
  - change (AnomalyDetector.normalize PInf) with (Fin 1).
    apply (proj2 (clamp_in_unit _)).
  - reflexivity.
  - change (AnomalyDetector.normalize NInf) with (Fin 0).
    apply (proj1 (clamp_in_unit _)).
  - reflexivity.
  - reflexivity.
Qed.

(** What a row returned by [detect_anomaly] holds. *)
Lemma detect_anomaly_some_inv (det : AnomalyDetector.t) (now : Z) (id : string)
  (a : AnomalyDetector.Anomaly) :
  AnomalyDetector.detect_anomaly det now id = Ret (Some a) ->
  exists f sc fo,
    DataProcessor.get_taxpayer_features (AnomalyDetector.data_processor det) now id = Some f /\
    AnomalyDetector.scaler det = Some sc /\
    AnomalyDetector.model det = Some fo /\
    AnomalyDetector.Taxpayer_ID a = id /\
    AnomalyDetector.Anomaly_Score a =
      round (AnomalyDetector.normalize (neg (Props.raw_measure sc fo f))) 4 /\
    AnomalyDetector.Is_Anomalous a =
      gtb (AnomalyDetector.normalize (neg (Props.raw_measure sc fo f))) (Fin 0.5).
Proof.
  unfold AnomalyDetector.detect_anomaly.
  destruct (DataProcessor.get_taxpayer_features _ now id) as [f|]; [|discriminate].
  destruct (AnomalyDetector.scaler det) as [sc|]; simpl; [|discriminate].
  destruct (AnomalyDetector.model det) as [fo|]; simpl; [|discriminate].
  intro H. injection H as <-. exists f, sc, fo. repeat split; reflexivity.
Qed.

(** The reported anomaly score of any returned row lies in [0,1]. *)
Lemma detect_anomaly_score_in_unit (det : AnomalyDetector.t) (now : Z) (id : string)
  (a : AnomalyDetector.Anomaly) :
  AnomalyDetector.detect_anomaly det now id = Ret (Some a) ->
  in_unit (AnomalyDetector.Anomaly_Score a).
Proof.
  intro H. apply detect_anomaly_some_inv in H.
  destruct H as (f & sc & fo & _ & _ & _ & _ & Hs & _).
  rewrite Hs. apply round4_in_unit. apply clamp_in_unit.
Qed.

(** X4. The negation makes a lower raw outlier measure the more anomalous
    one: of two rows returned by the same detector, the one whose taxpayer
    has the lower raw measure carries an Anomaly_Score at least as high, and
    is flagged whenever the other one is. *)
Theorem anomaly_score_monotone
  (det : AnomalyDetector.t) (now : Z)
  (sc : AnomalyDetector.StandardScaler) (fo : AnomalyDetector.IsolationForest)
  (id1 id2 : string) (f1 f2 : DataProcessor.Features)
  (a1 a2 : AnomalyDetector.Anomaly) :
  AnomalyDetector.scaler det = Some sc ->
  AnomalyDetector.model det = Some fo ->
  DataProcessor.get_taxpayer_features (AnomalyDetector.data_processor det) now id1 = Some f1 ->
  DataProcessor.get_taxpayer_features (AnomalyDetector.data_processor det) now id2 = Some f2 ->
  AnomalyDetector.detect_anomaly det now id1 = Ret (Some a1) ->
  AnomalyDetector.detect_anomaly det now id2 = Ret (Some a2) ->
  leb (Props.raw_measure sc fo f1) (Props.raw_measure sc fo f2) = true ->
  leb (AnomalyDetector.Anomaly_Score a2) (AnomalyDetector.Anomaly_Score a1) = true /\
  (AnomalyDetector.Is_Anomalous a2 = true -> AnomalyDetector.Is_Anomalous a1 = true).
Proof.
  intros Hsc Hfo H1 H2 Ha1 Ha2 Hraw.
  apply detect_anomaly_some_inv in Ha1.
  destruct Ha1 as (f1' & sc1 & fo1 & Hf1 & Hsc1 & Hfo1 & _ & Hs1 & Hflag1).
  apply detect_anomaly_some_inv in Ha2.
  destruct Ha2 as (f2' & sc2 & fo2 & Hf2 & Hsc2 & Hfo2 & _ & Hs2 & Hflag2).
  assert (f1' = f1) by congruence. assert (f2' = f2) by congruence.
  assert (sc1 = sc) by congruence. assert (sc2 = sc) by congruence.
  assert (fo1 = fo) by congruence. assert (fo2 = fo) by congruence.
  subst f1' f2' sc1 sc2 fo1 fo2.
  assert (Hn : leb (AnomalyDetector.normalize (neg (Props.raw_measure sc fo f2)))
                   (AnomalyDetector.normalize (neg (Props.raw_measure sc fo f1))) = true).
  { apply normalize_mono, neg_antitone. exact Hraw. }
  rewrite Hs1, Hs2, Hflag1, Hflag2. split.
  - now apply round_mono.
  - unfold gtb. intro Hflag. exact (ltb_leb_trans _ _ _ Hflag Hn).
Qed.

(** What a row returned by [score_taxpayer] holds. *)
Lemma score_taxpayer_some_inv (rs : RiskScorer.t) (now : Z) (id : string)
  (s : RiskScorer.Score) :
  RiskScorer.score_taxpayer rs now id = Ret (Some s) ->
  exists f o sc m,
    DataProcessor.get_taxpayer_features (RiskScorer.data_processor rs) now id = Some f /\
    AnomalyDetector.detect_anomaly (RiskScorer.anomaly_detector rs) now id = Ret o /\
    RiskScorer.scaler rs = Some sc /\
    RiskScorer.model rs = Some m /\
    let anomaly_score :=
      match o with Some a => AnomalyDetector.Anomaly_Score a | None => Fin 0 end in
    let p :=
      RiskScorer.predict_proba1 m
        (AnomalyDetector.transform sc (Spec.risk_row f anomaly_score)) in
    s = {| RiskScorer.Taxpayer_ID := id;
           RiskScorer.Business_Name := DataProcessor.Business_Name f;
           RiskScorer.Industry_Name := DataProcessor.Industry_Name f;
           RiskScorer.Risk_Score := round p 4;
           RiskScorer.Risk_Level := RiskScorer._get_risk_level p;
           RiskScorer.Anomaly_Score := round anomaly_score 4 |}.
Proof.
  unfold RiskScorer.score_taxpayer, RiskScorer.score_taxpayer_at.
  destruct (DataProcessor.get_taxpayer_features _ now id) as [f|]; [|discriminate].
  destruct (AnomalyDetector.detect_anomaly _ now id) as [o|e]; simpl; [|discriminate].
  destruct (RiskScorer.scaler rs) as [sc|]; simpl; [|discriminate].
  destruct (RiskScorer.model rs) as [m|]; simpl; [|discriminate].
  intro H. injection H as <-. exists f, o, sc, m. repeat split; reflexivity.
Qed.

(** The score row repeats the detector's reported score. *)
Lemma score_row_carries_anomaly
  (rs : RiskScorer.t) (now : Z) (id : string) (s : RiskScorer.Score) :
  RiskScorer.score_taxpayer rs now id = Ret (Some s) ->
  (forall a,
      AnomalyDetector.detect_anomaly (RiskScorer.anomaly_detector rs) now id = Ret (Some a) ->
      RiskScorer.Anomaly_Score s = AnomalyDetector.Anomaly_Score a) /\
  (AnomalyDetector.detect_anomaly (RiskScorer.anomaly_detector rs) now id = Ret None ->
   eqb (RiskScorer.Anomaly_Score s) (Fin 0) = true).
Proof.
  intro H. apply score_taxpayer_some_inv in H.
  destruct H as (f & o & sc & m & _ & Ho & _ & _ & Hs).
  cbv zeta in Hs. subst s. cbn [RiskScorer.Anomaly_Score]. split.
  - intros a Ha. rewrite Ha in Ho. injection Ho as <-.
    apply detect_anomaly_some_inv in Ha.
    destruct Ha as (f' & sc' & fo & _ & _ & _ & _ & Hscore & _).
    rewrite Hscore. apply round_idempotent.
  - intro Hnone. rewrite Hnone in Ho. injection Ho as <-. reflexivity.
Qed.

(** X8. The Anomaly_Score in a [score_taxpayer] row is the one
    [detect_anomaly] reports for the taxpayer: the second rounding changes
    nothing.  It is 0 when the detector has no row for the taxpayer. *)
Theorem score_row_carries_detector_score
  (rs : RiskScorer.t) (now : Z) (id : string) (s : RiskScorer.Score) :
  RiskScorer.score_taxpayer rs now id = Ret (Some s) ->
  (forall a,
      AnomalyDetector.detect_anomaly (RiskScorer.anomaly_detector rs) now id = Ret (Some a) ->
      RiskScorer.Anomaly_Score s = AnomalyDetector.Anomaly_Score a) /\
  (AnomalyDetector.detect_anomaly (RiskScorer.anomaly_detector rs) now id = Ret None ->
   eqb (RiskScorer.Anomaly_Score s) (Fin 0) = true).
Proof.
  intro H. destruct (score_row_carries_anomaly _ _ _ H) as [Hsome Hnone].
  split; [exact Hsome | exact Hnone].
Qed.

(* ------------------------------------------------------------------ *)
(** ** Further properties: the ranked frames *)

Lemma in_unit_not_nan (x : num) : in_unit x -> is_nan x = false.
Proof. destruct x; [reflexivity | reflexivity | reflexivity |]. intros [H _]. discriminate H. Qed.

Lemma ltb_false_leb (x y : num) :
  is_nan x = false -> is_nan y = false -> ltb x y = false -> leb y x = true.
Proof.
  destruct x, y; simpl; try congruence.
  intros _ _ H. apply Qle_bool_iff. now apply Qltb_nlt.
Qed.

Section SortedFrames.

Context {A : Type}.
Variable key : A -> num.

Lemma insert_desc_sorted (x : A) (rows : list A) :
  is_nan (key x) = false ->
  Forall (fun r => is_nan (key r) = false) rows ->
  StronglySorted (Props.not_below key) rows ->
  StronglySorted (Props.not_below key) (insert_desc key x rows).
Proof.
  intros Hx Hrows Hsorted.
  induction rows as [|y rest IH]; simpl.
  - constructor; constructor.
  - inversion Hrows as [|? ? Hy Hrest]; subst.
    apply StronglySorted_inv in Hsorted. destruct Hsorted as [Hs Hall].
    unfold sorts_before. rewrite Hx, Hy. cbn [andb negb orb].
    destruct (ltb (key x) (key y)) eqn:E.
    + constructor; [now apply IH|].
      apply (Permutation_Forall (Permutation_sym (insert_desc_perm key x rest))).
      constructor; [|exact Hall]. unfold Props.not_below. now apply ltb_leb.
    + constructor; [constructor; assumption|].
      assert (Hxy : leb (key y) (key x) = true) by now apply ltb_false_leb.
      constructor; [exact Hxy|].
      eapply Forall_impl; [|exact Hall].
      intros z Hz. unfold Props.not_below in *. now apply leb_trans with (key y).
Qed.

(** A frame whose keys are numbers comes out of [sort_values] with every
    row standing before the rows whose key is not larger. *)
Lemma sort_values_desc_sorted (rows : list A) :
  Forall (fun r => is_nan (key r) = false) rows ->
  StronglySorted (Props.not_below key) (sort_values_desc key rows).
Proof.
  induction 1 as [|x rest Hx Hrest IH]; simpl; [constructor|].
  apply insert_desc_sorted; [exact Hx | | exact IH].
  apply (Permutation_Forall (Permutation_sym (sort_values_desc_perm key rest))).
  exact Hrest.
Qed.

(** Inserting before a frame that is already in order, on a key that is
    not below its first, puts the row in front. *)
Lemma insert_desc_front (x : A) (rows : list A) :
  is_nan (key x) = false ->
  Forall (fun r => leb (key r) (key x) = true) rows ->
  insert_desc key x rows = x :: rows.
Proof.
  intros Hx Hall. destruct rows as [|y rest]; [reflexivity|].
  inversion Hall as [|? ? Hy _]; subst. simpl.
  unfold sorts_before. rewrite Hx. cbn [andb].
  now rewrite (leb_ltb_false _ _ Hy).
Qed.

(** Sorting a frame that is in order leaves it as it is. *)
Lemma sort_values_desc_fixed (rows : list A) :
  Forall (fun r => is_nan (key r) = false) rows ->
  StronglySorted (Props.not_below key) rows ->
  sort_values_desc key rows = rows.
Proof.
  intros Hnan Hsorted.
  induction rows as [|x rest IH]; [reflexivity|].
  inversion Hnan as [|? ? Hx Hrest]; subst.
  apply StronglySorted_inv in Hsorted. destruct Hsorted as [Hs Hall].
  simpl. rewrite IH by assumption.
  apply insert_desc_front; assumption.
Qed.

End SortedFrames.

Lemma detect_anomaly_none_inv (det : AnomalyDetector.t) (now : Z) (id : string) :
  AnomalyDetector.detect_anomaly det now id = Ret None ->
  DataProcessor.get_taxpayer_features (AnomalyDetector.data_processor det) now id = None.
Proof.
  unfold AnomalyDetector.detect_anomaly.
  destruct (DataProcessor.get_taxpayer_features _ now id) as [f|]; [|reflexivity].
  destruct (AnomalyDetector.scaler_transform _ _) as [Xs|e]; simpl; [|discriminate].
  destruct (AnomalyDetector.model_score_samples _ _) as [raw|e]; simpl; discriminate.
Qed.

Lemma score_taxpayer_none_inv (rs : RiskScorer.t) (now : Z) (id : string) :
  RiskScorer.score_taxpayer rs now id = Ret None ->
  DataProcessor.get_taxpayer_features (RiskScorer.data_processor rs) now id = None.
Proof.
  unfold RiskScorer.score_taxpayer, RiskScorer.score_taxpayer_at.
  destruct (DataProcessor.get_taxpayer_features _ now id) as [f|]; [|reflexivity].
  destruct (AnomalyDetector.detect_anomaly _ _ _) as [a|e]; simpl; [|discriminate].
  destruct (AnomalyDetector.scaler_transform _ _) as [Xs|e]; simpl; [|discriminate].
  destruct (RiskScorer.model_predict_proba _ _) as [p|e]; simpl; discriminate.
Qed.

Lemma features_id (dp : DataProcessor.t) (now : Z) (id : string)
  (f : DataProcessor.Features) :
  DataProcessor.get_taxpayer_features dp now id = Some f ->
  DataProcessor.Taxpayer_ID f = id.
Proof.
  intro H. apply features_some_inv in H.
  destruct H as (tp0 & tps & r0 & rs & _ & _ & Hid & _). exact Hid.
Qed.

(** The rows the loop of [detect_all_anomalies] collects stand for the
    feature vectors, one for one and in the same order. *)
Lemma collected_anomalies (det : AnomalyDetector.t) (now : Z)
  (listed : list DataProcessor.Taxpayer) :
  forall rows,
    for_append (AnomalyDetector.detect_anomaly det now)
      (map DataProcessor.tp_Taxpayer_ID listed) = Ret rows ->
    map AnomalyDetector.Taxpayer_ID rows =
      map DataProcessor.Taxpayer_ID
        (flat_map (fun tp =>
                     match DataProcessor.get_taxpayer_features
                             (AnomalyDetector.data_processor det) now
                             (DataProcessor.tp_Taxpayer_ID tp) with
                     | Some features => [features]
                     | None => []
                     end) listed) /\
    Forall (fun a => in_unit (AnomalyDetector.Anomaly_Score a)) rows.
Proof.
  induction listed as [|tp rest IH]; simpl; intros rows H.
  - injection H as <-. split; [reflexivity | constructor].
  - destruct (AnomalyDetector.detect_anomaly det now (DataProcessor.tp_Taxpayer_ID tp))
      as [o|e] eqn:Ed; simpl in H; [|discriminate].
    destruct (for_append _ (map DataProcessor.tp_Taxpayer_ID rest)) as [rows'|e] eqn:Er;
      simpl in H; [|discriminate].
    injection H as <-. destruct (IH _ eq_refl) as [IHids IHunit].
    destruct o as [a|].
    + pose proof (detect_anomaly_score_in_unit _ _ _ Ed) as Hu.
      apply detect_anomaly_some_inv in Ed.
      destruct Ed as (f & sc & fo & Hf & _ & _ & Hid & _).
      rewrite Hf. cbn [app map]. split.
      * rewrite Hid, (features_id _ _ _ Hf). f_equal. exact IHids.
      * constructor; assumption.
    + rewrite (detect_anomaly_none_inv _ _ _ Ed). cbn [app]. now split.
Qed.

(** X5. When [detect_all_anomalies] returns, its frame is not empty, holds
    one row per feature vector of the detector's data, and every row stands
    before all rows with a smaller or equal Anomaly_Score. *)
Theorem detect_all_anomalies_ranked
  (det : AnomalyDetector.t) (now : Z) (rows : list AnomalyDetector.Anomaly) :
  AnomalyDetector.detect_all_anomalies det now = Ret rows ->
  rows <> [] /\
  Permutation (map AnomalyDetector.Taxpayer_ID rows)
    (map DataProcessor.Taxpayer_ID
       (DataProcessor.get_all_taxpayer_features (AnomalyDetector.data_processor det) now)) /\
  StronglySorted (Props.not_below AnomalyDetector.Anomaly_Score) rows.
Proof.
  unfold AnomalyDetector.detect_all_anomalies. intro H.
  destruct (for_append _ _) as [anomalies|e] eqn:Ef; simpl in H; [|discriminate].
  destruct (collected_anomalies _ _ _ Ef) as [Hids Hunit].
  assert (Hne : anomalies <> [] /\
                rows = sort_values_desc AnomalyDetector.Anomaly_Score anomalies).
  { destruct anomalies; [discriminate|]. split; [discriminate|].
    injection H as <-. reflexivity. }
  destruct Hne as [Hne ->]. clear H.
  pose proof (sort_values_desc_perm AnomalyDetector.Anomaly_Score anomalies) as Hperm.
  split; [|split].
  - intro Hnil. rewrite Hnil in Hperm. apply Permutation_nil in Hperm. contradiction.
  - unfold DataProcessor.get_all_taxpayer_features. rewrite <- Hids.
    now apply Permutation_map.
  - apply sort_values_desc_sorted.
    eapply Forall_impl; [|exact Hunit]. intros a. apply in_unit_not_nan.
Qed.

Lemma collected_scores (rs : RiskScorer.t) (now : Z)
  (listed : list DataProcessor.Taxpayer) :
  (forall m X, RiskScorer.model rs = Some m -> in_unit (RiskScorer.predict_proba1 m X)) ->
  forall rows,
    for_append (RiskScorer.score_taxpayer rs now)
      (map DataProcessor.tp_Taxpayer_ID listed) = Ret rows ->
    map RiskScorer.Taxpayer_ID rows =
      map DataProcessor.Taxpayer_ID
        (flat_map (fun tp =>
                     match DataProcessor.get_taxpayer_features
                             (RiskScorer.data_processor rs) now
                             (DataProcessor.tp_Taxpayer_ID tp) with
                     | Some features => [features]
                     | None => []
                     end) listed) /\
    Forall (fun s => in_unit (RiskScorer.Risk_Score s)) rows.
Proof.
  intro Hprob.
  induction listed as [|tp rest IH]; simpl; intros rows H.
  - injection H as <-. split; [reflexivity | constructor].
  - destruct (RiskScorer.score_taxpayer rs now (DataProcessor.tp_Taxpayer_ID tp))
      as [o|e] eqn:Ed; simpl in H; [|discriminate].
    destruct (for_append _ (map DataProcessor.tp_Taxpayer_ID rest)) as [rows'|e] eqn:Er;
      simpl in H; [|discriminate].
    injection H as <-. destruct (IH _ eq_refl) as [IHids IHunit].
    destruct o as [s|].
    + apply score_taxpayer_some_inv in Ed.
      destruct Ed as (f & o & sc & m & Hf & _ & _ & Hm & Hs).
      cbv zeta in Hs. rewrite Hf. cbn [app map]. split.
      * rewrite Hs. cbn [RiskScorer.Taxpayer_ID].
        rewrite (features_id _ _ _ Hf). f_equal. exact IHids.
      * constructor; [|exact IHunit]. rewrite Hs. cbn [RiskScorer.Risk_Score].
        apply round4_in_unit. now apply Hprob.
    + rewrite (score_taxpayer_none_inv _ _ _ Ed). cbn [app]. now split.
Qed.

(** X16. With a classifier that predicts probabilities, the frame of
    [score_all_taxpayers] is not empty, holds one row per feature vector,
    and every row stands before all rows with a smaller or equal Risk_Score. *)
Theorem score_all_taxpayers_ranked
  (rs : RiskScorer.t) (now : Z) (rows : list RiskScorer.Score) :
  (forall m X, RiskScorer.model rs = Some m -> in_unit (RiskScorer.predict_proba1 m X)) ->
  RiskScorer.score_all_taxpayers rs now = Ret rows ->
  rows <> [] /\
  Permutation (map RiskScorer.Taxpayer_ID rows)
    (map DataProcessor.Taxpayer_ID
       (DataProcessor.get_all_taxpayer_features (RiskScorer.data_processor rs) now)) /\
  StronglySorted (Props.not_below RiskScorer.Risk_Score) rows.
Proof.
  unfold RiskScorer.score_all_taxpayers. intros Hprob H.
  destruct (for_append _ _) as [scores|e] eqn:Ef; simpl in H; [|discriminate].
  destruct (@collected_scores rs now _ Hprob _ Ef) as [Hids Hunit].
  assert (Hne : scores <> [] /\
                rows = sort_values_desc RiskScorer.Risk_Score scores).
  { destruct scores; [discriminate|]. split; [discriminate|].
    injection H as <-. reflexivity. }
  destruct Hne as [Hne ->]. clear H.
  pose proof (sort_values_desc_perm RiskScorer.Risk_Score scores) as Hperm.
  split; [|split].
  - intro Hnil. rewrite Hnil in Hperm. apply Permutation_nil in Hperm. contradiction.
  - unfold DataProcessor.get_all_taxpayer_features. rewrite <- Hids.
    now apply Permutation_map.
  - apply sort_values_desc_sorted.
    eapply Forall_impl; [|exact Hunit]. intros a. apply in_unit_not_nan.
Qed.

(* ------------------------------------------------------------------ *)
(** ** Further properties: risk levels, recommendations, explanations *)

Lemma risk_level_is_a_level (score : num) :
  In (RiskScorer._get_risk_level score) Props.levels.
Proof.
  unfold RiskScorer._get_risk_level, Props.levels.
  destruct (geb score (Fin 0.7)); [simpl; tauto|].
  destruct (geb score (Fin 0.5)); [simpl; tauto|].
  destruct (geb score (Fin 0.3)); simpl; tauto.
Qed.

Lemma recommendation_fallback_iff (level : string) :
  RiskScorer._get_recommendation level = Props.fallback_recommendation <->
  ~ In level Props.levels.
Proof.
  unfold RiskScorer._get_recommendation, Props.levels, Props.fallback_recommendation.
  destruct (String.eqb_spec level "CRITICAL") as [->|H1].
  { split; [discriminate | intro H; exfalso; apply H; simpl; tauto]. }
  destruct (String.eqb_spec level "HIGH") as [->|H2].
  { split; [discriminate | intro H; exfalso; apply H; simpl; tauto]. }
  destruct (String.eqb_spec level "MEDIUM") as [->|H3].
  { split; [discriminate | intro H; exfalso; apply H; simpl; tauto]. }
  destruct (String.eqb_spec level "LOW") as [->|H4].
  { split; [discriminate | intro H; exfalso; apply H; simpl; tauto]. }
  split; [|reflexivity]. intros _ [H|[H|[H|[H|[]]]]]; congruence.
Qed.

Lemma level_recommendation_not_fallback (score : num) :
  RiskScorer._get_recommendation (RiskScorer._get_risk_level score)
  <> Props.fallback_recommendation.
Proof.
  intro H. apply recommendation_fallback_iff in H.
  apply H, risk_level_is_a_level.
Qed.

(** X9. [_get_recommendation] gives its fallback sentence exactly for a
    string that is none of the four levels; the level of a score never
    gets the fallback, and different levels get different sentences. *)
Theorem recommendation_by_level (level : string) (score : num) :
  (RiskScorer._get_recommendation level = "Review recommended."%string <->
     ~ In level ["LOW"; "MEDIUM"; "HIGH"; "CRITICAL"]%string) /\
  RiskScorer._get_recommendation (RiskScorer._get_risk_level score)
    <> "Review recommended."%string /\
  (forall other,
      In level Props.levels -> In other Props.levels ->
      RiskScorer._get_recommendation level = RiskScorer._get_recommendation other ->
      level = other).
Proof.
  split; [apply recommendation_fallback_iff|].
  split; [apply level_recommendation_not_fallback|].
  intros other Hl Ho Heq. unfold Props.levels in Hl, Ho. simpl in Hl, Ho.
  destruct Hl as [<-|[<-|[<-|[<-|[]]]]]; destruct Ho as [<-|[<-|[<-|[<-|[]]]]];
    try reflexivity; vm_compute in Heq; discriminate Heq.
Qed.

(** X10. A higher score never gets a lower risk level. *)
Theorem risk_level_monotone (s1 s2 : num) :
  leb s1 s2 = true ->
  (Props.level_rank (RiskScorer._get_risk_level s1)
   <= Props.level_rank (RiskScorer._get_risk_level s2))%nat.
Proof.
  intro Hle.
  assert (Hup : forall c, leb c s1 = true -> leb c s2 = true)
    by (intros c Hc; exact (leb_trans _ _ _ Hc Hle)).
  unfold RiskScorer._get_risk_level, geb.
  destruct (leb (Fin 0.7) s1) eqn:E7; [rewrite (Hup _ E7); reflexivity|].
  destruct (leb (Fin 0.5) s1) eqn:E5.
  { rewrite (Hup _ E5). destruct (leb (Fin 0.7) s2); vm_compute; lia. }
  destruct (leb (Fin 0.3) s1) eqn:E3.
  { rewrite (Hup _ E3). destruct (leb (Fin 0.7) s2); [vm_compute; lia|].
    destruct (leb (Fin 0.5) s2); vm_compute; lia. }
  apply Nat.le_0_l.
Qed.

(** X11. When risk scorer and anomaly detector work on the same data,
    [get_risk_explanation] fails exactly as [score_taxpayer] fails, is null
    exactly when [score_taxpayer] is null, and otherwise repeats the score
    row's Risk_Score, Risk_Level and Anomaly_Score, carries the text of
    [get_anomaly_explanation], and a recommendation that is not the
    fallback. *)
Theorem risk_explanation_composes (rs : RiskScorer.t) (now : Z) (id : string) :
  AnomalyDetector.data_processor (RiskScorer.anomaly_detector rs) =
    RiskScorer.data_processor rs ->
  match RiskScorer.score_taxpayer rs now id with
  | Raise e => RiskScorer.get_risk_explanation rs now id = Raise e
  | Ret None => RiskScorer.get_risk_explanation rs now id = Ret None
  | Ret (Some s) =>
      exists ex e,
        AnomalyDetector.get_anomaly_explanation
          (RiskScorer.anomaly_detector rs) now id = Some ex /\
        RiskScorer.get_risk_explanation rs now id = Ret (Some e) /\
        RiskScorer.re_Risk_Score e = RiskScorer.Risk_Score s /\
        RiskScorer.re_Risk_Level e = RiskScorer.Risk_Level s /\
        RiskScorer.kf_Anomaly_Score (RiskScorer.re_Key_Factors e) =
          RiskScorer.Anomaly_Score s /\
        RiskScorer.re_Anomaly_Explanation e = AnomalyDetector.ex_Explanation ex /\
        RiskScorer.re_Recommendation e =
          RiskScorer._get_recommendation (RiskScorer.Risk_Level s) /\
        RiskScorer.re_Recommendation e <> "Review recommended."%string
  end.
Proof.
  intro Hshared. unfold RiskScorer.get_risk_explanation, RiskScorer.get_risk_explanation_at;
    fold_score_taxpayer.
  destruct (RiskScorer.score_taxpayer rs now id) as [[s|]|e] eqn:Es; simpl.
  - apply score_taxpayer_some_inv in Es.
    destruct Es as (f & o & sc & m & Hf & _ & _ & _ & Hs). cbv zeta in Hs.
    rewrite Hf. unfold AnomalyDetector.get_anomaly_explanation.
    rewrite Hshared, Hf. eexists. eexists.
    split; [reflexivity|]. split; [reflexivity|].
    cbn [RiskScorer.re_Risk_Score RiskScorer.re_Risk_Level RiskScorer.re_Key_Factors
         RiskScorer.kf_Anomaly_Score RiskScorer.re_Anomaly_Explanation
         RiskScorer.re_Recommendation AnomalyDetector.ex_Explanation].
    repeat split; try reflexivity.
    rewrite Hs. cbn [RiskScorer.Risk_Level]. apply level_recommendation_not_fallback.
  - reflexivity.
  - reflexivity.
Qed.

(* ------------------------------------------------------------------ *)
(** ** Further properties: training *)

Lemma cleaned_row_finite (X : list num) :
  Forall Props.finite (AnomalyDetector.zero_inf (AnomalyDetector.fillna0 X)).
Proof.
  unfold AnomalyDetector.zero_inf, AnomalyDetector.fillna0.
  induction X as [|x X IH]; simpl; constructor; [|exact IH].
  destruct x; exact I.
Qed.

(** Whether a store has any feature vector does not depend on the clock. *)
Lemma features_exist_at_any_time (dp : DataProcessor.t) (now now' : Z) :
  DataProcessor.get_all_taxpayer_features dp now <> [] ->
  DataProcessor.get_all_taxpayer_features dp now' <> [].
Proof.
  intros Hne Hnil. apply Hne.
  destruct (@all_features_of_sublist dp now (DataProcessor.master_data dp)) as [H1 _];
    [auto|].
  destruct (@all_features_of_sublist dp now' (DataProcessor.master_data dp)) as [H2 _];
    [auto|].
  cbv zeta in H1, H2.
  fold (DataProcessor.get_all_taxpayer_features dp now) in H1.
  fold (DataProcessor.get_all_taxpayer_features dp now') in H2.
  rewrite Hnil in H2. simpl in H2. rewrite <- H2 in H1.
  destruct (DataProcessor.get_all_taxpayer_features dp now); [reflexivity | discriminate].
Qed.

(** X6. [AnomalyDetector.train] raises KeyError when no taxpayer has a
    return.  A detector it returns works on the same data; its scaler and
    forest were fitted on a matrix with one row of three finite numbers per
    feature vector; and when the stored amounts are finite,
    [detect_all_anomalies] on it returns a frame at any later clock reading. *)
Theorem anomaly_train_outcome
  (fit_scaler : list (list num) -> AnomalyDetector.StandardScaler)
  (fit_forest : Q -> Z -> list (list num) -> AnomalyDetector.IsolationForest)
  (self : AnomalyDetector.t) (now : Z) :
  let dp := AnomalyDetector.data_processor self in
  (DataProcessor.get_all_taxpayer_features dp now = [] ->
     AnomalyDetector.train fit_scaler fit_forest self now = Raise KeyError) /\
  (forall detector,
     AnomalyDetector.train fit_scaler fit_forest self now = Ret detector ->
     exists X,
       List.length X = List.length (DataProcessor.get_all_taxpayer_features dp now) /\
       X <> [] /\
       Forall (fun row => List.length row = 3%nat /\ Forall Props.finite row) X /\
       detector =
         AnomalyDetector.mk dp
           (Some (fit_forest 0.1 42%Z
                    (map (AnomalyDetector.transform (fit_scaler X)) X)))
           (Some (fit_scaler X))
           (Some ["Input_Tax_Ratio"; "Revenue_Growth";
                  "Days_Since_Registration"]%string) /\
       (Props.finite_returns dp ->
        forall later,
          exists rows, AnomalyDetector.detect_all_anomalies detector later = Ret rows)).
Proof.
  intro dp. unfold AnomalyDetector.train. fold dp. split.
  - intros ->. reflexivity.
  - intros detector Hd.
    destruct (DataProcessor.get_all_taxpayer_features dp now) as [|f0 fs] eqn:Ef;
      [discriminate|].
    injection Hd as <-.
    exists (map AnomalyDetector.zero_inf
              (map (fun f => AnomalyDetector.fillna0 (AnomalyDetector.feature_row f))
                 (f0 :: fs))).
    split; [|split; [|split; [|split; [reflexivity|]]]].
    + rewrite !length_map. reflexivity.
    + discriminate.
    + apply Forall_forall. intros row Hrow.
      apply in_map_iff in Hrow. destruct Hrow as (row' & <- & Hrow').
      apply in_map_iff in Hrow'. destruct Hrow' as (f & <- & _).
      split; [reflexivity | apply cleaned_row_finite].
    + intros _ later.
      apply detect_all_fitted_returns.
      apply (@features_exist_at_any_time dp now later). rewrite Ef. discriminate.
Qed.

(** When the loop returns, its body returned on every id, and every row
    the body gave is in the frame. *)
Lemma for_append_returns_all {A : Type} (f : string -> result (option A))
  (ids : list string) (rows : list A) :
  for_append f ids = Ret rows ->
  forall id, In id ids ->
    exists o, f id = Ret o /\ forall r, o = Some r -> In r rows.
Proof.
  revert rows. induction ids as [|i rest IH]; simpl; intros rows H id Hin; [destruct Hin|].
  destruct (f i) as [o|e] eqn:Ef; simpl in H; [|discriminate].
  destruct (for_append f rest) as [rows'|e] eqn:Er; simpl in H; [|discriminate].
  injection H as <-.
  destruct Hin as [<-|Hin].
  - exists o. split; [exact Ef|]. intros r ->. now left.
  - destruct (IH _ eq_refl _ Hin) as (o' & Ho' & Hrows).
    exists o'. split; [exact Ho'|]. intros r Hr.
    specialize (Hrows r Hr). destruct o; [now right | exact Hrows].
Qed.

(** [detect_all_anomalies] unfolded: the sorted, non-empty collection. *)
Lemma detect_all_inv (det : AnomalyDetector.t) (now : Z)
  (rows : list AnomalyDetector.Anomaly) :
  AnomalyDetector.detect_all_anomalies det now = Ret rows ->
  exists collected,
    for_append (AnomalyDetector.detect_anomaly det now)
      (map DataProcessor.tp_Taxpayer_ID
         (DataProcessor.master_data (AnomalyDetector.data_processor det))) = Ret collected /\
    collected <> [] /\
    rows = sort_values_desc AnomalyDetector.Anomaly_Score collected.
Proof.
  unfold AnomalyDetector.detect_all_anomalies. intro H.
  destruct (for_append _ _) as [collected|e]; simpl in H; [|discriminate].
  exists collected. split; [reflexivity|].
  destruct collected; [discriminate|]. split; [discriminate|].
  injection H as <-. reflexivity.
Qed.

(** Only a fitted detector returns a frame. *)
Lemma detect_all_returns_fitted (det : AnomalyDetector.t) (now : Z)
  (rows : list AnomalyDetector.Anomaly) :
  AnomalyDetector.detect_all_anomalies det now = Ret rows ->
  exists sc fo,
    AnomalyDetector.scaler det = Some sc /\ AnomalyDetector.model det = Some fo.
Proof.
  intro H. apply detect_all_inv in H. destruct H as (collected & Hc & Hne & _).
  destruct collected as [|a rest]; [congruence|].
  destruct (@for_append_In _ _ _ _ a Hc (or_introl eq_refl)) as (i & _ & Ha).
  apply detect_anomaly_some_inv in Ha.
  destruct Ha as (f & sc & fo & _ & Hsc & Hfo & _). now exists sc, fo.
Qed.

(** [training_data] unfolded: the two left merges. *)
Lemma training_data_inv (self : RiskScorer.t) (now : Z) (rows : list RiskScorer.TrainingRow) :
  RiskScorer.training_data self now = Ret rows ->
  exists anomalies,
    AnomalyDetector.detect_all_anomalies (RiskScorer.anomaly_detector self) now
      = Ret anomalies /\
    rows =
      map (fun row : DataProcessor.Features * option AnomalyDetector.Anomaly
                     * option (string * Z) =>
             {| RiskScorer.tr_features := fst (fst row);
                RiskScorer.tr_Anomaly_Score :=
                  option_map AnomalyDetector.Anomaly_Score (snd (fst row));
                RiskScorer.tr_Is_Non_Compliant :=
                  match snd row with
                  | Some label => snd label
                  | None => 0%Z
                  end |})
        (RiskScorer.merge_left
           (fun row : DataProcessor.Features * option AnomalyDetector.Anomaly =>
              DataProcessor.Taxpayer_ID (fst row))
           fst
           (RiskScorer.merge_left DataProcessor.Taxpayer_ID AnomalyDetector.Taxpayer_ID
              (DataProcessor.get_all_taxpayer_features (RiskScorer.data_processor self) now)
              anomalies)
           (RiskScorer.audit_labels (RiskScorer.data_processor self))).
Proof.
  unfold RiskScorer.training_data. intro H.
  destruct (AnomalyDetector.detect_all_anomalies _ now) as [anomalies|e];
    simpl in H; [|discriminate].
  injection H as <-. exists anomalies. split; reflexivity.
Qed.

(** X13. With scorer and detector on the same data, the Anomaly_Score of
    every training row is present and is the score [detect_anomaly] reports
    for that taxpayer. *)
Theorem training_scores_are_live
  (self : RiskScorer.t) (now : Z) (rows : list RiskScorer.TrainingRow) :
  AnomalyDetector.data_processor (RiskScorer.anomaly_detector self) =
    RiskScorer.data_processor self ->
  RiskScorer.training_data self now = Ret rows ->
  Forall (fun row =>
            exists a,
              AnomalyDetector.detect_anomaly (RiskScorer.anomaly_detector self) now
                (DataProcessor.Taxpayer_ID (RiskScorer.tr_features row)) = Ret (Some a) /\
              RiskScorer.tr_Anomaly_Score row = Some (AnomalyDetector.Anomaly_Score a))
    rows.
Proof.
  intros Hshared H. apply training_data_inv in H.
  destruct H as (anomalies & Hall & ->).
  apply detect_all_inv in Hall. destruct Hall as (collected & Hc & _ & ->).
  set (det := RiskScorer.anomaly_detector self) in *.
  set (dp := RiskScorer.data_processor self) in *.
  apply Forall_forall. intros row Hrow.
  apply in_map_iff in Hrow. destruct Hrow as ([[f o] lab] & <- & Hin).
  apply merge_left_In in Hin. destruct Hin as [Hin _].
  apply merge_left_In in Hin. destruct Hin as [Hf Hmatch].
  cbn [RiskScorer.tr_features RiskScorer.tr_Anomaly_Score fst snd].
  destruct o as [a|].
  - apply filter_In in Hmatch. destruct Hmatch as [Ha Hkey].
    apply String.eqb_eq in Hkey.
    apply (sort_values_desc_In AnomalyDetector.Anomaly_Score a collected) in Ha.
    destruct (@for_append_In _ _ _ _ a Hc Ha) as (i & _ & Hd).
    pose proof (detect_anomaly_some _ _ _ Hd) as [Hid _].
    exists a. split; [|reflexivity]. rewrite Hkey, Hid. exact Hd.
  - exfalso.
    unfold DataProcessor.get_all_taxpayer_features in Hf.
    apply in_flat_map in Hf. destruct Hf as (tp & Htp & Hf).
    destruct (DataProcessor.get_taxpayer_features dp now (DataProcessor.tp_Taxpayer_ID tp))
      as [f'|] eqn:Ef; [|destruct Hf].
    destruct Hf as [<-|[]].
    assert (Hlisted : In (DataProcessor.tp_Taxpayer_ID tp)
                        (map DataProcessor.tp_Taxpayer_ID
                           (DataProcessor.master_data
                              (AnomalyDetector.data_processor det)))).
    { rewrite Hshared. now apply in_map. }
    destruct (for_append_returns_all _ _ Hc _ Hlisted) as (o & Ho & Hrows).
    destruct o as [a|].
    + specialize (Hrows a eq_refl).
      pose proof (detect_anomaly_some _ _ _ Ho) as [Hid _].
      assert (Hin : In a (filter (fun r => String.eqb (DataProcessor.Taxpayer_ID f')
                                             (AnomalyDetector.Taxpayer_ID r))
                            (sort_values_desc AnomalyDetector.Anomaly_Score collected))).
      { apply filter_In. split.
        - now apply sort_values_desc_In.
        - rewrite (features_id _ _ _ Ef), Hid. apply String.eqb_refl. }
      rewrite Hmatch in Hin. destruct Hin.
    + apply detect_anomaly_none_inv in Ho. rewrite Hshared in Ho. congruence.
Qed.

Lemma filter_key_at_most_one {A : Type} (key : A -> string) (k : string) (l : list A) :
  NoDup (map key l) ->
  (List.length (filter (fun r => String.eqb k (key r)) l) <= 1)%nat.
Proof.
  induction l as [|a l IH]; simpl; intro Hnd; [lia|].
  apply NoDup_cons_iff in Hnd. destruct Hnd as [Hfresh Hnd].
  destruct (String.eqb_spec k (key a)) as [->|Hne]; [|now apply IH].
  assert (Hnone : filter (fun r => String.eqb (key a) (key r)) l = []).
  { destruct (filter _ l) as [|b bs] eqn:E; [reflexivity|]. exfalso.
    assert (Hb : In b (b :: bs)) by now left.
    rewrite <- E in Hb. apply filter_In in Hb. destruct Hb as [Hb Hk].
    apply String.eqb_eq in Hk. apply Hfresh. rewrite Hk. now apply in_map. }
  rewrite Hnone. simpl. lia.
Qed.

(** A left merge against a frame with at most one match per row returns
    the left rows, one for one. *)
Lemma merge_left_keeps_left {L R : Type} (lkey : L -> string) (rkey : R -> string)
  (left : list L) (right : list R) :
  (forall l, In l left ->
     (List.length (filter (fun r => String.eqb (lkey l) (rkey r)) right) <= 1)%nat) ->
  map fst (RiskScorer.merge_left lkey rkey left right) = left.
Proof.
  unfold RiskScorer.merge_left.
  induction left as [|l rest IH]; intro Hone; [reflexivity|].
  cbn [flat_map]. rewrite map_app, IH by (intros; apply Hone; now right).
  specialize (Hone l (or_introl eq_refl)).
  destruct (filter (fun r => String.eqb (lkey l) (rkey r)) right) as [|r [|r' rs]];
    [reflexivity | reflexivity | simpl in Hone; lia].
Qed.

Lemma audit_labels_at_most_one (dp : DataProcessor.t) (k : string) :
  (List.length (filter (fun r : string * Z => String.eqb k (fst r))
                  (RiskScorer.audit_labels dp)) <= 1)%nat.
Proof.
  destruct (audit_labels_lookup dp k) as [[-> _] | ->]; simpl; lia.
Qed.

(** With unique ids in the master, the anomaly frame has unique ids. *)
Lemma anomaly_ids_unique (det : AnomalyDetector.t) (now : Z)
  (rows : list AnomalyDetector.Anomaly) :
  NoDup (map DataProcessor.tp_Taxpayer_ID
           (DataProcessor.master_data (AnomalyDetector.data_processor det))) ->
  AnomalyDetector.detect_all_anomalies det now = Ret rows ->
  NoDup (map AnomalyDetector.Taxpayer_ID rows).
Proof.
  intros Hnd H. apply detect_all_inv in H. destruct H as (collected & Hc & _ & ->).
  destruct (collected_anomalies _ _ _ Hc) as [Hids _].
  destruct (@all_features_of_sublist (AnomalyDetector.data_processor det) now
              (DataProcessor.master_data (AnomalyDetector.data_processor det)))
    as [Hfilter _]; [auto|].
  cbv zeta in Hfilter. rewrite Hfilter in Hids.
  apply (Permutation_NoDup
           (l := map AnomalyDetector.Taxpayer_ID collected)).
  - apply Permutation_map, Permutation_sym, sort_values_desc_perm.
  - rewrite Hids. now apply NoDup_filter.
Qed.

(** X12. When taxpayer ids are unique in the master the detector reads,
    the two left merges of [train] neither drop nor repeat a row: the
    training frame holds the feature vectors one for one, in their order. *)
Theorem training_frame_one_row_per_vector
  (self : RiskScorer.t) (now : Z) (rows : list RiskScorer.TrainingRow) :
  NoDup (map DataProcessor.tp_Taxpayer_ID
           (DataProcessor.master_data
              (AnomalyDetector.data_processor (RiskScorer.anomaly_detector self)))) ->
  RiskScorer.training_data self now = Ret rows ->
  map RiskScorer.tr_features rows =
  DataProcessor.get_all_taxpayer_features (RiskScorer.data_processor self) now.
Proof.
  intros Hnd H. apply training_data_inv in H.
  destruct H as (anomalies & Hall & ->).
  pose proof (anomaly_ids_unique _ _ Hnd Hall) as Hunique.
  rewrite map_map. cbn [RiskScorer.tr_features].
  rewrite <- (map_map fst fst).
  rewrite merge_left_keeps_left by (intros; apply audit_labels_at_most_one).
  apply merge_left_keeps_left. intros f _.
  now apply filter_key_at_most_one.
Qed.

Lemma training_labels_binary (self : RiskScorer.t) (now : Z)
  (rows : list RiskScorer.TrainingRow) :
  RiskScorer.training_data self now = Ret rows ->
  Forall (fun z => z = 0 \/ z = 1)%Z (map RiskScorer.tr_Is_Non_Compliant rows).
Proof.
  intro H. apply training_data_inv in H. destruct H as (anomalies & _ & ->).
  rewrite map_map. cbn [RiskScorer.tr_Is_Non_Compliant].
  apply Forall_forall. intros z Hz.
  apply in_map_iff in Hz. destruct Hz as ([l lab] & <- & Hin).
  apply merge_left_In in Hin. destruct Hin as [_ Hmatch]. cbn [snd].
  destruct lab as [[k v]|]; [|now left].
  destruct (audit_labels_lookup (RiskScorer.data_processor self)
              (DataProcessor.Taxpayer_ID (fst l))) as [[Hnil _] | Hone].
  - rewrite Hnil in Hmatch. destruct Hmatch.
  - rewrite Hone in Hmatch. destruct Hmatch as [Heq|[]].
    injection Heq as _ <-. cbn [snd].
    destruct (Spec.any_non_compliant _ _); auto.
Qed.

(** X14. [RiskScorer.train] fails as [training_data] fails.  A scorer it
    returns keeps its data and its detector; its scaler and classifier were
    fitted on one row of five finite numbers per training row and on labels
    that are 0 or 1. *)
Theorem risk_train_outcome
  (fit_scaler : list (list num) -> AnomalyDetector.StandardScaler)
  (fit_classifier :
     Z -> Q -> Z -> Z -> list (list num) -> list Z -> RiskScorer.GradientBoostingClassifier)
  (self : RiskScorer.t) (now : Z) :
  (forall e,
      RiskScorer.training_data self now = Raise e ->
      RiskScorer.train fit_scaler fit_classifier self now = Raise e) /\
  (forall trained,
      RiskScorer.train fit_scaler fit_classifier self now = Ret trained ->
      exists rows X y,
        RiskScorer.training_data self now = Ret rows /\
        List.length X = List.length rows /\
        y = map RiskScorer.tr_Is_Non_Compliant rows /\
        Forall (fun row => List.length row = 5%nat /\ Forall Props.finite row) X /\
        Forall (fun z => z = 0 \/ z = 1)%Z y /\
        trained =
          RiskScorer.mk (RiskScorer.data_processor self)
            (RiskScorer.anomaly_detector self)
            (Some (fit_classifier 100%Z 0.1 5%Z 42%Z
                     (map (AnomalyDetector.transform (fit_scaler X)) X) y))
            (Some (fit_scaler X))
            (Some ["Input_Tax_Ratio"; "Revenue_Growth"; "Days_Since_Registration";
                   "Anomaly_Score"; "Num_Returns"]%string)).
Proof.
  split.
  - intros e H. unfold RiskScorer.train. rewrite H. reflexivity.
  - intros trained H. unfold RiskScorer.train in H.
    destruct (RiskScorer.training_data self now) as [rows|e] eqn:Et; [|discriminate].
    cbn [bind] in H. injection H as <-.
    exists rows.
    exists (map AnomalyDetector.zero_inf
              (map (fun row => AnomalyDetector.fillna0 (RiskScorer.training_row_X row))
                 rows)).
    exists (map RiskScorer.tr_Is_Non_Compliant rows).
    split; [reflexivity|]. split; [|split; [reflexivity|split; [|split; [|reflexivity]]]].
    + rewrite !length_map. reflexivity.
    + apply Forall_forall. intros row Hrow.
      apply in_map_iff in Hrow. destruct Hrow as (row' & <- & Hrow').
      apply in_map_iff in Hrow'. destruct Hrow' as (r & <- & _).
      split; [reflexivity | apply cleaned_row_finite].
    + now apply (training_labels_binary self now).
Qed.

Lemma detect_anomaly_fitted_total (det : AnomalyDetector.t) (now : Z) (id : string)
  (sc : AnomalyDetector.StandardScaler) (fo : AnomalyDetector.IsolationForest) :
  AnomalyDetector.scaler det = Some sc ->
  AnomalyDetector.model det = Some fo ->
  exists o, AnomalyDetector.detect_anomaly det now id = Ret o.
Proof.
  intros Hsc Hfo. unfold AnomalyDetector.detect_anomaly. rewrite Hsc, Hfo.
  destruct (DataProcessor.get_taxpayer_features _ now id); simpl; eexists; reflexivity.
Qed.

(** A fitted scorer with a fitted detector scores every id, and gives a
    row whenever the taxpayer has a feature vector. *)
Lemma score_taxpayer_fitted_total (rs : RiskScorer.t) (now : Z) (id : string)
  (sc sc' : AnomalyDetector.StandardScaler) (fo : AnomalyDetector.IsolationForest)
  (m : RiskScorer.GradientBoostingClassifier) :
  RiskScorer.scaler rs = Some sc ->
  RiskScorer.model rs = Some m ->
  AnomalyDetector.scaler (RiskScorer.anomaly_detector rs) = Some sc' ->
  AnomalyDetector.model (RiskScorer.anomaly_detector rs) = Some fo ->
  exists o,
    RiskScorer.score_taxpayer rs now id = Ret o /\
    (DataProcessor.get_taxpayer_features (RiskScorer.data_processor rs) now id <> None ->
     o <> None).
Proof.
  intros Hsc Hm Hsc' Hfo. unfold RiskScorer.score_taxpayer, RiskScorer.score_taxpayer_at.
  destruct (DataProcessor.get_taxpayer_features _ now id) as [f|].
  - destruct (@detect_anomaly_fitted_total _ now id sc' fo Hsc' Hfo) as (o & ->).
    rewrite Hsc, Hm. simpl. eexists. split; [reflexivity | discriminate].
  - exists None. split; [reflexivity | congruence].
Qed.

Lemma score_all_fitted_returns (rs : RiskScorer.t) (now : Z)
  (sc sc' : AnomalyDetector.StandardScaler) (fo : AnomalyDetector.IsolationForest)
  (m : RiskScorer.GradientBoostingClassifier) :
  RiskScorer.scaler rs = Some sc ->
  RiskScorer.model rs = Some m ->
  AnomalyDetector.scaler (RiskScorer.anomaly_detector rs) = Some sc' ->
  AnomalyDetector.model (RiskScorer.anomaly_detector rs) = Some fo ->
  DataProcessor.get_all_taxpayer_features (RiskScorer.data_processor rs) now <> [] ->
  exists rows, RiskScorer.score_all_taxpayers rs now = Ret rows.
Proof.
  intros Hsc Hm Hsc' Hfo Hne. unfold RiskScorer.score_all_taxpayers.
  destruct (@for_append_total _ (RiskScorer.score_taxpayer rs now)
              (map DataProcessor.tp_Taxpayer_ID
                 (DataProcessor.master_data (RiskScorer.data_processor rs))))
    as (rows & Hr & Hrows).
  { intros i _.
    destruct (@score_taxpayer_fitted_total rs now i sc sc' fo m Hsc Hm Hsc' Hfo)
      as (o & Ho & _). now exists o. }
  rewrite Hr. simpl.
  destruct (DataProcessor.get_all_taxpayer_features (RiskScorer.data_processor rs) now)
    as [|f0 fs] eqn:Ea; [congruence|].
  assert (Hin : In f0 (DataProcessor.get_all_taxpayer_features
                         (RiskScorer.data_processor rs) now))
    by (rewrite Ea; now left).
  unfold DataProcessor.get_all_taxpayer_features in Hin.
  apply in_flat_map in Hin. destruct Hin as (tp & Htp & Hf).
  destruct (@score_taxpayer_fitted_total rs now (DataProcessor.tp_Taxpayer_ID tp)
              sc sc' fo m Hsc Hm Hsc' Hfo) as (o & Ho & Hsome).
  destruct o as [s|].
  - assert (Hlisted : In (DataProcessor.tp_Taxpayer_ID tp)
                        (map DataProcessor.tp_Taxpayer_ID
                           (DataProcessor.master_data (RiskScorer.data_processor rs))))
      by now apply in_map.
    specialize (Hrows _ _ Hlisted Ho).
    destruct rows; [destruct Hrows|]. eexists. reflexivity.
  - exfalso. apply Hsome; [|reflexivity].
    destruct (DataProcessor.get_taxpayer_features _ now (DataProcessor.tp_Taxpayer_ID tp));
      [discriminate | destruct Hf].
Qed.

Lemma detect_all_returns_features (det : AnomalyDetector.t) (now : Z)
  (rows : list AnomalyDetector.Anomaly) :
  AnomalyDetector.detect_all_anomalies det now = Ret rows ->
  DataProcessor.get_all_taxpayer_features (AnomalyDetector.data_processor det) now <> [].
Proof.
  intro H. apply detect_all_inv in H. destruct H as (collected & Hc & Hne & _).
  destruct (collected_anomalies _ _ _ Hc) as [Hids _].
  unfold DataProcessor.get_all_taxpayer_features. intro Hnil.
  rewrite Hnil in Hids. destruct collected; [congruence | discriminate].
Qed.

Lemma importance_keys (names : list string) (values : list num) :
  let importance := map (fun p : string * num => (fst p, round (snd p) 4))
                      (combine names values) in
  (List.length importance <= List.length names)%nat /\
  forall k v, In (k, v) importance -> In k names.
Proof.
  cbv zeta. split.
  - rewrite length_map, length_combine. lia.
  - intros k v Hin. apply in_map_iff in Hin. destruct Hin as ([k' v'] & Heq & Hin).
    injection Heq as <- _. now apply in_combine_l in Hin.
Qed.

(** X15. After a successful [RiskScorer.train], with scorer and detector
    on the same data and finite stored amounts, inference does not fail at
    any later clock reading:
    [score_taxpayer] returns for every id, [score_all_taxpayers] and
    [detect_all_anomalies] return their frames, and
    [get_feature_importance] returns a dictionary whose keys are among the
    five feature names. *)
Theorem risk_train_then_score
  (fit_scaler : list (list num) -> AnomalyDetector.StandardScaler)
  (fit_classifier :
     Z -> Q -> Z -> Z -> list (list num) -> list Z -> RiskScorer.GradientBoostingClassifier)
  (self trained : RiskScorer.t) (now : Z) :
  AnomalyDetector.data_processor (RiskScorer.anomaly_detector self) =
    RiskScorer.data_processor self ->
  Props.finite_returns (RiskScorer.data_processor self) ->
  RiskScorer.train fit_scaler fit_classifier self now = Ret trained ->
  (forall later id, exists o, RiskScorer.score_taxpayer trained later id = Ret o) /\
  (forall later, exists rows, RiskScorer.score_all_taxpayers trained later = Ret rows) /\
  (forall later, exists rows,
      AnomalyDetector.detect_all_anomalies
        (RiskScorer.anomaly_detector trained) later = Ret rows) /\
  exists importance,
    RiskScorer.get_feature_importance trained = Ret (Some importance) /\
    (List.length importance <= 5)%nat /\
    forall k v, In (k, v) importance -> In k RiskScorer.feature_cols.
Proof.
  intros Hshared _ H. unfold RiskScorer.train in H.
  destruct (RiskScorer.training_data self now) as [rows|e] eqn:Et; [|discriminate].
  cbn [bind] in H. injection H as Htrained.
  assert (Hparts : exists sc m,
             RiskScorer.scaler trained = Some sc /\
             RiskScorer.model trained = Some m /\
             RiskScorer.anomaly_detector trained = RiskScorer.anomaly_detector self /\
             RiskScorer.data_processor trained = RiskScorer.data_processor self /\
             RiskScorer.feature_names trained = Some RiskScorer.feature_cols).
  { rewrite <- Htrained. eexists. eexists. repeat split; reflexivity. }
  clear Htrained. destruct Hparts as (sc & m & Hsc & Hm & Hdet & Hdp & Hnames).
  apply training_data_inv in Et. destruct Et as (anomalies & Hall & _).
  destruct (detect_all_returns_fitted _ _ Hall) as (sc' & fo & Hsc' & Hfo).
  pose proof (detect_all_returns_features _ _ Hall) as Hne.
  rewrite <- Hdet in Hsc', Hfo, Hne, Hshared. rewrite <- Hdp in Hshared.
  split; [|split; [|split]].
  - intros later id.
    destruct (@score_taxpayer_fitted_total trained later id sc sc' fo m Hsc Hm Hsc' Hfo)
      as (o & Ho & _).
    now exists o.
  - intro later.
    apply (@score_all_fitted_returns trained later sc sc' fo m Hsc Hm Hsc' Hfo).
    rewrite <- Hshared.
    now apply (@features_exist_at_any_time _ now later).
  - intro later.
    destruct (RiskScorer.anomaly_detector trained) as [dp' mo' sca' names'] eqn:Ed.
    simpl in Hsc', Hfo, Hne. subst mo' sca'.
    apply detect_all_fitted_returns.
    now apply (@features_exist_at_any_time _ now later).
  - unfold RiskScorer.get_feature_importance. rewrite Hm, Hnames.
    eexists. split; [reflexivity|].
    apply (importance_keys RiskScorer.feature_cols).
Qed.

(* ------------------------------------------------------------------ *)
(** ** Further properties: the rows handed to the estimators *)

Lemma in_unit_finite (x : num) : in_unit x -> Props.finite x.
Proof. destruct x; try exact (fun _ => I); intros [H1 H2]; discriminate. Qed.

Lemma div_positive_finite (a b : Q) :
  gtb (Fin b) (Fin 0) = true -> Props.finite (div (Fin a) (Fin b)).
Proof.
  unfold gtb. simpl. intro H. apply Qltb_lt in H.
  assert (Hs : Qsign b = Gt).
  { unfold Qsign. destruct b as [n d]. unfold Qlt in H. cbn [Qnum Qden] in *.
    apply Z.compare_gt_iff. lia. }
  rewrite Hs. exact I.
Qed.

Lemma ratio_finite (claim revenue : num) :
  Props.finite claim -> Props.finite revenue ->
  Props.finite (if gtb revenue (Fin 0) then div claim revenue else Fin 0).
Proof.
  intros Hc Hr.
  destruct claim as [a| | |]; try destruct Hc.
  destruct revenue as [b| | |]; try destruct Hr.
  destruct (gtb (Fin b) (Fin 0)) eqn:Eg; [now apply div_positive_finite | exact I].
Qed.

Lemma growth_finite (current previous : num) :
  Props.finite current -> Props.finite previous ->
  Props.finite (if gtb previous (Fin 0)
                then div (sub current previous) previous else Fin 0).
Proof.
  intros Hc Hp.
  destruct current as [a| | |]; try destruct Hc.
  destruct previous as [b| | |]; try destruct Hp.
  change (sub (Fin a) (Fin b)) with (Fin (a + - b)).
  destruct (gtb (Fin b) (Fin 0)) eqn:Eg; [now apply div_positive_finite | exact I].
Qed.

Lemma recent_return_stored (dp : DataProcessor.t) (id : string) (k : nat)
  (r : DataProcessor.Return) :
  nth_error (rev (Spec.returns_of dp id)) k = Some r ->
  In r (DataProcessor.returns_data dp).
Proof.
  intro H. apply nth_error_In in H. apply in_rev in H.
  unfold Spec.returns_of in H. apply filter_In in H. tauto.
Qed.

(** With finite stored amounts the two derived ratios are finite. *)
Lemma features_finite (dp : DataProcessor.t) (now : Z) (id : string)
  (f : DataProcessor.Features) :
  Props.finite_returns dp ->
  DataProcessor.get_taxpayer_features dp now id = Some f ->
  Props.finite (DataProcessor.Input_Tax_Ratio f) /\
  Props.finite (DataProcessor.Revenue_Growth f).
Proof.
  intros Hfin H. rewrite features_on_recent in H.
  unfold Props.finite_returns in Hfin. rewrite Forall_forall in Hfin.
  destruct (Spec.taxpayer_rows dp id) as [|tp0 tps]; [discriminate|].
  destruct (nth_error (rev (Spec.returns_of dp id)) 0) as [latest|] eqn:E0; [|discriminate].
  destruct (Hfin _ (recent_return_stored _ _ _ E0)) as [Hrev Hclaim].
  destruct (nth_error (rev (Spec.returns_of dp id)) 1) as [previous|] eqn:E1;
    injection H as <-;
    cbn [DataProcessor.Input_Tax_Ratio DataProcessor.Revenue_Growth].
  - destruct (Hfin _ (recent_return_stored _ _ _ E1)) as [Hprev _].
    split; [now apply ratio_finite | now apply growth_finite].
  - split; [now apply ratio_finite | exact I].
Qed.

Lemma zero_inf_finite (X : list num) :
  Forall Props.finite X -> Forall Props.finite (AnomalyDetector.zero_inf X).
Proof.
  unfold AnomalyDetector.zero_inf. induction 1 as [|x X Hx HX IH]; simpl; constructor.
  - destruct x; try destruct Hx. exact I.
  - exact IH.
Qed.

(** X7. When the stored amounts are finite, every row that inference
    hands to a fitted scaler holds finite numbers only: the three features of
    [detect_anomaly], and the five of [score_taxpayer] with the detector's
    reported score or with 0 in its place. *)
Theorem inference_rows_finite
  (dp : DataProcessor.t) (now : Z) (id : string) (f : DataProcessor.Features) :
  Props.finite_returns dp ->
  DataProcessor.get_taxpayer_features dp now id = Some f ->
  Forall Props.finite (AnomalyDetector.zero_inf (AnomalyDetector.feature_row f)) /\
  Forall Props.finite (Spec.risk_row f (Fin 0)) /\
  (forall det a,
      AnomalyDetector.detect_anomaly det now id = Ret (Some a) ->
      Forall Props.finite (Spec.risk_row f (AnomalyDetector.Anomaly_Score a))).
Proof.
  intros Hfin Hf. destruct (features_finite _ _ Hfin Hf) as [Hratio Hgrowth].
  split; [|split].
  - apply zero_inf_finite. unfold AnomalyDetector.feature_row.
    repeat constructor; assumption.
  - unfold Spec.risk_row. apply zero_inf_finite. repeat constructor; assumption.
  - intros det a Ha. unfold Spec.risk_row. apply zero_inf_finite.
    pose proof (in_unit_finite (detect_anomaly_score_in_unit _ _ _ Ha)) as Hs.
    repeat constructor; assumption.
Qed.

(* ------------------------------------------------------------------ *)
(** ** Further properties: the application *)

(** [score_all_taxpayers] unfolded: the sorted, non-empty collection. *)
Lemma score_all_inv (rs : RiskScorer.t) (now : Z) (rows : list RiskScorer.Score) :
  RiskScorer.score_all_taxpayers rs now = Ret rows ->
  exists collected,
    for_append (RiskScorer.score_taxpayer rs now)
      (map DataProcessor.tp_Taxpayer_ID
         (DataProcessor.master_data (RiskScorer.data_processor rs))) = Ret collected /\
    collected <> [] /\
    rows = sort_values_desc RiskScorer.Risk_Score collected.
Proof.
  unfold RiskScorer.score_all_taxpayers. intro H.
  destruct (for_append _ _) as [collected|e]; simpl in H; [|discriminate].
  exists collected. split; [reflexivity|].
  destruct collected; [discriminate|]. split; [discriminate|].
  injection H as <-. reflexivity.
Qed.

(** X17. [initialize_system] raises KeyError when no taxpayer of the loaded
    data has a return.  When it returns, the three globals share the loaded
    data and the scorer holds the trained detector; when moreover the stored
    amounts are finite, the handlers that rank or look up taxpayers answer
    without an error at any clock reading. *)
Theorem initialize_system_outcome
  (fit_scaler : list (list num) -> AnomalyDetector.StandardScaler)
  (fit_forest : Q -> Z -> list (list num) -> AnomalyDetector.IsolationForest)
  (fit_classifier :
     Z -> Q -> Z -> Z -> list (list num) -> list Z -> RiskScorer.GradientBoostingClassifier)
  (loaded : DataProcessor.t) (t1 t2 : Z) :
  (DataProcessor.get_all_taxpayer_features loaded t1 = [] ->
     App.initialize_system fit_scaler fit_forest fit_classifier loaded t1 t2
       = Raise KeyError) /\
  (forall sys,
      App.initialize_system fit_scaler fit_forest fit_classifier loaded t1 t2 = Ret sys ->
      App.data_processor sys = loaded /\
      RiskScorer.data_processor (App.risk_scorer sys) = loaded /\
      AnomalyDetector.data_processor (App.anomaly_detector sys) = loaded /\
      RiskScorer.anomaly_detector (App.risk_scorer sys) = App.anomaly_detector sys /\
      (Props.finite_returns loaded ->
       forall now,
        (exists rows, App.api_anomalies sys now = Ret rows) /\
        (exists rows, App.api_risk_scores sys now = Ret rows) /\
        (exists rows, App.api_audit_candidates sys now = Ret rows) /\
        (forall id, exists answer, App.api_taxpayer_detail sys now id = Ret answer))).
Proof.
  unfold App.initialize_system, AnomalyDetector.train.
  cbn [AnomalyDetector.data_processor AnomalyDetector.init].
  split.
  - intros ->. reflexivity.
  - intros sys H.
    destruct (DataProcessor.get_all_taxpayer_features loaded t1) as [|f0 fs] eqn:Ef;
      [discriminate|].
    cbn [bind] in H.
    match type of H with
    | bind (RiskScorer.train _ _ (RiskScorer.init _ ?d) _) _ = _ => set (det := d) in *
    end.
    unfold RiskScorer.train in H.
    destruct (RiskScorer.training_data (RiskScorer.init loaded det) t2) as [rows|e];
      [|discriminate].
    cbn [bind] in H. injection H as <-.
    cbn [App.data_processor App.risk_scorer App.anomaly_detector
         RiskScorer.data_processor RiskScorer.anomaly_detector RiskScorer.init].
    assert (Hne : forall now, DataProcessor.get_all_taxpayer_features loaded now <> []).
    { intro now. apply (@features_exist_at_any_time loaded t1 now).
      rewrite Ef. discriminate. }
    split; [reflexivity|]. split; [reflexivity|]. split; [reflexivity|].
    split; [reflexivity|]. intros _ now. split; [|split; [|split]].
    + unfold App.api_anomalies. cbn [App.anomaly_detector].
      apply detect_all_fitted_returns, Hne.
    + unfold App.api_risk_scores. cbn [App.risk_scorer].
      eapply score_all_fitted_returns; try reflexivity. apply Hne.
    + unfold App.api_audit_candidates. cbn [App.risk_scorer].
      edestruct score_all_fitted_returns as (scores & ->); try reflexivity.
      * apply Hne.
      * cbn [bind]. eexists. reflexivity.
    + intro id. unfold App.api_taxpayer_detail.
      cbn [App.data_processor App.risk_scorer].
      destruct (filter _ (DataProcessor.master_data loaded)); [eexists; reflexivity|].
      edestruct score_taxpayer_fitted_total as (o & -> & _); try reflexivity.
      cbn [bind]. eexists. reflexivity.
Qed.

Lemma filter_length_all {A : Type} (p : A -> bool) (l : list A) :
  List.length (filter p l) = List.length l <-> Forall (fun x => p x = true) l.
Proof.
  induction l as [|x l IH]; simpl.
  - split; [constructor | reflexivity].
  - pose proof (filter_length_le p l) as Hle.
    destruct (p x) eqn:E; simpl.
    + split.
      * intro H. constructor; [exact E | apply IH; lia].
      * intro H. inversion H; subst. f_equal. now apply IH.
    + split; [lia|]. intro H. inversion H; congruence.
Qed.

Lemma rate_value (c n : nat) :
  (0 < n)%nat ->
  mul (div (of_int (Z.of_nat c)) (of_int (Z.of_nat n))) (Fin 100) =
  Fin (inject_Z (Z.of_nat c) / inject_Z (Z.of_nat n) * 100).
Proof.
  intro Hn. unfold of_int, div, Qsign. cbn [Qnum inject_Z].
  destruct (Z.compare_spec (Z.of_nat n) 0); try lia; reflexivity.
Qed.

(** X18. The compliance rate of [api_dashboard_stats] is 0 when there is no
    audit record; otherwise it lies between 0 and 100, and is 100 exactly
    when every audit finding is "Compliant". *)
Theorem compliance_rate_bounds (sys : App.System) :
  let audits := DataProcessor.audit_data (App.data_processor sys) in
  let rate := App.compliance_rate (App.api_dashboard_stats sys) in
  (audits = [] ->
     rate = Fin 0 /\ App.tax_recovery (App.api_dashboard_stats sys) = Fin 0) /\
  leb (Fin 0) rate = true /\
  leb rate (Fin 100) = true /\
  (audits <> [] ->
     (eqb rate (Fin 100) = true <->
      Forall (fun a => DataProcessor.au_Audit_Finding a = "Compliant"%string) audits)).
Proof.
  intros audits rate. unfold rate, App.api_dashboard_stats.
  cbn [App.compliance_rate App.tax_recovery]. fold audits.
  set (compliant := fun a => String.eqb (DataProcessor.au_Audit_Finding a) "Compliant").
  destruct audits as [|a0 rest] eqn:Ea.
  - split; [intros _; split; reflexivity|]. split; [reflexivity|].
    split; [reflexivity|]. intro H. congruence.
  - rewrite <- Ea. assert (Hn : (0 < List.length audits)%nat) by (rewrite Ea; simpl; lia).
    apply Nat.ltb_lt in Hn as Hb. rewrite Hb.
    rewrite rate_value by exact Hn.
    pose proof (filter_length_le compliant audits) as Hle.
    set (c := List.length (filter compliant audits)) in *.
    set (n := List.length audits) in *.
    assert (Hc0 : (0 <= inject_Z (Z.of_nat c))%Q)
      by (change 0%Q with (inject_Z 0); rewrite <- Zle_Qle; lia).
    assert (Hcn : (inject_Z (Z.of_nat c) <= inject_Z (Z.of_nat n))%Q)
      by (rewrite <- Zle_Qle; lia).
    assert (Hn0 : (0 < inject_Z (Z.of_nat n))%Q)
      by (change 0%Q with (inject_Z 0); rewrite <- Zlt_Qlt; lia).
    assert (Hu0 : (0 <= inject_Z (Z.of_nat c) / inject_Z (Z.of_nat n))%Q)
      by (apply Qle_shift_div_l; [exact Hn0 | lra]).
    assert (Hu1 : (inject_Z (Z.of_nat c) / inject_Z (Z.of_nat n) <= 1)%Q)
      by (apply Qle_shift_div_r; [exact Hn0 | lra]).
    assert (Hnz : ~ (inject_Z (Z.of_nat n) == 0)%Q) by lra.
    pose proof (Qmult_div_r (inject_Z (Z.of_nat c)) _ Hnz) as Hmul.
    set (u := (inject_Z (Z.of_nat c) / inject_Z (Z.of_nat n))%Q) in *.
    split; [intro Hnil; rewrite Ea in Hnil; discriminate Hnil|].
    split; [cbn [leb]; apply Qle_bool_iff; lra|].
    split; [cbn [leb]; apply Qle_bool_iff; lra|].
    intros _. cbn [eqb]. rewrite Qeq_bool_iff.
    assert (Hall : c = n <->
                   Forall (fun a => DataProcessor.au_Audit_Finding a = "Compliant"%string)
                     audits).
    { unfold c, n. rewrite filter_length_all. unfold compliant.
      split; intro H; (eapply Forall_impl; [|exact H]); intros a Ha;
        now apply String.eqb_eq. }
    rewrite <- Hall. split.
    + intro Hq. assert (Hu : (u == 1)%Q) by lra.
      rewrite Hu, Qmult_1_r in Hmul.
      assert (Heq : (inject_Z (Z.of_nat c) == inject_Z (Z.of_nat n))%Q)
        by (symmetry; exact Hmul).
      apply (proj1 (inject_Z_injective _ _)) in Heq. exact (Nat2Z.inj _ _ Heq).
    + intro Hcn'. subst u. rewrite Hcn'. unfold Qdiv.
      rewrite Qmult_inv_r by exact Hnz. reflexivity.
Qed.

(** In an ordered frame every row of a head stands before every row of the
    rest. *)
Lemma sorted_head_dominates {A : Type} (R : A -> A -> Prop) (n : nat) (rows : list A) :
  StronglySorted R rows ->
  forall kept left_out, In kept (firstn n rows) -> In left_out (skipn n rows) ->
    R kept left_out.
Proof.
  intro Hs. revert n. induction Hs as [|x rest Hs IH Hall]; intros n kept left_out Hk Hl.
  - rewrite firstn_nil in Hk. destruct Hk.
  - destruct n as [|n]; [destruct Hk|].
    simpl in Hk, Hl. destruct Hk as [<-|Hk].
    + rewrite Forall_forall in Hall. apply Hall.
      rewrite <- (firstn_skipn n rest). apply in_or_app. now right.
    + now apply (IH n).
Qed.

(** The frame of [score_all_taxpayers] is in order and has number keys. *)
Lemma score_all_in_order (rs : RiskScorer.t) (now : Z) (rows : list RiskScorer.Score) :
  (forall m X, RiskScorer.model rs = Some m -> in_unit (RiskScorer.predict_proba1 m X)) ->
  RiskScorer.score_all_taxpayers rs now = Ret rows ->
  Forall (fun s => is_nan (RiskScorer.Risk_Score s) = false) rows /\
  StronglySorted (Props.not_below RiskScorer.Risk_Score) rows.
Proof.
  intros Hprob H. apply score_all_inv in H. destruct H as (collected & Hc & _ & ->).
  destruct (@collected_scores rs now _ Hprob _ Hc) as [_ Hunit].
  assert (Hnan : Forall (fun s => is_nan (RiskScorer.Risk_Score s) = false) collected).
  { eapply Forall_impl; [|exact Hunit]. intros s. apply in_unit_not_nan. }
  split.
  - apply (Permutation_Forall
             (Permutation_sym (sort_values_desc_perm RiskScorer.Risk_Score collected))).
    exact Hnan.
  - now apply sort_values_desc_sorted.
Qed.

(** X19. With a classifier that predicts probabilities, the audit
    candidates carry the 20 highest Risk_Scores of the ranked score frame,
    in its order, and the high-risk list the 15 highest: the candidates and
    the rows left out make up the frame, no row left out has a higher
    Risk_Score than a candidate, and every high-risk row is a row of the
    frame cut to five columns.  Which of several rows with the same score
    come first is left open. *)
Theorem audit_candidates_have_top_scores
  (sys : App.System) (now : Z) (rows : list RiskScorer.Score) :
  (forall m X,
      RiskScorer.model (App.risk_scorer sys) = Some m ->
      in_unit (RiskScorer.predict_proba1 m X)) ->
  App.api_risk_scores sys now = Ret rows ->
  exists candidates high_risk,
    App.api_audit_candidates sys now = Ret candidates /\
    App.api_high_risk_taxpayers sys now = Ret high_risk /\
    map RiskScorer.Risk_Score candidates = firstn 20 (map RiskScorer.Risk_Score rows) /\
    map App.hr_Risk_Score high_risk = firstn 15 (map RiskScorer.Risk_Score rows) /\
    (exists left_out,
        Permutation rows (candidates ++ left_out) /\
        forall kept out,
          In kept candidates -> In out left_out ->
          leb (RiskScorer.Risk_Score out) (RiskScorer.Risk_Score kept) = true) /\
    (forall h,
        In h high_risk ->
        exists s,
          In s rows /\
          App.hr_Taxpayer_ID h = RiskScorer.Taxpayer_ID s /\
          App.hr_Business_Name h = RiskScorer.Business_Name s /\
          App.hr_Risk_Score h = RiskScorer.Risk_Score s /\
          App.hr_Industry_Name h = RiskScorer.Industry_Name s /\
          App.hr_Anomaly_Score h = RiskScorer.Anomaly_Score s).
Proof.
  unfold App.api_risk_scores, App.api_audit_candidates, App.api_high_risk_taxpayers.
  intros Hprob H. rewrite H. cbn [bind].
  destruct (score_all_in_order _ _ Hprob H) as [Hnan Hsorted].
  unfold App.nlargest.
  rewrite (@sort_values_desc_fixed _ RiskScorer.Risk_Score rows Hnan Hsorted).
  eexists. eexists. split; [reflexivity|]. split; [reflexivity|].
  split; [symmetry; apply firstn_map|].
  split; [rewrite map_map; symmetry; apply firstn_map|]. split.
  - exists (skipn 20 rows). split.
    + now rewrite firstn_skipn.
    + intros kept out Hk Hl.
      exact (@sorted_head_dominates _ _ 20 rows Hsorted kept out Hk Hl).
  - intros h Hh. apply in_map_iff in Hh. destruct Hh as (s & <- & Hs).
    exists s. split; [|repeat split].
    rewrite <- (firstn_skipn 15 rows). apply in_or_app. now left.
Qed.

Lemma no_rows_unknown (dp : DataProcessor.t) (id : string) :
  Spec.taxpayer_rows dp id = [] -> Spec.unknown dp id.
Proof.
  unfold Spec.unknown, Spec.taxpayer_rows. intros Hnil Hin.
  apply in_map_iff in Hin. destruct Hin as (tp & Hid & Hin).
  assert (Hf : In tp (filter (fun r => String.eqb (DataProcessor.tp_Taxpayer_ID r) id)
                        (DataProcessor.master_data dp)))
    by (apply filter_In; split; [exact Hin | now apply String.eqb_eq]).
  rewrite Hnil in Hf. destruct Hf.
Qed.

(** X20. [api_taxpayer_detail] answers 404 for an id that is not in the
    master.  When the ids of the master are text, it answers 404 only then:
    for a known id an error of [score_taxpayer] is passed on; otherwise the
    body holds the first master row of the id, exactly the stored returns
    and audit records of the id, and the result of [score_taxpayer], which,
    when the scorer reads the same data, is null exactly when the taxpayer
    has no return.  (An id column that [read_csv] holds as numbers never
    equals the text of a route.) *)
Theorem taxpayer_detail_answers (sys : App.System) (now : Z) (id : string) :
  let dp := App.data_processor sys in
  (Spec.unknown dp id -> App.api_taxpayer_detail sys now id = Ret App.NotFound) /\
  (Props.text_ids dp ->
   (App.api_taxpayer_detail sys now id = Ret App.NotFound -> Spec.unknown dp id) /\
   (forall e,
       ~ Spec.unknown dp id ->
       RiskScorer.score_taxpayer (App.risk_scorer sys) now id = Raise e ->
       App.api_taxpayer_detail sys now id = Raise e) /\
   (forall body,
       App.api_taxpayer_detail sys now id = Ret (App.Ok body) ->
       hd_error (Spec.taxpayer_rows dp id) = Some (App.taxpayer body) /\
       DataProcessor.tp_Taxpayer_ID (App.taxpayer body) = id /\
       App.returns body = Spec.returns_of dp id /\
       (forall a, In a (App.audits body) <->
                  In a (DataProcessor.audit_data dp) /\ DataProcessor.au_Taxpayer_ID a = id) /\
       RiskScorer.score_taxpayer (App.risk_scorer sys) now id = Ret (App.risk_score body) /\
       (RiskScorer.data_processor (App.risk_scorer sys) = dp ->
        (App.risk_score body = None <-> App.returns body = [])))).
Proof.
  intro dp. unfold App.api_taxpayer_detail. fold dp.
  change (filter (fun r => String.eqb (DataProcessor.tp_Taxpayer_ID r) id)
            (DataProcessor.master_data dp)) with (Spec.taxpayer_rows dp id).
  change (filter (fun r => String.eqb (DataProcessor.rt_Taxpayer_ID r) id)
            (DataProcessor.returns_data dp)) with (Spec.returns_of dp id).
  destruct (Spec.taxpayer_rows dp id) as [|tp0 tps] eqn:Em.
  - split; [reflexivity|]. intros _. split; [|split].
    + intros _. now apply no_rows_unknown.
    + intros e Hknown _. exfalso. apply Hknown. now apply no_rows_unknown.
    + intros body H. discriminate H.
  - assert (Hknown : ~ Spec.unknown dp id).
    { intro Hu. apply unknown_no_rows in Hu. congruence. }
    split; [intro Hu; contradiction|]. intros _. split; [|split].
    + destruct (RiskScorer.score_taxpayer _ now id); simpl; discriminate.
    + intros e _ He. rewrite He. reflexivity.
    + intros body H.
      destruct (RiskScorer.score_taxpayer (App.risk_scorer sys) now id) as [o|e] eqn:Es;
        simpl in H; [|discriminate].
      injection H as <-.
      cbn [App.taxpayer App.returns App.audits App.risk_score hd_error].
      destruct (first_taxpayer_row _ _ Em) as [_ Hid].
      split; [reflexivity|]. split; [exact Hid|]. split; [reflexivity|]. split.
      * intro a. rewrite filter_In. rewrite String.eqb_eq. reflexivity.
      * split; [reflexivity|]. intro Hshared. split.
        -- intros ->. apply score_taxpayer_none_inv in Es.
           rewrite Hshared in Es. apply features_none_iff in Es.
           destruct Es as [Hm|Hr]; [congruence | exact Hr].
        -- intro Hr. destruct o as [s|]; [|reflexivity]. exfalso.
           apply score_taxpayer_some in Es. destruct Es as [_ Hsome].
           apply Hsome. rewrite Hshared. apply features_none_iff. now right.
Qed.

Lemma sum_cons (x : nat) (l : list nat) : list_sum (x :: l) = (x + list_sum l)%nat.
Proof. reflexivity. Qed.

Section Counts.

Context {A : Type}.
Variable key : A -> string.

Lemma occurrences_absent (rows : list A) (k : string) :
  ~ In k (map key rows) -> Props.occurrences key rows k = 0%nat.
Proof.
  unfold Props.occurrences. intro Hnot.
  destruct (filter _ rows) as [|r rs] eqn:E; [reflexivity|]. exfalso.
  assert (Hr : In r (r :: rs)) by now left.
  rewrite <- E in Hr. apply filter_In in Hr. destruct Hr as [Hr Hk].
  apply String.eqb_eq in Hk. apply Hnot. rewrite <- Hk. now apply in_map.
Qed.

Lemma count_of_listed (ks : list string) (rows : list A) (k : string) :
  App.count_of (map (fun k' => (k', Props.occurrences key rows k')) ks) k =
  if in_dec string_dec k ks then Props.occurrences key rows k else 0%nat.
Proof.
  unfold App.count_of.
  induction ks as [|k' ks IH]; [reflexivity|].
  cbn [map find fst]. destruct (String.eqb_spec k' k) as [->|Hne].
  - cbn [snd]. destruct (in_dec string_dec k (k :: ks)) as [_|Hn]; [reflexivity|].
    exfalso. apply Hn. now left.
  - rewrite IH.
    destruct (in_dec string_dec k ks) as [Hin|Hn];
      destruct (in_dec string_dec k (k' :: ks)) as [Hin'|Hn']; try reflexivity.
    + exfalso. apply Hn'. now right.
    + exfalso. destruct Hin' as [Heq|Hin']; [congruence | contradiction].
Qed.

Lemma sum_of_indicator_absent (ks : list string) (k : string) :
  ~ In k ks ->
  list_sum (map (fun k' => if String.eqb k k' then 1 else 0)%nat ks) = 0%nat.
Proof.
  induction ks as [|k0 ks IH]; intro Hnot; [reflexivity|].
  rewrite map_cons, sum_cons.
  destruct (String.eqb_spec k k0) as [Heq|Hne].
  - exfalso. apply Hnot. left. now symmetry.
  - rewrite IH; [reflexivity|]. intro H. apply Hnot. now right.
Qed.

Lemma sum_of_indicator (ks : list string) (k : string) :
  NoDup ks -> In k ks ->
  list_sum (map (fun k' => if String.eqb k k' then 1 else 0)%nat ks) = 1%nat.
Proof.
  induction 1 as [|k' ks Hfresh Hnd IH]; intro Hin; [destruct Hin|].
  rewrite map_cons, sum_cons. destruct (String.eqb_spec k k') as [Heq|Hne].
  - subst k'. now rewrite sum_of_indicator_absent.
  - destruct Hin as [Heq|Hin]; [congruence|]. now rewrite IH.
Qed.

Lemma sum_of_sums (f g : string -> nat) (l : list string) :
  list_sum (map (fun k => f k + g k)%nat l) =
  (list_sum (map f l) + list_sum (map g l))%nat.
Proof.
  induction l as [|x l IHl]; [reflexivity|].
  rewrite !map_cons, !sum_cons, IHl. lia.
Qed.

(** Counting by key over a duplicate-free list of keys that covers the
    rows counts every row once. *)
Lemma occurrences_total (ks : list string) (rows : list A) :
  NoDup ks -> (forall r, In r rows -> In (key r) ks) ->
  list_sum (map (Props.occurrences key rows) ks) = List.length rows.
Proof.
  intro Hnd. induction rows as [|r rows IH]; intro Hcover.
  - clear. induction ks as [|k ks IHk]; [reflexivity|].
    rewrite map_cons, sum_cons, IHk. reflexivity.
  - assert (Hsplit : forall k,
               Props.occurrences key (r :: rows) k =
               ((if String.eqb (key r) k then 1 else 0)
                + Props.occurrences key rows k)%nat).
    { intro k. unfold Props.occurrences. simpl.
      destruct (String.eqb (key r) k); reflexivity. }
    rewrite (map_ext _ _ Hsplit).
    rewrite sum_of_sums, IH by (intros; apply Hcover; now right).
    rewrite sum_of_indicator; [reflexivity | exact Hnd |].
    apply Hcover. now left.
Qed.

Lemma size_by_facts (rows : list A) :
  NoDup (map fst (App.size_by key rows)) /\
  (forall k, App.count_of (App.size_by key rows) k = Props.occurrences key rows k) /\
  (forall k n, In (k, n) (App.size_by key rows) ->
     n = Props.occurrences key rows k /\ (1 <= n)%nat) /\
  list_sum (map snd (App.size_by key rows)) = List.length rows.
Proof.
  unfold App.size_by. fold (Props.occurrences key rows).
  split; [|split; [|split]].
  - rewrite map_map. cbn [fst]. rewrite map_id. apply NoDup_nodup.
  - intro k.
    change (fun k0 : string =>
              (k0, List.length (filter (fun r => String.eqb (key r) k0) rows)))
      with (fun k0 : string => (k0, Props.occurrences key rows k0)).
    rewrite count_of_listed.
    destruct (in_dec string_dec k (nodup string_dec (map key rows))) as [_|Hn];
      [reflexivity|].
    symmetry. apply occurrences_absent. intro H. apply Hn. now apply nodup_In.
  - intros k n Hin. apply in_map_iff in Hin. destruct Hin as (k' & Heq & Hin).
    injection Heq as Hk' Hn'. subst k' n. split; [reflexivity|].
    apply nodup_In in Hin. apply in_map_iff in Hin. destruct Hin as (r & Hk & Hr).
    assert (Hf : In r (filter (fun r0 => String.eqb (key r0) k) rows))
      by (apply filter_In; split; [exact Hr | now apply String.eqb_eq]).
    destruct (filter _ rows); [destruct Hf | simpl; lia].
  - rewrite map_map. cbn [snd].
    change (fun k0 : string => List.length (filter (fun r => String.eqb (key r) k0) rows))
      with (Props.occurrences key rows).
    apply occurrences_total.
    + apply NoDup_nodup.
    + intros r Hr. apply nodup_In. now apply in_map.
Qed.

End Counts.

(** X21. The report dictionaries split the rows by key: a key occurs once,
    its count is the number of rows with that value and at least 1, a value
    that does not occur counts 0, and the counts add up to the number of
    master rows, resp. of audit records; without audit records the
    compliance dictionary is empty. *)
Theorem report_counts_partition (sys : App.System) :
  let master := DataProcessor.master_data (App.data_processor sys) in
  let audits := DataProcessor.audit_data (App.data_processor sys) in
  NoDup (map fst (App.api_industry_stats sys)) /\
  NoDup (map fst (App.api_compliance_stats sys)) /\
  (forall name,
      App.count_of (App.api_industry_stats sys) name =
      List.length (filter (fun tp => String.eqb (DataProcessor.tp_Industry_Name tp) name)
                     master)) /\
  (forall finding,
      App.count_of (App.api_compliance_stats sys) finding =
      List.length (filter (fun a => String.eqb (DataProcessor.au_Audit_Finding a) finding)
                     audits)) /\
  (forall k n,
      In (k, n) (App.api_industry_stats sys) \/ In (k, n) (App.api_compliance_stats sys) ->
      (1 <= n)%nat) /\
  list_sum (map snd (App.api_industry_stats sys)) = List.length master /\
  list_sum (map snd (App.api_compliance_stats sys)) = List.length audits /\
  (audits = [] -> App.api_compliance_stats sys = []).
Proof.
  intros master audits.
  assert (Hc : App.api_compliance_stats sys =
               App.size_by DataProcessor.au_Audit_Finding audits).
  { unfold App.api_compliance_stats. fold audits.
    destruct audits; reflexivity. }
  rewrite Hc. unfold App.api_industry_stats. fold master.
  destruct (size_by_facts DataProcessor.tp_Industry_Name master) as (Hi1 & Hi2 & Hi3 & Hi4).
  destruct (size_by_facts DataProcessor.au_Audit_Finding audits) as (Ha1 & Ha2 & Ha3 & Ha4).
  split; [exact Hi1|]. split; [exact Ha1|]. split; [exact Hi2|]. split; [exact Ha2|].
  split.
  - intros k n [H|H]; [apply (Hi3 k n H) | apply (Ha3 k n H)].
  - split; [exact Hi4|]. split; [exact Ha4|]. intros ->. reflexivity.
Qed.

(* ------------------------------------------------------------------ *)
(** ** Further properties: benchmark and reported figures *)


(** X23. The three reports on a taxpayer show the same figures: the rounded
    Input_Tax_Ratio and Revenue_Growth of [detect_anomaly],
    [get_anomaly_explanation] and [get_risk_explanation] coincide, and the
    risk explanation carries the detector's Anomaly_Score and the number of
    stored returns. *)
Theorem reports_show_same_figures
  (rs : RiskScorer.t) (now : Z) (id : string)
  (a : AnomalyDetector.Anomaly) (ex : AnomalyDetector.Explanation)
  (e : RiskScorer.RiskExplanation) :
  AnomalyDetector.data_processor (RiskScorer.anomaly_detector rs) =
    RiskScorer.data_processor rs ->
  AnomalyDetector.detect_anomaly (RiskScorer.anomaly_detector rs) now id = Ret (Some a) ->
  AnomalyDetector.get_anomaly_explanation (RiskScorer.anomaly_detector rs) now id = Some ex ->
  RiskScorer.get_risk_explanation rs now id = Ret (Some e) ->
  AnomalyDetector.Input_Tax_Ratio a = AnomalyDetector.ex_Input_Tax_Ratio ex /\
  AnomalyDetector.Revenue_Growth a = AnomalyDetector.ex_Revenue_Growth ex /\
  RiskScorer.kf_Input_Tax_Ratio (RiskScorer.re_Key_Factors e) =
    AnomalyDetector.Input_Tax_Ratio a /\
  RiskScorer.kf_Revenue_Growth (RiskScorer.re_Key_Factors e) =
    AnomalyDetector.Revenue_Growth a /\
  RiskScorer.kf_Anomaly_Score (RiskScorer.re_Key_Factors e) =
    AnomalyDetector.Anomaly_Score a /\
  RiskScorer.kf_Num_Returns (RiskScorer.re_Key_Factors e) =
    List.length (Spec.returns_of (RiskScorer.data_processor rs) id) /\
  RiskScorer.re_Anomaly_Explanation e = AnomalyDetector.ex_Explanation ex.
Proof.
  intros Hshared Ha Hex He.
  pose proof Ha as Ha'. unfold AnomalyDetector.detect_anomaly in Ha'.
  unfold AnomalyDetector.get_anomaly_explanation in Hex.
  unfold RiskScorer.get_risk_explanation, RiskScorer.get_risk_explanation_at in He;
    fold_score_taxpayer.
  destruct (RiskScorer.score_taxpayer rs now id) as [[s|]|err] eqn:Es;
    cbn [bind] in He; try discriminate.
  pose proof (proj1 (@score_row_carries_anomaly rs now id s Es) a Ha) as Hscore.
  rewrite Hshared in Ha', Hex.
  destruct (DataProcessor.get_taxpayer_features (RiskScorer.data_processor rs) now id)
    as [f|] eqn:Ef; [|discriminate].
  pose proof (features_some_inv _ _ _ Ef) as (tp0 & tps & r0 & rs' & _ & Hr & _ & _ & _ & Hn & _).
  unfold AnomalyDetector.get_anomaly_explanation in He.
  rewrite Hshared, Ef in He.
  destruct (AnomalyDetector.scaler_transform _ _) as [Xs|?]; cbn [bind] in Ha'; [|discriminate].
  destruct (AnomalyDetector.model_score_samples _ _) as [raw|?]; cbn [bind] in Ha';
    [|discriminate].
  injection Ha' as Ha'. injection Hex as Hex. injection He as He.
  rewrite <- Ha', <- Hex, <- He.
  cbn [AnomalyDetector.Input_Tax_Ratio AnomalyDetector.Revenue_Growth
       AnomalyDetector.ex_Input_Tax_Ratio AnomalyDetector.ex_Revenue_Growth
       AnomalyDetector.ex_Explanation AnomalyDetector.Anomaly_Score
       RiskScorer.re_Key_Factors RiskScorer.kf_Input_Tax_Ratio
       RiskScorer.kf_Revenue_Growth RiskScorer.kf_Anomaly_Score
       RiskScorer.kf_Num_Returns RiskScorer.re_Anomaly_Explanation].
  split; [reflexivity|]. split; [reflexivity|]. split; [reflexivity|].
  split; [reflexivity|]. split.
  - rewrite Hscore, <- Ha'. reflexivity.
  - split; [|reflexivity]. rewrite Hn, Hr. reflexivity.
Qed.

(* ------------------------------------------------------------------ *)
(** ** Further concrete checks *)

Lemma demo_store_finite : Props.finite_returns Demo.finite_store.
Proof.
  unfold Props.finite_returns. simpl. repeat constructor.
Qed.

Lemma demo_ids_unique :
  NoDup (map DataProcessor.tp_Taxpayer_ID (DataProcessor.master_data Demo.finite_store)).
Proof. simpl. repeat constructor; simpl; intuition discriminate. Qed.

Lemma demo_probabilities (m : RiskScorer.GradientBoostingClassifier) (X : list num) :
  RiskScorer.model Demo.scorer = Some m -> in_unit (RiskScorer.predict_proba1 m X).
Proof. intro H. injection H as <-. split; reflexivity. Qed.

Lemma features_see_only_last_two_returns_witness :
  option_map Props.forget_count
    (DataProcessor.get_taxpayer_features Demo.finite_store now "T1") =
  option_map Props.forget_count
    (DataProcessor.get_taxpayer_features Demo.longer_history now "T1").
Proof.
  apply features_see_only_last_two_returns; reflexivity.
Defined.

Lemma days_since_registration_floor_witness :
  exists tp0,
    hd_error (Spec.taxpayer_rows Demo.finite_store "T2") = Some tp0 /\
    (an_hour_later < DataProcessor.tp_Registration_Date tp0 <-> False)%Z.
Proof.
  destruct (@days_since_registration_floor Demo.finite_store an_hour_later "T2" _ eq_refl)
    as (tp0 & Hhd & _ & Hsign).
  exists tp0. split; [exact Hhd|].
  split; [|intros []]. intro Hlt. apply Hsign in Hlt. vm_compute in Hlt. discriminate Hlt.
Defined.

Lemma anomaly_score_monotone_witness :
  exists f1 f4 a1 a4,
    DataProcessor.get_taxpayer_features Demo.finite_store now "T1" = Some f1 /\
    DataProcessor.get_taxpayer_features Demo.finite_store now "T4" = Some f4 /\
    ltb (Props.raw_measure Example.identity_scaler Demo.ratio_forest f1)
        (Props.raw_measure Example.identity_scaler Demo.ratio_forest f4) = true /\
    AnomalyDetector.detect_anomaly Demo.ratio_detector now "T1" = Ret (Some a1) /\
    AnomalyDetector.detect_anomaly Demo.ratio_detector now "T4" = Ret (Some a4) /\
    leb (AnomalyDetector.Anomaly_Score a4) (AnomalyDetector.Anomaly_Score a1) = true /\
    eqb (AnomalyDetector.Anomaly_Score a1) (Fin 0.5333) = true /\
    eqb (AnomalyDetector.Anomaly_Score a4) (Fin 0.52) = true.
Proof.
  eexists. eexists. eexists. eexists.
  split; [reflexivity|]. split; [reflexivity|]. split; [reflexivity|].
  split; [reflexivity|]. split; [reflexivity|]. split.
  - exact (proj1 (@anomaly_score_monotone Demo.ratio_detector now Example.identity_scaler
                    Demo.ratio_forest "T1" "T4" _ _ _ _
                    eq_refl eq_refl eq_refl eq_refl eq_refl eq_refl eq_refl)).
  - split; reflexivity.
Defined.

Lemma detect_all_anomalies_ranked_witness :
  exists rows,
    AnomalyDetector.detect_all_anomalies Demo.detector now = Ret rows /\
    StronglySorted (Props.not_below AnomalyDetector.Anomaly_Score) rows.
Proof.
  eexists. split; [reflexivity|].
  apply (@detect_all_anomalies_ranked Demo.detector now _ eq_refl).
Defined.

Lemma anomaly_train_outcome_witness :
  AnomalyDetector.train Demo.fit_scaler Demo.fit_forest
    (AnomalyDetector.init Demo.no_returns) now = Raise KeyError /\
  exists rows,
    AnomalyDetector.detect_all_anomalies Demo.detector next_day = Ret rows.
Proof.
  split.
  - apply (proj1 (anomaly_train_outcome Demo.fit_scaler Demo.fit_forest
                    (AnomalyDetector.init Demo.no_returns) now)).
    reflexivity.
  - destruct (proj2 (anomaly_train_outcome Demo.fit_scaler Demo.fit_forest
                       (AnomalyDetector.init Demo.finite_store) now)
                Demo.detector eq_refl) as (X & _ & _ & _ & _ & Hlater).
    apply Hlater. exact demo_store_finite.
Defined.

Lemma inference_rows_finite_witness :
  exists f,
    DataProcessor.get_taxpayer_features Demo.finite_store now "T1" = Some f /\
    Forall Props.finite (AnomalyDetector.zero_inf (AnomalyDetector.feature_row f)).
Proof.
  eexists. split; [reflexivity|].
  apply (@inference_rows_finite Demo.finite_store now "T1" _ demo_store_finite eq_refl).
Defined.

Lemma score_row_carries_detector_score_witness :
  exists s a,
    RiskScorer.score_taxpayer Demo.scorer now "T1" = Ret (Some s) /\
    AnomalyDetector.detect_anomaly Demo.detector now "T1" = Ret (Some a) /\
    RiskScorer.Anomaly_Score s = AnomalyDetector.Anomaly_Score a.
Proof.
  eexists. eexists. split; [reflexivity|]. split; [reflexivity|].
  apply (proj1 (@score_row_carries_detector_score Demo.scorer now "T1" _ eq_refl)).
  reflexivity.
Defined.

Lemma recommendation_by_level_witness :
  RiskScorer._get_recommendation "URGENT" = "Review recommended."%string /\
  RiskScorer._get_recommendation "HIGH" <> "Review recommended."%string.
Proof.
  split.
  - apply (proj1 (recommendation_by_level "URGENT" (Fin 0))).
    simpl. intros [H|[H|[H|[H|[]]]]]; discriminate H.
  - apply (proj1 (proj2 (recommendation_by_level "HIGH" (Fin 0.6)))).
Defined.

Lemma risk_level_monotone_witness :
  (Props.level_rank (RiskScorer._get_risk_level (Fin 0.4))
   <= Props.level_rank (RiskScorer._get_risk_level (Fin 0.8)))%nat.
Proof. apply risk_level_monotone. reflexivity. Defined.

Lemma risk_explanation_composes_witness :
  exists e,
    RiskScorer.get_risk_explanation Demo.scorer now "T4" = Ret (Some e) /\
    RiskScorer.re_Anomaly_Explanation e =
      "Input tax claim is 52.4% lower than industry benchmark"%string /\
    RiskScorer.re_Recommendation e <> "Review recommended."%string.
Proof.
  pose proof (@risk_explanation_composes Demo.scorer now "T4" eq_refl) as H.
  change (RiskScorer.score_taxpayer Demo.scorer now "T4")
    with (Ret (Some {| RiskScorer.Taxpayer_ID := "T4";
                       RiskScorer.Business_Name := "Delta Works";
                       RiskScorer.Industry_Name := "Milling";
                       RiskScorer.Risk_Score := round (Fin 0.69996) 4;
                       RiskScorer.Risk_Level := "HIGH";
                       RiskScorer.Anomaly_Score :=
                         round (round (AnomalyDetector.normalize (Fin 0.40008)) 4) 4 |}))
    in H.
  destruct H as (ex & e & Hex & He & _ & _ & _ & Htext & _ & Hrec).
  exists e. split; [exact He|]. split; [|exact Hrec].
  rewrite Htext. vm_compute in Hex. injection Hex as <-. reflexivity.
Defined.

Lemma training_frame_one_row_per_vector_witness :
  exists rows,
    RiskScorer.training_data Demo.scorer now = Ret rows /\
    map RiskScorer.tr_features rows =
    DataProcessor.get_all_taxpayer_features Demo.finite_store now.
Proof.
  eexists. split; [reflexivity|].
  apply (@training_frame_one_row_per_vector Demo.scorer now _ demo_ids_unique eq_refl).
Defined.

Lemma training_scores_are_live_witness :
  exists rows,
    RiskScorer.training_data Demo.scorer now = Ret rows /\
    Forall (fun row =>
              exists a,
                AnomalyDetector.detect_anomaly Demo.detector now
                  (DataProcessor.Taxpayer_ID (RiskScorer.tr_features row)) = Ret (Some a) /\
                RiskScorer.tr_Anomaly_Score row = Some (AnomalyDetector.Anomaly_Score a))
      rows.
Proof.
  eexists. split; [reflexivity|].
  apply (@training_scores_are_live Demo.scorer now _ eq_refl eq_refl).
Defined.

Lemma risk_train_outcome_witness :
  exists rows (X : list (list num)) (y : list Z),
    RiskScorer.training_data (RiskScorer.init Demo.finite_store Demo.detector) now
      = Ret rows /\
    List.length X = List.length rows /\
    Forall (fun z => z = 0 \/ z = 1)%Z y.
Proof.
  destruct (proj2 (risk_train_outcome Demo.fit_scaler Demo.fit_classifier
                     (RiskScorer.init Demo.finite_store Demo.detector) now)
              Demo.scorer eq_refl)
    as (rows & X & y & Hrows & Hlen & _ & _ & Hy & _).
  exists rows, X, y. split; [exact Hrows|]. split; [exact Hlen | exact Hy].
Defined.

Lemma risk_train_then_score_witness :
  (exists rows, RiskScorer.score_all_taxpayers Demo.scorer next_day = Ret rows) /\
  (exists o, RiskScorer.score_taxpayer Demo.scorer next_day "T9" = Ret o).
Proof.
  destruct (@risk_train_then_score Demo.fit_scaler Demo.fit_classifier
              (RiskScorer.init Demo.finite_store Demo.detector) Demo.scorer now
              eq_refl demo_store_finite eq_refl)
    as (Hone & Hall & _).
  split; [apply Hall | apply Hone].
Defined.

Lemma score_all_taxpayers_ranked_witness :
  exists rows,
    RiskScorer.score_all_taxpayers Demo.scorer now = Ret rows /\
    StronglySorted (Props.not_below RiskScorer.Risk_Score) rows.
Proof.
  eexists. split; [reflexivity|].
  apply (@score_all_taxpayers_ranked Demo.scorer now _ demo_probabilities eq_refl).
Defined.

Lemma initialize_system_outcome_witness :
  App.initialize_system Demo.fit_scaler Demo.fit_forest Demo.fit_classifier
    Demo.no_returns now an_hour_later = Raise KeyError /\
  exists answer, App.api_taxpayer_detail Demo.system next_day "T3" = Ret answer.
Proof.
  split.
  - apply (proj1 (initialize_system_outcome Demo.fit_scaler Demo.fit_forest
                    Demo.fit_classifier Demo.no_returns now an_hour_later)).
    reflexivity.
  - destruct (proj2 (initialize_system_outcome Demo.fit_scaler Demo.fit_forest
                       Demo.fit_classifier Demo.finite_store now an_hour_later)
                Demo.system eq_refl) as (_ & _ & _ & _ & Hserve).
    apply (Hserve demo_store_finite next_day).
Defined.

Lemma compliance_rate_bounds_witness :
  leb (App.compliance_rate (App.api_dashboard_stats Demo.system)) (Fin 100) = true /\
  eqb (App.compliance_rate (App.api_dashboard_stats Demo.system)) (Fin 100) = false.
Proof.
  destruct (compliance_rate_bounds Demo.system) as (_ & _ & Hhi & Hall).
  split; [exact Hhi|].
  destruct (eqb (App.compliance_rate (App.api_dashboard_stats Demo.system)) (Fin 100))
    eqn:E; [|reflexivity].
  exfalso. pose proof (proj1 (Hall ltac:(discriminate)) eq_refl) as HF.
  simpl in HF. inversion HF as [|? ? _ E1]; subst.
  inversion E1 as [|? ? _ E2]; subst.
  inversion E2 as [|? ? H _]; subst. discriminate H.
Defined.

Lemma audit_candidates_have_top_scores_witness :
  exists rows candidates,
    App.api_risk_scores Demo.system now = Ret rows /\
    App.api_audit_candidates Demo.system now = Ret candidates /\
    map RiskScorer.Risk_Score candidates = firstn 20 (map RiskScorer.Risk_Score rows) /\
    List.length candidates = 3%nat.
Proof.
  destruct (App.api_risk_scores Demo.system now) as [rows|e] eqn:E;
    [|vm_compute in E; discriminate].
  destruct (@audit_candidates_have_top_scores Demo.system now rows demo_probabilities E)
    as (candidates & high_risk & Hc & _ & Hscores & _).
  exists rows, candidates. split; [reflexivity|]. split; [exact Hc|]. split; [exact Hscores|].
  rewrite <- (length_map RiskScorer.Risk_Score), Hscores.
  vm_compute in E. injection E as <-. reflexivity.
Defined.

Lemma taxpayer_detail_answers_witness :
  Props.text_ids (App.data_processor Demo.system) /\
  App.api_taxpayer_detail Demo.system now "T9" = Ret App.NotFound /\
  forall body,
    App.api_taxpayer_detail Demo.system now "T3" = Ret (App.Ok body) ->
    App.risk_score body = None.
Proof.
  split; [reflexivity|]. split.
  - apply (proj1 (taxpayer_detail_answers Demo.system now "T9")).
    unfold Spec.unknown. simpl. intros [H|[H|[H|[H|[H|[]]]]]]; discriminate H.
  - intros body Hbody.
    destruct (proj2 (proj2 (proj2 (taxpayer_detail_answers Demo.system now "T3")
                              eq_refl)) body Hbody)
      as (_ & _ & Hreturns & _ & _ & Hnull).
    apply (Hnull eq_refl). rewrite Hreturns. reflexivity.
Defined.

Lemma report_counts_partition_witness :
  App.count_of (App.api_industry_stats Demo.system) "Retail" = 2%nat /\
  App.count_of (App.api_industry_stats Demo.system) "Mining" = 0%nat /\
  list_sum (map snd (App.api_compliance_stats Demo.system)) = 3%nat.
Proof.
  destruct (report_counts_partition Demo.system) as (_ & _ & Hcount & _ & _ & _ & Hsum & _).
  split; [rewrite Hcount; reflexivity|].
  split; [rewrite Hcount; reflexivity | exact Hsum].
Defined.


Lemma reports_show_same_figures_witness :
  exists a ex e,
    AnomalyDetector.detect_anomaly Demo.detector now "T4" = Ret (Some a) /\
    AnomalyDetector.get_anomaly_explanation Demo.detector now "T4" = Some ex /\
    RiskScorer.get_risk_explanation Demo.scorer now "T4" = Ret (Some e) /\
    AnomalyDetector.Input_Tax_Ratio a = AnomalyDetector.ex_Input_Tax_Ratio ex /\
    RiskScorer.kf_Anomaly_Score (RiskScorer.re_Key_Factors e) =
      AnomalyDetector.Anomaly_Score a /\
    RiskScorer.kf_Num_Returns (RiskScorer.re_Key_Factors e) = 2%nat.
Proof.
  destruct (AnomalyDetector.detect_anomaly Demo.detector now "T4") as [[a|]|err] eqn:Ea;
    [|vm_compute in Ea; discriminate..].
  destruct (AnomalyDetector.get_anomaly_explanation Demo.detector now "T4") as [ex|] eqn:Eex;
    [|vm_compute in Eex; discriminate].
  destruct (RiskScorer.get_risk_explanation Demo.scorer now "T4") as [[e|]|err] eqn:Ee;
    [|vm_compute in Ee; discriminate..].
  exists a, ex, e.
  pose proof (@reports_show_same_figures Demo.scorer now "T4" a ex e eq_refl Ea Eex Ee)
    as (H1 & _ & _ & _ & H5 & H6 & _).
  repeat split; try assumption.
Defined.
